(** * product-notifications: the event emission and consumption path

    A shallow embedding of the Go services [products] (REST API, store,
    publisher) and [notifications] (queue consumer), and the properties of
    the event path between them.

    Conventions of the embedding.
    - A Go [string] and a [[]byte] are a [string]: a sequence of 8-bit
      characters.
    - [int64] and [int] (64-bit) are [Z]; arithmetic that can leave the
      range is wrapped explicitly with [wrapInt].
    - A Go [error] is a value of [error]; the [nil] error is [None].
    - The collaborators behind interfaces (store, broker channel, clock)
      are functions over an abstract [World]; every call through an
      interface is recorded in a trace, the way the test doubles of the
      repository record the events they are handed. *)

From Stdlib Require Import ZArith List String Ascii Bool Lia DecimalString.
From Stdlib Require DecimalPos DecimalFacts.
From ExtLib Require Import Structures.Monad Data.Monads.StateMonad.
Import ListNotations.
Import MonadNotation.

Local Open Scope string_scope.
Local Open Scope monad_scope.
Local Open Scope Z_scope.

(** ** Bytes *)

Definition code (c : ascii) : Z := Z.of_N (N_of_ascii c).
Definition chr (z : Z) : ascii := ascii_of_N (Z.to_N z).

Definition dquote : ascii := "034"%char.
Definition backslash : ascii := "\"%char.

Definition between (lo x hi : Z) : bool := (lo <=? x) && (x <=? hi).

Definition isDigit (c : ascii) : bool := between 48 (code c) 57.
Definition digitVal (c : ascii) : Z := code c - 48.
Definition digit (n : Z) : ascii := chr (48 + n).


(** The value of a run of decimal digits; [None] on any other byte. *)
Fixpoint digitsValue (s : string) (acc : Z) : option Z :=
  match s with
  | EmptyString => Some acc
  | String c s' =>
    if isDigit c then digitsValue s' (acc * 10 + digitVal c) else None
  end.


(** The longest prefix of decimal digits, and what follows it. *)
Fixpoint takeDigits (s : string) : string * string :=
  match s with
  | String c s' =>
    if isDigit c then let (d, r) := takeDigits s' in (String c d, r)
    else (EmptyString, s)
  | EmptyString => (EmptyString, EmptyString)
  end.

(** ** Package [unicode/utf8] *)
Module Utf8.

Definition RuneError : Z := 65533.
Definition RuneSelf : Z := 128.

Definition cont (c : ascii) : bool := between 128 (code c) 191.

(** [utf8.DecodeRune]: the first rune of [s] and its width in bytes;
    [(RuneError, 1)] on an invalid or truncated encoding and
    [(RuneError, 0)] on the empty string. *)
Definition DecodeRune (s : string) : Z * nat :=
  match s with
  | EmptyString => (RuneError, 0%nat)
  | String c0 s1 =>
    let b0 := code c0 in
    if b0 <? RuneSelf then (b0, 1%nat)
    else
      match s1 with
      | EmptyString => (RuneError, 1%nat)
      | String c1 s2 =>
        let b1 := code c1 in
        if between 194 b0 223 then
          if cont c1 then ((b0 - 192) * 64 + (b1 - 128), 2%nat)
          else (RuneError, 1%nat)
        else if between 224 b0 239 then
          let lo := if b0 =? 224 then 160 else 128 in
          let hi := if b0 =? 237 then 159 else 191 in
          if between lo b1 hi then
            match s2 with
            | String c2 _ =>
              if cont c2
              then ((b0 - 224) * 4096 + (b1 - 128) * 64 + (code c2 - 128), 3%nat)
              else (RuneError, 1%nat)
            | EmptyString => (RuneError, 1%nat)
            end
          else (RuneError, 1%nat)
        else if between 240 b0 244 then
          let lo := if b0 =? 240 then 144 else 128 in
          let hi := if b0 =? 244 then 143 else 191 in
          if between lo b1 hi then
            match s2 with
            | String c2 (String c3 _) =>
              if cont c2 && cont c3
              then ((b0 - 240) * 262144 + (b1 - 128) * 4096
                    + (code c2 - 128) * 64 + (code c3 - 128), 4%nat)
              else (RuneError, 1%nat)
            | _ => (RuneError, 1%nat)
            end
          else (RuneError, 1%nat)
        else (RuneError, 1%nat)
      end
  end.

(** [utf8.EncodeRune] (surrogates and values past U+10FFFF become U+FFFD). *)
Definition EncodeRune (r : Z) : string :=
  let r := if (r <? 0) || (1114111 <? r) || between 55296 r 57343
           then RuneError else r in
  if r <? 128 then String (chr r) EmptyString
  else if r <? 2048 then
    String (chr (192 + r / 64)) (String (chr (128 + r mod 64)) EmptyString)
  else if r <? 65536 then
    String (chr (224 + r / 4096))
      (String (chr (128 + (r / 64) mod 64))
         (String (chr (128 + r mod 64)) EmptyString))
  else
    String (chr (240 + r / 262144))
      (String (chr (128 + (r / 4096) mod 64))
         (String (chr (128 + (r / 64) mod 64))
            (String (chr (128 + r mod 64)) EmptyString))).

(** [utf8.RuneStart]: the byte is not a continuation byte. *)
Definition RuneStart (c : ascii) : bool := negb (cont c).

End Utf8.

(** ** Package [strings] *)
Module Strings.

Fixpoint drop (n : nat) (s : string) : string :=
  match n, s with
  | O, _ => s
  | S n', String _ s' => drop n' s'
  | S _, EmptyString => EmptyString
  end.

Fixpoint rev_onto (s acc : string) : string :=
  match s with
  | EmptyString => acc
  | String c s' => rev_onto s' (String c acc)
  end.

Definition rev (s : string) : string := rev_onto s EmptyString.

(** [unicode.IsSpace]: the Latin-1 spaces and the code points with the
    White_Space property. *)
Definition IsSpace (r : Z) : bool :=
  between 9 r 13 || (r =? 32) || (r =? 133) || (r =? 160)
  || (r =? 5760) || between 8192 r 8202 || (r =? 8232) || (r =? 8233)
  || (r =? 8239) || (r =? 8287) || (r =? 12288).

(** The white space of the ASCII fast path of [TrimSpace]. *)
Definition asciiSpace (c : ascii) : bool :=
  between 9 (code c) 13 || (code c =? 32).

Fixpoint allAsciiSpace (s : string) : bool :=
  match s with
  | EmptyString => true
  | String c s' => asciiSpace c && allAsciiSpace s'
  end.

(** [strings.TrimLeftFunc s unicode.IsSpace]. The fuel is the number of
    bytes left, which every step decreases. *)
Fixpoint trimLeft (fuel : nat) (s : string) : string :=
  match fuel with
  | O => s
  | S fuel' =>
    match s with
    | EmptyString => EmptyString
    | _ =>
      let (r, size) := Utf8.DecodeRune s in
      if IsSpace r then trimLeft fuel' (drop size s) else s
    end
  end.

Definition TrimLeftSpace (s : string) : string := trimLeft (length s) s.

(** [utf8.DecodeLastRuneInString], on the reversed string [r]: the rune
    that ends the string and its width. *)
Definition DecodeLastRune (r : string) : Z * nat :=
  match r with
  | EmptyString => (Utf8.RuneError, 0%nat)
  | String c0 r1 =>
    if code c0 <? Utf8.RuneSelf then (code c0, 1%nat)
    else
      (* walk back over at most three more bytes to a start byte *)
      let try (bytes : string) (n : nat) : Z * nat :=
          let (rn, size) := Utf8.DecodeRune bytes in
          if Nat.eqb size n then (rn, size) else (Utf8.RuneError, 1%nat) in
      match r1 with
      | EmptyString => try (String c0 EmptyString) 1%nat
      | String c1 r2 =>
        if Utf8.RuneStart c1 then try (String c1 (String c0 EmptyString)) 2%nat
        else
          match r2 with
          | EmptyString => try (String c1 (String c0 EmptyString)) 2%nat
          | String c2 r3 =>
            if Utf8.RuneStart c2
            then try (String c2 (String c1 (String c0 EmptyString))) 3%nat
            else
              match r3 with
              | EmptyString =>
                try (String c2 (String c1 (String c0 EmptyString))) 3%nat
              | String c3 _ =>
                try (String c3 (String c2 (String c1 (String c0 EmptyString)))) 4%nat
              end
          end
      end
  end.

(** [strings.TrimRightFunc s unicode.IsSpace], on the reversed string. *)
Fixpoint trimRightRev (fuel : nat) (r : string) : string :=
  match fuel with
  | O => r
  | S fuel' =>
    match r with
    | EmptyString => EmptyString
    | _ =>
      let (rn, size) := DecodeLastRune r in
      if IsSpace rn then trimRightRev fuel' (drop size r) else r
    end
  end.

Definition TrimRightSpace (s : string) : string :=
  rev (trimRightRev (length s) (rev s)).

(** [strings.Repeat]. *)
Fixpoint Repeat (s : string) (count : nat) : string :=
  match count with
  | O => EmptyString
  | S n => s ++ Repeat s n
  end.

(** [strings.TrimSpace]: leading and trailing white space removed. (The
    ASCII fast path of the library computes the same slice.) *)
Definition TrimSpace (s : string) : string :=
  TrimRightSpace (TrimLeftSpace s).

End Strings.

(** [utf8.ValidString]: the string consists of valid encodings only. The
    fuel is the number of bytes. *)
Fixpoint validRunes (fuel : nat) (s : string) : bool :=
  match fuel with
  | O => match s with EmptyString => true | _ => false end
  | S fuel' =>
    match s with
    | EmptyString => true
    | _ =>
      let (r, size) := Utf8.DecodeRune s in
      if (r =? Utf8.RuneError) && Nat.eqb size 1 then false
      else validRunes fuel' (Strings.drop size s)
    end
  end.

Definition ValidString (s : string) : bool := validRunes (length s) s.

(** ** Errors

    The error values of the repository and of the libraries it calls.
    [fmt.Errorf(format, args..., err)] with a single [%w] is
    [Wrapped format args err]; [errors.Is] walks the chain of wrapped
    errors. *)
Inductive error : Type :=
| ErrNotFound                       (* products.ErrNotFound *)
| ErrInvalidName                    (* products.ErrInvalidName *)
| ErrExternal (msg : string)        (* raised by a collaborator *)
| ErrSyntax                         (* json.SyntaxError *)
| ErrUnmarshalType (value : string) (* json.UnmarshalTypeError *)
| ErrTimeFormat (msg : string)      (* raised by package time *)
| ErrMarshaler (e : error)          (* json.MarshalerError *)
| Wrapped (format : string) (args : list string) (e : error).

Fixpoint errorIs (e target : error) : bool :=
  match e, target with
  | ErrNotFound, ErrNotFound => true
  | ErrInvalidName, ErrInvalidName => true
  | ErrExternal a, ErrExternal b => String.eqb a b
  | Wrapped _ _ e', _ => errorIs e' target
  | ErrMarshaler e', _ => errorIs e' target
  | _, _ => false
  end.

Inductive result (A : Type) : Type :=
| Ok (a : A)
| Err (e : error).
Arguments Ok {A} a.
Arguments Err {A} e.

(** ** Machine integers *)

Definition minInt64 : Z := - 2 ^ 63.
Definition maxInt64 : Z := 2 ^ 63 - 1.
Definition inInt64 (z : Z) : bool := between minInt64 z maxInt64.

(** The value of a 64-bit signed result: two's-complement wrap-around. *)
Definition wrapInt (z : Z) : Z := (z + 2 ^ 63) mod 2 ^ 64 - 2 ^ 63.

(** ** Package [time] *)
Module Time.

(** A [time.Time]: the instant as seconds and nanoseconds since the Unix
    epoch, and the offset of its location east of UTC in seconds. *)
Record Time : Type := mkTime {
  unixSec : Z;
  nsec : Z;
  offset : Z
}.

(** The zero [time.Time]: January 1, year 1, 00:00:00 UTC. *)
Definition zero : Time := mkTime (-62135596800) 0 0.

(** [t.UTC()]: the same instant, read in UTC. *)
Definition UTC (t : Time) : Time := mkTime (unixSec t) (nsec t) 0.

Definition isLeap (year : Z) : bool :=
  (year mod 4 =? 0) && (negb (year mod 100 =? 0) || (year mod 400 =? 0)).

Definition daysIn (month year : Z) : Z :=
  if month =? 2 then (if isLeap year then 29 else 28)
  else if (month =? 4) || (month =? 6) || (month =? 9) || (month =? 11)
       then 30 else 31.

(** Days since the Unix epoch of a proleptic Gregorian date. *)
Definition daysFromCivil (y m d : Z) : Z :=
  let y' := if m <=? 2 then y - 1 else y in
  let era := y' / 400 in
  let yoe := y' - era * 400 in
  let mp := if 2 <? m then m - 3 else m + 9 in
  let doy := (153 * mp + 2) / 5 + d - 1 in
  let doe := yoe * 365 + yoe / 4 - yoe / 100 + doy in
  era * 146097 + doe - 719468.

(** The proleptic Gregorian date of a day number: (year, month, day). *)
Definition civilFromDays (days : Z) : Z * Z * Z :=
  let z := days + 719468 in
  let era := z / 146097 in
  let doe := z - era * 146097 in
  let yoe := (doe - doe / 1460 + doe / 36524 - doe / 146096) / 365 in
  let doy := doe - (365 * yoe + yoe / 4 - yoe / 100) in
  let mp := (5 * doy + 2) / 153 in
  let d := doy - (153 * mp + 2) / 5 + 1 in
  let m := if mp <? 10 then mp + 3 else mp - 9 in
  let y := yoe + era * 400 in
  ((if m <=? 2 then y + 1 else y), m, d).

(** The wall-clock reading of [t] in its own location. *)
Definition localSec (t : Time) : Z := unixSec t + offset t.

Definition Year (t : Time) : Z :=
  let '(y, _, _) := civilFromDays (localSec t / 86400) in y.

(** [time.Date(year, month, day, hour, min, sec, nsec, time.UTC)], for
    arguments that are already in range. *)
Definition Date (year month day hour min sec ns : Z) : Time :=
  mkTime (daysFromCivil year month day * 86400 + hour * 3600 + min * 60 + sec)
         ns 0.

(** Decimal digits of a natural number, most significant first, padded
    with zeros to [width] digits. *)
Fixpoint padded (width : nat) (n : Z) (acc : string) : string :=
  match width with
  | O => acc
  | S w => padded w (n / 10) (String (digit (n mod 10)) acc)
  end.

(** The fractional second of the layout [.999999999]: nothing when zero,
    else nine digits with the trailing zeros trimmed. *)
Fixpoint trimZerosRev (r : string) : string :=
  match r with
  | String "0"%char r' => trimZerosRev r'
  | _ => r
  end.

Definition fraction (ns : Z) : string :=
  if ns =? 0 then EmptyString
  else String "."%char
         (Strings.rev (trimZerosRev (Strings.rev (padded 9 ns EmptyString)))).

(** The zone of the layout [Z07:00]: the offset in whole minutes, rounded
    towards zero. *)
Definition zone (off : Z) : string :=
  if off =? 0 then "Z"
  else
    let mins := Z.quot off 60 in
    String (if mins <? 0 then "-"%char else "+"%char)
      (padded 2 (Z.abs mins / 60)
         (String ":"%char (padded 2 (Z.abs mins mod 60) EmptyString))).

(** [t.appendStrictRFC3339]: the layout [RFC3339Nano]; it fails when the
    year does not fit four digits, or the zone hour two. *)
Definition appendStrictRFC3339 (t : Time) : result string :=
  let s := localSec t in
  let '(y, m, d) := civilFromDays (s / 86400) in
  let sod := s mod 86400 in
  if (y <? 0) || (9999 <? y) then
    Err (ErrTimeFormat "year outside of range [0,9999]")
  else if 24 <=? Z.abs (offset t) / 3600 then
    Err (ErrTimeFormat "timezone hour outside of range [0,23]")
  else
    Ok (String.concat EmptyString
          [padded 4 y EmptyString; "-"; padded 2 m EmptyString; "-";
           padded 2 d EmptyString; "T";
           padded 2 (sod / 3600) EmptyString; ":";
           padded 2 ((sod / 60) mod 60) EmptyString; ":";
           padded 2 (sod mod 60) EmptyString;
           fraction (nsec t); zone (offset t)]).

(** [parseUint] of [parseRFC3339]: an unsigned decimal within [lo, hi]. *)
Definition parseUint (s : string) (lo hi : Z) : option Z :=
  match digitsValue s 0 with
  | Some x => if between lo x hi then Some x else None
  | None => None
  end.

(** [parseNanoseconds]: the digits after the period, read as a fraction
    of a second; digits past the ninth are dropped. *)
Fixpoint nanos (digits : string) (scale : nat) (acc : Z) : Z :=
  match scale with
  | O => acc
  | S k =>
    match digits with
    | String c d' => nanos d' k (acc * 10 + digitVal c)
    | EmptyString => nanos EmptyString k (acc * 10)
    end
  end.

(** [parseRFC3339]: the fast path of the RFC 3339 parser,
    [2006-01-02T15:04:05[.fraction](Z|+07:00)]. *)
Definition parseRFC3339 (s : string) : option Time :=
  match s with
  | String y1 (String y2 (String y3 (String y4 (String "-"%char
    (String m1 (String m2 (String "-"%char
    (String d1 (String d2 (String "T"%char
    (String h1 (String h2 (String ":"%char
    (String n1 (String n2 (String ":"%char
    (String s1 (String s2 rest)))))))))))))))))) =>
    let str2 (a b : ascii) := String a (String b EmptyString) in
    match parseUint (String y1 (String y2 (str2 y3 y4))) 0 9999,
          parseUint (str2 m1 m2) 1 12 with
    | Some year, Some month =>
      match parseUint (str2 d1 d2) 1 (daysIn month year),
            parseUint (str2 h1 h2) 0 23,
            parseUint (str2 n1 n2) 0 59,
            parseUint (str2 s1 s2) 0 59 with
      | Some day, Some hour, Some min, Some sec =>
        let (ns, rest) :=
            match rest with
            | String "."%char (String c r) =>
              if isDigit c then
                let (ds, r') := takeDigits (String c r) in (nanos ds 9 0, r')
              else (0, rest)
            | _ => (0, rest)
            end in
        let t := Date year month day hour min sec ns in
        match rest with
        | String "Z"%char EmptyString => Some t
        | String sg (String z1 (String z2 (String ":"%char
          (String z3 (String z4 EmptyString))))) =>
          match parseUint (str2 z1 z2) 0 23, parseUint (str2 z3 z4) 0 59 with
          | Some hr, Some mm =>
            let off := (hr * 60 + mm) * 60 in
            if Ascii.eqb sg "+"%char
            then Some (mkTime (unixSec t - off) ns off)
            else if Ascii.eqb sg "-"%char
            then Some (mkTime (unixSec t + off) ns (- off))
            else None
          | _, _ => None
          end
        | _ => None
        end
      | _, _, _, _ => None
      end
    | _, _ => None
    end
  | _ => None
  end.

End Time.

(** ** Package [products]: the shared domain vocabulary *)
Module Products.

Definition EventsQueue : string := "products.events".
Definition EventCreated : string := "product_created".
Definition EventDeleted : string := "product_deleted".

(** [Product]; its [Name] field is [PName] here, next to the [Name] of
    [ProductEvent]. *)
Record Product : Type := mkProduct {
  ID : Z;
  PName : string;
  CreatedAt : Time.Time
}.

Definition zeroProduct : Product := mkProduct 0 EmptyString Time.zero.

Record ProductEvent : Type := mkEvent {
  EventType : string;
  ProductID : Z;
  Name : string;
  Timestamp : Time.Time
}.

Definition zeroEvent : ProductEvent := mkEvent EmptyString 0 EmptyString Time.zero.

End Products.
Import Products.

(** ** Package [service]: the business logic of the products API *)
Module Service.

Definition defaultPageSize : Z := 10.
Definition maxPageSize : Z := 100.

(** What the service does to its surroundings, in program order: the
    calls through its two interfaces, the error lines it logs and the
    counters it increments. *)
Inductive Effect : Type :=
| RepoCreate (name : string)
| RepoDelete (id : Z)
| RepoList (limit offset : Z)
| RepoCount
| Published (event : ProductEvent)
| LogError (msg : string) (product_id : Z) (err : error)
| CreatedInc
| DeletedInc.

Section WithWorld.

(** The state of everything outside the service: the store, the broker
    and the clock. *)
Variable World : Type.

(** The [Repository] interface. *)
Record Repository : Type := {
  Create : string -> World -> result Product * World;
  Delete : Z -> World -> option error * World;
  List : Z -> Z -> World -> result (list Product) * World;
  Count : World -> result Z * World
}.

(** The [Publisher] interface. *)
Record Publisher : Type := {
  Publish : ProductEvent -> World -> option error * World
}.

(** The [Service] struct; [now] stands for [time.Now]. The logger and
    the two counters are write-only sinks and live in the trace. *)
Record Service : Type := New {
  repo : Repository;
  publisher : Publisher;
  now : World -> Time.Time * World
}.

Record Machine : Type := mkMachine {
  world : World;
  trace : list Effect
}.

Definition M : Type -> Type := state Machine.

Definition emit (e : Effect) : M unit :=
  mkState (fun m => (tt, mkMachine (world m) (trace m ++ [e]))).

(** A call into the surroundings. *)
Definition call {A : Type} (f : World -> A * World) : M A :=
  mkState (fun m => let (a, w) := f (world m) in (a, mkMachine w (trace m))).

Definition repoCreate (s : Service) (name : string) : M (result Product) :=
  emit (RepoCreate name) ;; call (Create (repo s) name).

Definition repoDelete (s : Service) (id : Z) : M (option error) :=
  emit (RepoDelete id) ;; call (Delete (repo s) id).

Definition repoList (s : Service) (limit offset : Z) : M (result (list Product)) :=
  emit (RepoList limit offset) ;; call (List (repo s) limit offset).

Definition repoCount (s : Service) : M (result Z) :=
  emit RepoCount ;; call (Count (repo s)).

Definition publish (s : Service) (event : ProductEvent) : M (option error) :=
  emit (Published event) ;; call (Publish (publisher s) event).

Definition CreateProduct (s : Service) (name : string) : M (result Product) :=
  let name := Strings.TrimSpace name in
  if String.eqb name EmptyString then ret (Err ErrInvalidName)
  else
    r <- repoCreate s name ;;
    match r with
    | Err err => ret (Err (Wrapped "repo create: %w" [] err))
    | Ok product =>
      t <- call (now s) ;;
      perr <- publish s {| EventType := EventCreated;
                           ProductID := ID product;
                           Name := PName product;
                           Timestamp := Time.UTC t |} ;;
      match perr with
      | Some err =>
        emit (LogError "publish product_created event failed" (ID product) err)
      | None => ret tt
      end ;;
      emit CreatedInc ;;
      ret (Ok product)
    end.

Definition DeleteProduct (s : Service) (id : Z) : M (option error) :=
  derr <- repoDelete s id ;;
  match derr with
  | Some err => ret (Some (Wrapped "repo delete: %w" [] err))
  | None =>
    t <- call (now s) ;;
    perr <- publish s {| EventType := EventDeleted;
                         ProductID := id;
                         Name := EmptyString;
                         Timestamp := Time.UTC t |} ;;
    match perr with
    | Some err =>
      emit (LogError "publish product_deleted event failed" id err)
    | None => ret tt
    end ;;
    emit DeletedInc ;;
    ret None
  end.

Definition ListProducts (s : Service) (page limit : Z)
  : M (result (list Product * Z)) :=
  let page := if page <? 1 then 1 else page in
  let limit := if limit <? 1 then defaultPageSize else limit in
  let limit := if maxPageSize <? limit then maxPageSize else limit in
  let offset := wrapInt ((page - 1) * limit) in
  r <- repoList s limit offset ;;
  match r with
  | Err err => ret (Err (Wrapped "repo list: %w" [] err))
  | Ok items =>
    c <- repoCount s ;;
    match c with
    | Err err => ret (Err (Wrapped "repo count: %w" [] err))
    | Ok total => ret (Ok (items, total))
    end
  end.

(** Running an operation from a given world, with an empty trace. *)
Definition run {A : Type} (c : M A) (w : World) : A * Machine :=
  runState c (mkMachine w []).

(** The calls the HTTP handlers make on the service. *)
Inductive Operation : Type :=
| OpCreate (name : string)
| OpDelete (id : Z)
| OpList (page limit : Z).

Definition perform (s : Service) (op : Operation) : M unit :=
  match op with
  | OpCreate name => _ <- CreateProduct s name ;; ret tt
  | OpDelete id => _ <- DeleteProduct s id ;; ret tt
  | OpList page limit => _ <- ListProducts s page limit ;; ret tt
  end.

Fixpoint performAll (s : Service) (ops : list Operation) : M unit :=
  match ops with
  | [] => ret tt
  | op :: ops' => perform s op ;; performAll s ops'
  end.

End WithWorld.

Arguments Create {World} r name w.
Arguments Delete {World} r id w.
Arguments List {World} r limit offset w.
Arguments Count {World} r w.
Arguments Publish {World} p event w.
Arguments repo {World} s.
Arguments publisher {World} s.
Arguments now {World} s w.
Arguments world {World} m.
Arguments trace {World} m.
Arguments mkMachine {World} world trace.
Arguments CreateProduct {World} s name.
Arguments DeleteProduct {World} s id.
Arguments ListProducts {World} s page limit.
Arguments run {World A} c w.
Arguments perform {World} s op.
Arguments performAll {World} s ops.

(** The events handed to the publisher, in order. *)
Fixpoint published (tr : list Effect) : list ProductEvent :=
  match tr with
  | [] => []
  | Published e :: tr' => e :: published tr'
  | _ :: tr' => published tr'
  end.

(** The error lines logged, in order. *)
Fixpoint logged (tr : list Effect) : list (string * Z * error) :=
  match tr with
  | [] => []
  | LogError m i e :: tr' => (m, i, e) :: logged tr'
  | _ :: tr' => logged tr'
  end.

(** The increments of the two counters in a trace, and the events of one
    type among those handed to the publisher. *)
Definition isCreatedInc (e : Effect) : bool :=
  match e with CreatedInc => true | _ => false end.

Definition isDeletedInc (e : Effect) : bool :=
  match e with DeletedInc => true | _ => false end.

Definition createdTotal (tr : list Effect) : nat := List.length (filter isCreatedInc tr).

Definition deletedTotal (tr : list Effect) : nat := List.length (filter isDeletedInc tr).

Definition eventsOfType (ty : string) (tr : list Effect) : list ProductEvent :=
  filter (fun ev => String.eqb (EventType ev) ty) (published tr).

(** The counters and the events agree in a trace. *)
Definition countersAgree (tr : list Effect) : Prop :=
  createdTotal tr = List.length (eventsOfType EventCreated tr)
  /\ deletedTotal tr = List.length (eventsOfType EventDeleted tr).

(** The event [CreateProduct] builds for a stored product when the clock
    reads [t], and the one [DeleteProduct] builds for an identity. *)
Definition createdEvent (product : Product) (t : Time.Time) : ProductEvent :=
  {| EventType := EventCreated; ProductID := ID product;
     Name := PName product; Timestamp := Time.UTC t |}.

Definition deletedEvent (id : Z) (t : Time.Time) : ProductEvent :=
  {| EventType := EventDeleted; ProductID := id;
     Name := EmptyString; Timestamp := Time.UTC t |}.

(** The error line an operation logs for the result of its publish call. *)
Definition logOf (msg : string) (id : Z) (perr : option error) : list Effect :=
  match perr with
  | Some err => [LogError msg id err]
  | None => []
  end.

(** The page size [ListProducts] settles on, in one expression. *)
Definition effectiveLimit (limit : Z) : Z :=
  if limit <? 1 then 10 else if 100 <? limit then 100 else limit.

(** An event type of the wire contract. *)
Definition validType (ev : ProductEvent) : Prop :=
  EventType ev = EventCreated \/ EventType ev = EventDeleted.

End Service.

(** ** The test doubles of [service_test.go] *)
Module ServiceTest.

(** What the doubles keep: the events the publisher double was handed, and
    the reading of the clock. *)
Record MockWorld : Type := mkMock {
  events : list ProductEvent;
  clock : Time.Time
}.

(** [defaultRepo]: every call succeeds; [Create] returns identity 1 and
    the name it was given. *)
Definition defaultRepo : Service.Repository MockWorld :=
  {| Service.Create := fun name w => (Ok (mkProduct 1 name (clock w)), w);
     Service.Delete := fun _ w => (None, w);
     Service.List := fun _ _ w => (Ok [], w);
     Service.Count := fun w => (Ok 0, w) |}.

(** A repository whose mutations fail with [err]. *)
Definition failingRepo (err : error) : Service.Repository MockWorld :=
  {| Service.Create := fun _ w => (Err err, w);
     Service.Delete := fun _ w => (Some err, w);
     Service.List := fun _ _ w => (Ok [], w);
     Service.Count := fun w => (Ok 0, w) |}.

(** [mockPublisher]: appends the event to [events] and returns [err]. *)
Definition mockPublisher (err : option error) : Service.Publisher MockWorld :=
  {| Service.Publish :=
       fun event w => (err, mkMock (events w ++ [event]) (clock w)) |}.

Definition newTestService (r : Service.Repository MockWorld)
           (p : Service.Publisher MockWorld) : Service.Service MockWorld :=
  Service.New MockWorld r p (fun w => (clock w, w)).

(** 2026-01-01T00:00:00Z. *)
Definition newYear2026 : Time.Time := Time.mkTime 1767225600 0 0.

Definition startWorld : MockWorld := mkMock [] newYear2026.

Definition brokerDown : error := ErrExternal "broker down".

End ServiceTest.

(** ** Package [encoding/json], as far as [ProductEvent] uses it *)
Module Json.

(** A JSON text, as the scanner delimits it. Numbers keep their literal;
    strings and keys keep the text between the quotes with its escapes. *)
#[warnings="-register-all"] Inductive value : Type :=
| Null
| Bool (b : bool)
| Number (lit : string)
| Str (raw : string)
| Array (elems : list value)
| Object (members : list (string * value)).

Definition maxNestingDepth : Z := 10000.

Definition isSpace (c : ascii) : bool :=
  let b := code c in (b =? 32) || (b =? 9) || (b =? 13) || (b =? 10).

Fixpoint skipSpace (s : string) : string :=
  match s with
  | String c s' => if isSpace c then skipSpace s' else s
  | EmptyString => EmptyString
  end.

Definition hexVal (c : ascii) : option Z :=
  let b := code c in
  if between 48 b 57 then Some (b - 48)
  else if between 97 b 102 then Some (b - 87)
  else if between 65 b 70 then Some (b - 55)
  else None.

Definition isHex (c : ascii) : bool :=
  match hexVal c with Some _ => true | None => false end.

Definition isSimpleEscape (c : ascii) : bool :=
  let b := code c in
  (b =? 98) || (b =? 102) || (b =? 110) || (b =? 114) || (b =? 116)
  || (b =? 92) || (b =? 47) || (b =? 34).

(** The scanner inside a string, after the opening quote: the raw text up
    to the closing quote, and what follows the quote. *)
Fixpoint scanString (s : string) : option (string * string) :=
  match s with
  | EmptyString => None
  | String c rest =>
    if Ascii.eqb c dquote then Some (EmptyString, rest)
    else if Ascii.eqb c backslash then
      match rest with
      | String "u"%char (String h1 (String h2 (String h3 (String h4 rest')))) =>
        if isHex h1 && isHex h2 && isHex h3 && isHex h4 then
          match scanString rest' with
          | Some (raw, r) =>
            Some (String c (String "u"%char (String h1 (String h2
                   (String h3 (String h4 raw))))), r)
          | None => None
          end
        else None
      | String e rest' =>
        if isSimpleEscape e then
          match scanString rest' with
          | Some (raw, r) => Some (String c (String e raw), r)
          | None => None
          end
        else None
      | EmptyString => None
      end
    else if code c <? 32 then None
    else
      match scanString rest with
      | Some (raw, r) => Some (String c raw, r)
      | None => None
      end
  end.

(** The scanner on a number: an optional minus sign; a zero, or a
    non-zero digit and any digits; optionally a period and one or more
    digits; optionally an exponent mark, a sign and one or more digits. *)
Definition scanInt (s : string) : option (string * string) :=
  match s with
  | String c r =>
    if Ascii.eqb c "0"%char then Some ("0", r)
    else if between 49 (code c) 57 then
      let (ds, r') := takeDigits r in Some (String c ds, r')
    else None
  | EmptyString => None
  end.

Definition scanFrac (s : string) : option (string * string) :=
  match s with
  | String "."%char r =>
    match takeDigits r with
    | (EmptyString, _) => None
    | (ds, r') => Some (String "."%char ds, r')
    end
  | _ => Some (EmptyString, s)
  end.

Definition scanExp (s : string) : option (string * string) :=
  match s with
  | String e r =>
    if Ascii.eqb e "e"%char || Ascii.eqb e "E"%char then
      let (sign, r1) :=
          match r with
          | String sg r' =>
            if Ascii.eqb sg "+"%char || Ascii.eqb sg "-"%char
            then (String sg EmptyString, r') else (EmptyString, r)
          | EmptyString => (EmptyString, r)
          end in
      match takeDigits r1 with
      | (EmptyString, _) => None
      | (ds, r2) => Some (String e (sign ++ ds), r2)
      end
    else Some (EmptyString, s)
  | EmptyString => Some (EmptyString, s)
  end.

Definition scanNumber (s : string) : option (string * string) :=
  let (sign, s1) :=
      match s with
      | String "-"%char r => ("-", r)
      | _ => (EmptyString, s)
      end in
  match scanInt s1 with
  | Some (i, s2) =>
    match scanFrac s2 with
    | Some (f, s3) =>
      match scanExp s3 with
      | Some (e, s4) => Some (sign ++ i ++ f ++ e, s4)
      | None => None
      end
    | None => None
    end
  | None => None
  end.

Fixpoint stripPrefix (p s : string) : option string :=
  match p, s with
  | EmptyString, _ => Some s
  | String a p', String b s' => if Ascii.eqb a b then stripPrefix p' s' else None
  | String _ _, EmptyString => None
  end.

Inductive parsed (A : Type) : Type :=
| Parsed (a : A) (rest : string)
| Invalid
| OutOfFuel.
Arguments Parsed {A} a rest.
Arguments Invalid {A}.
Arguments OutOfFuel {A}.

(** One JSON value at the head of [s], inside [depth] open arrays and
    objects. Each call consumes at least one byte before the next one, so
    fuel linear in the length of the input is never exhausted. *)
Fixpoint parseValue (fuel : nat) (depth : Z) (s : string) {struct fuel}
  : parsed value :=
  match fuel with
  | O => OutOfFuel
  | S fuel' =>
    match skipSpace s with
    | EmptyString => Invalid
    | String c rest =>
      if Ascii.eqb c "{"%char then
        if maxNestingDepth <? depth + 1 then Invalid
        else
          match skipSpace rest with
          | String "}"%char rest' => Parsed (Object []) rest'
          | _ =>
            match parseMembers fuel' (depth + 1) rest with
            | Parsed ms rest' => Parsed (Object ms) rest'
            | Invalid => Invalid
            | OutOfFuel => OutOfFuel
            end
          end
      else if Ascii.eqb c "["%char then
        if maxNestingDepth <? depth + 1 then Invalid
        else
          match skipSpace rest with
          | String "]"%char rest' => Parsed (Array []) rest'
          | _ =>
            match parseElems fuel' (depth + 1) rest with
            | Parsed vs rest' => Parsed (Array vs) rest'
            | Invalid => Invalid
            | OutOfFuel => OutOfFuel
            end
          end
      else if Ascii.eqb c dquote then
        match scanString rest with
        | Some (raw, rest') => Parsed (Str raw) rest'
        | None => Invalid
        end
      else if Ascii.eqb c "-"%char || isDigit c then
        match scanNumber (String c rest) with
        | Some (lit, rest') => Parsed (Number lit) rest'
        | None => Invalid
        end
      else
        match stripPrefix "true" (String c rest),
              stripPrefix "false" (String c rest),
              stripPrefix "null" (String c rest) with
        | Some rest', _, _ => Parsed (Bool true) rest'
        | _, Some rest', _ => Parsed (Bool false) rest'
        | _, _, Some rest' => Parsed Null rest'
        | _, _, _ => Invalid
        end
    end
  end

with parseElems (fuel : nat) (depth : Z) (s : string) {struct fuel}
  : parsed (list value) :=
  match fuel with
  | O => OutOfFuel
  | S fuel' =>
    match parseValue fuel' depth s with
    | Parsed v rest =>
      match skipSpace rest with
      | String ","%char rest' =>
        match parseElems fuel' depth rest' with
        | Parsed vs r => Parsed (v :: vs) r
        | Invalid => Invalid
        | OutOfFuel => OutOfFuel
        end
      | String "]"%char rest' => Parsed [v] rest'
      | _ => Invalid
      end
    | Invalid => Invalid
    | OutOfFuel => OutOfFuel
    end
  end

with parseMembers (fuel : nat) (depth : Z) (s : string) {struct fuel}
  : parsed (list (string * value)) :=
  match fuel with
  | O => OutOfFuel
  | S fuel' =>
    match skipSpace s with
    | String c rest =>
      if Ascii.eqb c dquote then
        match scanString rest with
        | Some (key, rest1) =>
          match skipSpace rest1 with
          | String ":"%char rest2 =>
            match parseValue fuel' depth rest2 with
            | Parsed v rest3 =>
              match skipSpace rest3 with
              | String ","%char rest4 =>
                match parseMembers fuel' depth rest4 with
                | Parsed ms r => Parsed ((key, v) :: ms) r
                | Invalid => Invalid
                | OutOfFuel => OutOfFuel
                end
              | String "}"%char rest4 => Parsed [(key, v)] rest4
              | _ => Invalid
              end
            | Invalid => Invalid
            | OutOfFuel => OutOfFuel
            end
          | _ => Invalid
          end
        | None => Invalid
        end
      else Invalid
    | EmptyString => Invalid
    end
  end.

(** [checkValid] and the scan of the whole input: exactly one value,
    with white space around it. *)
Definition parse (data : string) : option value :=
  match parseValue (2 * length data + 1) 0 data with
  | Parsed v rest =>
    match skipSpace rest with
    | EmptyString => Some v
    | _ => None
    end
  | _ => None
  end.

(** The bytes the scanner takes inside a string as they are: no control
    byte, no quote, no backslash. *)
Definition plain (c : ascii) : bool :=
  (32 <=? code c) && negb (code c =? 34) && negb (code c =? 92).

Fixpoint allPlain (s : string) : bool :=
  match s with
  | EmptyString => true
  | String c s' => plain c && allPlain s'
  end.

(** *** Decoding *)

(** Four hexadecimal digits as a number. *)
Definition hex4 (h1 h2 h3 h4 : ascii) : option Z :=
match hexVal h1, hexVal h2, hexVal h3, hexVal h4 with
| Some a, Some b, Some c, Some d => Some (((a * 16 + b) * 16 + c) * 16 + d)
| _, _, _, _ => None
end.

(** [getu4]: the code unit of a [\uXXXX] escape at the head of [s]. *)
Definition getu4 (s : string) : option Z :=
match s with
| String b (String "u"%char (String h1 (String h2 (String h3 (String h4 _))))) =>
  if Ascii.eqb b backslash then hex4 h1 h2 h3 h4 else None
| _ => None
end.

Definition isSurrogate (r : Z) : bool := between 55296 r 57343.

(** [utf16.DecodeRune]: the code point of a surrogate pair, U+FFFD when
    the two units are not a pair. *)
Definition utf16DecodeRune (r1 r2 : Z) : Z :=
if between 55296 r1 56319 && between 56320 r2 57343
then (r1 - 55296) * 1024 + (r2 - 56320) + 65536
else Utf8.RuneError.

Definition simpleEscape (e : ascii) : ascii :=
let b := code e in
if b =? 98 then chr 8
else if b =? 102 then chr 12
else if b =? 110 then chr 10
else if b =? 114 then chr 13
else if b =? 116 then chr 9
else e.

(** [unquoteBytes], on the text between the quotes: escapes resolved,
    invalid UTF-8 replaced by U+FFFD. The fuel is the number of bytes. *)
Fixpoint unquoteFuel (fuel : nat) (raw : string) : string :=
match fuel with
| O => EmptyString
| S fuel' =>
  match raw with
  | EmptyString => EmptyString
  | String c rest =>
    if Ascii.eqb c backslash then
      match rest with
      | String "u"%char (String h1 (String h2 (String h3 (String h4 rest')))) =>
        match hex4 h1 h2 h3 h4 with
        | Some rr =>
          if isSurrogate rr then
            let dec := match getu4 rest' with
                       | Some rr1 => utf16DecodeRune rr rr1
                       | None => Utf8.RuneError
                       end in
            if dec =? Utf8.RuneError
            then Utf8.EncodeRune Utf8.RuneError ++ unquoteFuel fuel' rest'
            else Utf8.EncodeRune dec ++ unquoteFuel fuel' (Strings.drop 6 rest')
          else Utf8.EncodeRune rr ++ unquoteFuel fuel' rest'
        | None => EmptyString
        end
      | String e rest' => String (simpleEscape e) (unquoteFuel fuel' rest')
      | EmptyString => EmptyString
      end
    else if code c <? Utf8.RuneSelf then String c (unquoteFuel fuel' rest)
    else
      let (r, size) := Utf8.DecodeRune raw in
      Utf8.EncodeRune r ++ unquoteFuel fuel' (Strings.drop size raw)
  end
end.

Definition unquote (raw : string) : string := unquoteFuel (length raw) raw.

(** [foldName]: the key used for the case-insensitive match of an object
    key against a field name. ASCII letters go to upper case; of the other
    runes only U+017F and U+212A fold to an ASCII letter (S and K); every
    other rune folds to a rune outside ASCII and is kept as it is, which
    decides the comparison with an ASCII field name the same way. *)
Definition foldRune (r : Z) : Z :=
if r =? 383 then 83 else if r =? 8490 then 75 else r.

Fixpoint foldNameFuel (fuel : nat) (s : string) : string :=
match fuel with
| O => EmptyString
| S fuel' =>
  match s with
  | EmptyString => EmptyString
  | String c rest =>
    if code c <? Utf8.RuneSelf then
      String (if between 97 (code c) 122 then chr (code c - 32) else c)
             (foldNameFuel fuel' rest)
    else
      let (r, size) := Utf8.DecodeRune s in
      Utf8.EncodeRune (foldRune r) ++ foldNameFuel fuel' (Strings.drop size s)
  end
end.

Definition foldName (s : string) : string := foldNameFuel (length s) s.

(** The fields of [ProductEvent], by their [json] tags. *)
Inductive Field : Type := FEventType | FProductID | FName | FTimestamp.

Definition fieldName (f : Field) : string :=
match f with
| FEventType => "event_type"
| FProductID => "product_id"
| FName => "name"
| FTimestamp => "timestamp"
end.

Definition fields : list Field := [FEventType; FProductID; FName; FTimestamp].

(** The field an object key addresses: an exact match first, then a
    case-insensitive one; [None] for a key that names no field. *)
Definition lookupField (key : string) : option Field :=
match find (fun f => String.eqb (fieldName f) key) fields with
| Some f => Some f
| None => find (fun f => String.eqb (foldName (fieldName f)) (foldName key)) fields
end.

(** [strconv.ParseInt(s, 10, 64)]. *)
Definition ParseInt (s : string) : option Z :=
let (neg, ds) :=
    match s with
    | String "-"%char r => (true, r)
    | String "+"%char r => (false, r)
    | _ => (false, s)
    end in
match ds with
| EmptyString => None
| _ =>
  match digitsValue ds 0 with
  | Some n =>
    let z := if neg then - n else n in
    if inInt64 z then Some z else None
  | None => None
  end
end.

(** The [Value] of an [UnmarshalTypeError]: the kind of JSON value met. *)
Definition kindOf (v : value) : string :=
match v with
| Null => "null"
| Bool _ => "bool"
| Number lit => "number " ++ lit
| Str _ => "string"
| Array _ => "array"
| Object _ => "object"
end.

Section Decode.

(** [time.Parse(time.RFC3339, s)], the layout-driven parser that
    [Time.UnmarshalJSON] falls back on when the fast path rejects the text. *)
Variable timeParse : string -> result Time.Time.

Definition parseStrictRFC3339 (b : string) : result Time.Time :=
match Time.parseRFC3339 b with
| Some t => Ok t
| None => timeParse b
end.

(** [Time.UnmarshalJSON], on a JSON value: [null] leaves the time as it
    is, a string is parsed without resolving escapes, anything else is
    refused. *)
Definition timeUnmarshalJSON (v : value) (t : Time.Time) : result Time.Time :=
match v with
| Null => Ok t
| Str raw => parseStrictRFC3339 raw
| _ => Err (ErrTimeFormat "Time.UnmarshalJSON: input is not a JSON string")
end.

(** The decoder's state: the destination and the first type error saved
    while decoding went on. *)
Record decodeState : Type := mkDecode {
  dest : ProductEvent;
  savedError : option error
}.

Definition saveError (st : decodeState) (e : error) : decodeState :=
match savedError st with
| Some _ => st
| None => mkDecode (dest st) (Some e)
end.

(** Storing one member's value in the field it addresses. A type error is
    saved and decoding goes on; an error of [Time.UnmarshalJSON] ends it. *)
Definition storeField (f : Field) (v : value) (st : decodeState)
  : result decodeState :=
let ev := dest st in
match f with
| FEventType =>
  match v with
  | Str raw =>
    Ok (mkDecode (mkEvent (unquote raw) (ProductID ev) (Name ev) (Timestamp ev))
                 (savedError st))
  | Null => Ok st
  | _ => Ok (saveError st (ErrUnmarshalType (kindOf v)))
  end
| FName =>
  match v with
  | Str raw =>
    Ok (mkDecode (mkEvent (EventType ev) (ProductID ev) (unquote raw) (Timestamp ev))
                 (savedError st))
  | Null => Ok st
  | _ => Ok (saveError st (ErrUnmarshalType (kindOf v)))
  end
| FProductID =>
  match v with
  | Number lit =>
    match ParseInt lit with
    | Some n =>
      Ok (mkDecode (mkEvent (EventType ev) n (Name ev) (Timestamp ev))
                   (savedError st))
    | None => Ok (saveError st (ErrUnmarshalType (kindOf v)))
    end
  | Null => Ok st
  | _ => Ok (saveError st (ErrUnmarshalType (kindOf v)))
  end
| FTimestamp =>
  match timeUnmarshalJSON v (Timestamp ev) with
  | Ok t =>
    Ok (mkDecode (mkEvent (EventType ev) (ProductID ev) (Name ev) t) (savedError st))
  | Err e => Err e
  end
end.

(** The members of an object, in order; a key that names no field is
    skipped with its value. *)
Fixpoint decodeMembers (ms : list (string * value)) (st : decodeState)
  : result decodeState :=
match ms with
| [] => Ok st
| (key, v) :: ms' =>
  match lookupField (unquote key) with
  | None => decodeMembers ms' st
  | Some f =>
    match storeField f v st with
    | Ok st' => decodeMembers ms' st'
    | Err e => Err e
    end
  end
end.

(** Decoding a JSON value into a [ProductEvent] that holds [init]. *)
Definition decodeEvent (v : value) (init : ProductEvent) : result ProductEvent :=
match v with
| Null => Ok init
| Object ms =>
  match decodeMembers ms (mkDecode init None) with
  | Ok st =>
    match savedError st with
    | Some e => Err e
    | None => Ok (dest st)
    end
  | Err e => Err e
  end
| _ => Err (ErrUnmarshalType (kindOf v))
end.

(** [json.Unmarshal(data, &event)] with [event] holding [init]. *)
Definition Unmarshal (data : string) (init : ProductEvent) : result ProductEvent :=
match parse data with
| None => Err ErrSyntax
| Some v => decodeEvent v init
end.

(** A member value the field it addresses does not take: [null] is taken
    by every field, a string by the two string fields, an integer literal
    within [int64] by the identity. The timestamp takes the strings that
    [Time.UnmarshalJSON] parses: the texts of the strict RFC 3339 layout
    that [Time.parseRFC3339] reads and, of the others, those that the
    layout parser of the library, [timeParse], accepts. *)
Definition wrongType (f : Field) (v : value) : Prop :=
  match f, v with
  | _, Null => False
  | FEventType, Str _ => False
  | FName, Str _ => False
  | FProductID, Number lit => ParseInt lit = None
  | FTimestamp, Str raw => exists e, parseStrictRFC3339 raw = Err e
  | _, _ => True
  end.

(** The inputs the wire contract excludes: text the scanner of the
    decoder refuses (text that is not JSON, and JSON that nests arrays and
    objects more than [maxNestingDepth] deep), a JSON value that is
    neither an object nor [null], and an object with a member that
    addresses a field of the contract with a value of the wrong type. *)
Definition rejected (parsed : option value) : Prop :=
  match parsed with
  | None => True
  | Some Null => False
  | Some (Object ms) =>
    exists k v f,
      In (k, v) ms /\ lookupField (unquote k) = Some f /\ wrongType f v
  | Some _ => True
  end.

(** A decoding run has failed when it stopped with an error or carries a
    saved one. *)
Definition failed (r : result decodeState) : Prop :=
  match r with
  | Err _ => True
  | Ok st => savedError st <> None
  end.

End Decode.

(** *** Encoding *)

Definition hexDigit (n : Z) : ascii :=
if n <? 10 then chr (48 + n) else chr (87 + n).

Definition unicodeEscape (b : Z) : string :=
String backslash (String "u"%char (String "0"%char (String "0"%char
  (String (hexDigit (b / 16)) (String (hexDigit (b mod 16)) EmptyString))))).

(** The bytes the encoder copies unchanged with HTML escaping on. *)
Definition htmlSafe (b : Z) : bool :=
(32 <=? b) && (b <? 128)
&& negb ((b =? 34) || (b =? 92) || (b =? 60) || (b =? 62) || (b =? 38)).

Fixpoint take (n : nat) (s : string) : string :=
match n, s with
| S n', String c s' => String c (take n' s')
| _, _ => EmptyString
end.

(** [appendString] without the surrounding quotes, HTML escaping on. *)
Fixpoint escapeFuel (fuel : nat) (s : string) : string :=
match fuel with
| O => EmptyString
| S fuel' =>
  match s with
  | EmptyString => EmptyString
  | String c rest =>
    let b := code c in
    if b <? Utf8.RuneSelf then
      (if htmlSafe b then String c EmptyString
       else if (b =? 92) || (b =? 34) then String backslash (String c EmptyString)
       else if b =? 8 then String backslash "b"
       else if b =? 12 then String backslash "f"
       else if b =? 10 then String backslash "n"
       else if b =? 13 then String backslash "r"
       else if b =? 9 then String backslash "t"
       else unicodeEscape b)
      ++ escapeFuel fuel' rest
    else
      let (r, size) := Utf8.DecodeRune s in
      if (r =? Utf8.RuneError) && Nat.eqb size 1 then
        String backslash "ufffd" ++ escapeFuel fuel' rest
      else if r =? 8232 then
        String backslash "u2028" ++ escapeFuel fuel' (Strings.drop size s)
      else if r =? 8233 then
        String backslash "u2029" ++ escapeFuel fuel' (Strings.drop size s)
      else take size s ++ escapeFuel fuel' (Strings.drop size s)
  end
end.

Definition escape (s : string) : string := escapeFuel (length s) s.

(** [strconv.FormatInt(n, 10)]. *)
Definition FormatInt (n : Z) : string := NilZero.string_of_int (Z.to_int n).

(** [Time.MarshalJSON]: the text of the JSON string, without its quotes. *)
Definition timeMarshalJSON (t : Time.Time) : result string :=
match Time.appendStrictRFC3339 t with
| Ok s => Ok s
| Err e => Err (ErrMarshaler e)
end.

(** The members the struct encoder writes for a [ProductEvent], in field
    order; [name] carries [omitempty]. *)
Definition encodeEvent (ev : ProductEvent) : result (list (string * value)) :=
match timeMarshalJSON (Timestamp ev) with
| Err e => Err e
| Ok ts =>
  Ok ([(fieldName FEventType, Str (escape (EventType ev)));
       (fieldName FProductID, Number (FormatInt (ProductID ev)))]
      ++ (if String.eqb (Name ev) EmptyString then []
          else [(fieldName FName, Str (escape (Name ev)))])
      ++ [(fieldName FTimestamp, Str ts)])%list
end.

Definition quote (raw : string) : string :=
String dquote (raw ++ String dquote EmptyString).

(** The compact text of a value. *)
Fixpoint render (v : value) : string :=
match v with
| Null => "null"
| Bool true => "true"
| Bool false => "false"
| Number lit => lit
| Str raw => quote raw
| Array vs =>
  "[" ++ (fix elems (l : list value) : string :=
            match l with
            | [] => EmptyString
            | [x] => render x
            | x :: l' => render x ++ "," ++ elems l'
            end) vs ++ "]"
| Object ms =>
  "{" ++ (fix members (l : list (string * value)) : string :=
            match l with
            | [] => EmptyString
            | [(k, x)] => quote k ++ ":" ++ render x
            | (k, x) :: l' => quote k ++ ":" ++ render x ++ "," ++ members l'
            end) ms ++ "}"
end.

(** The text of the object the encoder writes for a deletion: three
    members, the identity as [FormatInt] writes it and the timestamp [ts]. *)
Definition deletionText (id : Z) (ts : string) : string :=
  "{" ++ quote "event_type" ++ ":" ++ quote "product_deleted" ++ ","
      ++ quote "product_id" ++ ":" ++ FormatInt id ++ ","
      ++ quote "timestamp" ++ ":" ++ quote ts ++ "}".

(** [json.Marshal(event)]. *)
Definition Marshal (ev : ProductEvent) : result string :=
match encodeEvent ev with
| Ok ms => Ok (render (Object ms))
| Err e => Err e
end.

End Json.

(** ** Package [messaging]: the RabbitMQ publisher *)
Module Messaging.

Definition contentTypeJSON : string := "application/json".

(** An event [Marshal] and the consumer's decoder take: the identity
    within [int64], the time in UTC with a year of four digits and the
    nanoseconds within the second. *)
Definition sendable (ev : ProductEvent) : Prop :=
  minInt64 <= ProductID ev <= maxInt64
  /\ Time.offset (Timestamp ev) = 0
  /\ 0 <= Time.Year (Timestamp ev) <= 9999
  /\ 0 <= Time.nsec (Timestamp ev) < 10 ^ 9.

(** The event as the decoder reads it from the body the encoder wrote:
    the two texts go through the escapes of the encoder and back. *)
Definition readBack (ev : ProductEvent) : ProductEvent :=
  mkEvent (Json.unquote (Json.escape (EventType ev))) (ProductID ev)
          (Json.unquote (Json.escape (Name ev))) (Timestamp ev).

(** The [amqp.Publishing] the publisher sends. *)
Record Publishing : Type := mkPublishing {
  ContentType : string;
  Body : string
}.

Section WithWorld.

Variable World : Type.

(** The [amqp.Channel] the publisher owns:
    [PublishWithContext exchange key mandatory immediate msg]. *)
Record Channel : Type := {
  PublishWithContext :
    string -> string -> bool -> bool -> Publishing -> World -> option error * World
}.

Record RabbitPublisher : Type := mkRabbitPublisher {
  channel : Channel;
  queue : string
}.

Definition Publish (p : RabbitPublisher) (event : ProductEvent) (w : World)
  : option error * World :=
match Json.Marshal event with
| Err err => (Some (Wrapped "marshal event: %w" [] err), w)
| Ok payload =>
  match PublishWithContext (channel p) EmptyString (queue p) false false
          (mkPublishing contentTypeJSON payload) w with
  | (Some err, w') => (Some (Wrapped "publish to %q: %w" [queue p] err), w')
  | (None, w') => (None, w')
  end
end.

(** [RabbitPublisher] implements the [Publisher] interface of the service. *)
Definition asPublisher (p : RabbitPublisher) : Service.Publisher World :=
{| Service.Publish := Publish p |}.

(** What [Publish] makes of the result of the send on the channel. *)
Definition sendResult (p : RabbitPublisher) (r : option error * World)
  : option error * World :=
  match r with
  | (Some err, w') => (Some (Wrapped "publish to %q: %w" [queue p] err), w')
  | (None, w') => (None, w')
  end.

End WithWorld.

Arguments PublishWithContext {World} c exchange key mandatory immediate msg w.
Arguments channel {World} r.
Arguments queue {World} r.
Arguments Publish {World} p event w.
Arguments asPublisher {World} p.
Arguments sendResult {World} p r.

(** A broker for experiments: it keeps what was sent to it, accepts every
    message unless [down], and has a clock on the wall. *)
Record Broker : Type := mkBroker {
  sent : list Publishing;
  down : bool;
  wallClock : Time.Time
}.

Definition brokerChannel : Channel Broker :=
  {| PublishWithContext :=
       fun _ _ _ _ msg w =>
         if down w then (Some (ErrExternal "channel closed"), w)
         else (None, mkBroker (sent w ++ [msg]) (down w) (wallClock w)) |}.

Definition brokerPublisher : RabbitPublisher Broker :=
  mkRabbitPublisher Broker brokerChannel EventsQueue.

(** A store that accepts every mutation and hands out identity 1. *)
Definition acceptingRepo : Service.Repository Broker :=
  {| Service.Create := fun name w => (Ok (mkProduct 1 name (wallClock w)), w);
     Service.Delete := fun _ w => (None, w);
     Service.List := fun _ _ w => (Ok [], w);
     Service.Count := fun w => (Ok 0, w) |}.

(** The products service as [main] wires it: the repository, the RabbitMQ
    publisher on the events queue, the system clock. *)
Definition wiredService : Service.Service Broker :=
  Service.New Broker acceptingRepo (asPublisher brokerPublisher)
              (fun w => (wallClock w, w)).

(** 10000-01-01T00:00:00Z, the first instant past the four-digit years. *)
Definition year10000 : Time.Time := Time.mkTime 253402300800 0 0.

End Messaging.

(** ** Package [notifications]: the queue consumer *)
Module Notifications.

Definition consumerTag : string := "notifications-service".

(** An [amqp.Delivery]: the broker's tag of the delivery and the body. *)
Record Delivery : Type := mkDelivery {
  DeliveryTag : Z;
  Body : string
}.

Record Consumer : Type := mkConsumer {
  queue : string
}.

(** What the consumer does to its surroundings, in program order. *)
Inductive Effect : Type :=
| Consume (queue consumer : string) (autoAck exclusive noLocal noWait : bool)
| LogInfo (msg : string) (event_type : string) (product_id : Z)
          (name : string) (timestamp : Time.Time)
| LogError (msg : string) (err : error)
| Ack (msg : Delivery) (multiple : bool)
| Nack (msg : Delivery) (multiple requeue : bool).

(** What one [select] of the listen loop picks: the context is done, a
    delivery arrives, or the delivery channel is closed. *)
Inductive Select : Type :=
| CtxDone
| Received (msg : Delivery)
| MsgsClosed.

(** How a run of [Listen] over a finite schedule ends: it returned, or it
    is blocked in [select] with nothing ready. *)
Inductive Outcome : Type :=
| Returned (err : option error)
| Waiting.

Section WithParser.

Variable timeParse : string -> result Time.Time.

Definition handleMessage (c : Consumer) (msg : Delivery)
  : option error * list Effect :=
match Json.Unmarshal timeParse (Body msg) zeroEvent with
| Err err => (Some (Wrapped "unmarshal event: %w" [] err), [])
| Ok event =>
  (None, [LogInfo "notification event" (EventType event) (ProductID event)
                  (Name event) (Timestamp event)])
end.

(** The [for { select { ... } }] loop of [Listen]. *)
Fixpoint listenLoop (c : Consumer) (sched : list Select)
  : Outcome * list Effect :=
match sched with
| [] => (Waiting, [])
| CtxDone :: _ => (Returned None, [])
| MsgsClosed :: _ => (Returned None, [])
| Received msg :: sched' =>
  let (herr, logs) := handleMessage c msg in
  let step :=
      match herr with
      | Some err =>
        logs ++ [LogError "handle message failed" err; Nack msg false true]
      | None => logs ++ [Ack msg false]
      end%list in
  let (out, tr) := listenLoop c sched' in
  (out, (step ++ tr)%list)
end.

(** [Listen]: [consumeErr] is the error of the [Consume] call on the
    channel; [sched] is what the successive [select]s pick. *)
Definition Listen (c : Consumer) (consumeErr : option error) (sched : list Select)
  : Outcome * list Effect :=
let setup := Consume (queue c) consumerTag false false false false in
match consumeErr with
| Some err =>
  (Returned (Some (Wrapped "consume queue %q: %w" [queue c] err)), [setup])
| None =>
  let (out, tr) := listenLoop c sched in (out, setup :: tr)
end.

End WithParser.

(** The acknowledgement the loop owes a delivery: a single-message ack when
    the body deserializes, else a single-message nack with requeue. *)
Definition verdict (timeParse : string -> result Time.Time) (msg : Delivery)
  : Effect :=
  match Json.Unmarshal timeParse (Body msg) zeroEvent with
  | Ok _ => Ack msg false
  | Err _ => Nack msg false true
  end.

(** The consumer's trace for a delivery it accepts as the event [ev]: the
    line it logs and the ack. *)
Definition accepted (ev : ProductEvent) (msg : Delivery) : list Effect :=
  [LogInfo "notification event" (EventType ev) (ProductID ev) (Name ev)
           (Timestamp ev);
   Ack msg false].

Fixpoint acceptedAll (evs : list ProductEvent) (msgs : list Delivery)
  : list Effect :=
  match evs, msgs with
  | ev :: evs', msg :: msgs' => (accepted ev msg ++ acceptedAll evs' msgs')%list
  | _, _ => []
  end.

(** The acknowledgements in a trace, in order. *)
Definition isAcknowledgement (e : Effect) : bool :=
match e with
| Ack _ _ | Nack _ _ _ => true
| _ => false
end.

Definition acknowledgements (tr : list Effect) : list Effect :=
filter isAcknowledgement tr.

(** The deliveries the loop takes from the channel before it returns. *)
Fixpoint received (sched : list Select) : list Delivery :=
match sched with
| Received msg :: sched' => msg :: received sched'
| _ => []
end.

(** *** Message bodies for experiments *)

Definition q (s : string) : string := Json.quote s.

(** The scenario of the wire contract: a creation event for product 7. *)
Definition widgetBody : string :=
  "{" ++ q "event_type" ++ ":" ++ q "product_created" ++ ","
      ++ q "product_id" ++ ":7,"
      ++ q "name" ++ ":" ++ q "Widget" ++ ","
      ++ q "timestamp" ++ ":" ++ q "2026-01-01T00:00:00Z" ++ "}".

(** The same facts under other field names. *)
Definition foreignBody : string :=
  "{" ++ q "type" ++ ":" ++ q "product_created" ++ ","
      ++ q "id" ++ ":7,"
      ++ q "title" ++ ":" ++ q "Widget" ++ ","
      ++ q "time" ++ ":" ++ q "2026-01-01T00:00:00Z" ++ "}".

(** The scenario body cut off in the middle of a string. *)
Definition truncatedBody : string :=
  "{" ++ q "event_type" ++ ":" ++ String dquote "product_cre".

(** The identity sent as a string. *)
Definition stringIdBody : string :=
  "{" ++ q "event_type" ++ ":" ++ q "product_created" ++ ","
      ++ q "product_id" ++ ":" ++ q "7" ++ "}".

(** A timestamp that is a string, but no time. *)
Definition yesterdayBody : string :=
  "{" ++ q "timestamp" ++ ":" ++ q "yesterday" ++ "}".

(** An object under a foreign field name, its value [n] arrays deep. *)
Definition deepBody (n : nat) : string :=
  "{" ++ q "extra" ++ ":" ++ Strings.Repeat "[" n ++ Strings.Repeat "]" n ++ "}".

(** A layout parser that accepts nothing the fast path refused. *)
Definition noFallback (s : string) : result Time.Time :=
  Err (ErrTimeFormat "cannot parse as RFC 3339").

Definition eventsConsumer : Consumer := mkConsumer EventsQueue.

End Notifications.

(** ** Package [strconv] *)
Module Strconv.

(** [strconv.Atoi], with a 64-bit [int]. *)
Definition Atoi (s : string) : option Z := Json.ParseInt s.

(** [strconv.ParseInt(s, 10, 64)]. *)
Definition ParseInt (s : string) : option Z := Json.ParseInt s.

End Strconv.

(** ** The text of an error

    [err.Error()], for the errors whose text the repository fixes: the two
    domain errors, an [errors.New] of a collaborator, and a [fmt.Errorf]
    whose format is a literal prefix followed by [%w]. The text of the
    other errors is made by the libraries and is not modelled. *)

(** The prefix of a format that ends in [%w] and has no other verb. *)
Fixpoint cutVerbW (format : string) : option string :=
  match format with
  | EmptyString => None
  | String "%"%char (String "w"%char EmptyString) => Some EmptyString
  | String "%"%char _ => None
  | String c rest =>
    match cutVerbW rest with
    | Some p => Some (String c p)
    | None => None
    end
  end.

Fixpoint errorMessage (e : error) : option string :=
  match e with
  | ErrNotFound => Some "product not found"
  | ErrInvalidName => Some "product name is required"
  | ErrExternal msg => Some msg
  | Wrapped format [] e' =>
    match cutVerbW format, errorMessage e' with
    | Some prefix, Some inner => Some (prefix ++ inner)
    | _, _ => None
    end
  | _ => None
  end.

(** ** Package [http]: the Gin handlers of the products API *)
Module Http.

Definition defaultPage : Z := 1.
Definition defaultLimit : Z := 10.

Definition StatusOK : Z := 200.
Definition StatusCreated : Z := 201.
Definition StatusNoContent : Z := 204.
Definition StatusBadRequest : Z := 400.
Definition StatusNotFound : Z := 404.
Definition StatusInternalServerError : Z := 500.

Record createProductRequest : Type := mkCreateRequest {
  ReqName : string
}.

(** The [Error] field of an [errorResponse]: a literal, or the text
    [err.Error()] of an error. *)
Inductive ErrorText : Type :=
| Literal (s : string)
| TextOf (e : error).

(** What a handler writes: the typed value handed to [c.JSON], or nothing
    after [c.Status]. *)
Inductive Payload : Type :=
| NoBody
| errorResponse (Error : ErrorText)
| productResponse (p : Product)
| listProductsResponse (Items : list Product) (Page Limit Total : Z).

Record Response : Type := mkResponse {
  Status : Z;
  Body : Payload
}.

(** The part of a [gin.Context] the handlers read: the result of decoding
    the request body into a [createProductRequest], the path parameters
    and the query parameters ([""] when absent). *)
Record Context : Type := mkContext {
  Decoded : result createProductRequest;
  Param : string -> string;
  Query : string -> string
}.

(** [c.ShouldBindJSON(&req)]: the decoded request, checked against its
    [binding:"required"] tag, which refuses an empty name. *)
Definition ShouldBindJSON (c : Context) : result createProductRequest :=
  match Decoded c with
  | Err e => Err e
  | Ok req =>
    if String.eqb (ReqName req) EmptyString
    then Err (ErrExternal "Field validation for 'Name' failed on the 'required' tag")
    else Ok req
  end.

Definition parseQueryInt (raw : string) (fallback : Z) : Z :=
  if String.eqb raw EmptyString then fallback
  else
    match Strconv.Atoi raw with
    | Some value => if value <? 1 then fallback else value
    | None => fallback
    end.

Section WithWorld.

Variable World : Type.

(** The [ProductService] interface. *)
Record ProductService : Type := {
  CreateProduct : string -> Service.M World (result Product);
  DeleteProduct : Z -> Service.M World (option error);
  ListProducts : Z -> Z -> Service.M World (result (list Product * Z))
}.

Record Handler : Type := NewHandler {
  service : ProductService
}.

(** [Handler.CreateProduct]. *)
Definition handleCreate (h : Handler) (c : Context) : Service.M World Response :=
  match ShouldBindJSON c with
  | Err _ =>
    ret (mkResponse StatusBadRequest (errorResponse (Literal "invalid request body")))
  | Ok req =>
    r <- CreateProduct (service h) (ReqName req) ;;
    match r with
    | Err err =>
      if errorIs err ErrInvalidName
      then ret (mkResponse StatusBadRequest (errorResponse (TextOf err)))
      else ret (mkResponse StatusInternalServerError
                           (errorResponse (Literal "failed to create product")))
    | Ok product => ret (mkResponse StatusCreated (productResponse product))
    end
  end.

(** [Handler.DeleteProduct]. *)
Definition handleDelete (h : Handler) (c : Context) : Service.M World Response :=
  match Strconv.ParseInt (Param c "id") with
  | None =>
    ret (mkResponse StatusBadRequest (errorResponse (Literal "invalid product id")))
  | Some id =>
    derr <- DeleteProduct (service h) id ;;
    match derr with
    | Some err =>
      if errorIs err ErrNotFound
      then ret (mkResponse StatusNotFound (errorResponse (TextOf err)))
      else ret (mkResponse StatusInternalServerError
                           (errorResponse (Literal "failed to delete product")))
    | None => ret (mkResponse StatusNoContent NoBody)
    end
  end.

(** [Handler.ListProducts]. *)
Definition handleList (h : Handler) (c : Context) : Service.M World Response :=
  let page := parseQueryInt (Query c "page") defaultPage in
  let limit := parseQueryInt (Query c "limit") defaultLimit in
  r <- ListProducts (service h) page limit ;;
  match r with
  | Err _ =>
    ret (mkResponse StatusInternalServerError
                    (errorResponse (Literal "failed to get products")))
  | Ok (items, total) =>
    ret (mkResponse StatusOK (listProductsResponse items page limit total))
  end.

(** [service.Service] implements [ProductService]: the handler [main]
    builds. *)
Definition ofService (s : Service.Service World) : Handler :=
  NewHandler {| CreateProduct := Service.CreateProduct s;
                DeleteProduct := Service.DeleteProduct s;
                ListProducts := Service.ListProducts s |}.

End WithWorld.

Arguments service {World} h.
Arguments CreateProduct {World} p name.
Arguments DeleteProduct {World} p id.
Arguments ListProducts {World} p page limit.
Arguments handleCreate {World} h c.
Arguments handleDelete {World} h c.
Arguments handleList {World} h c.
Arguments ofService {World} s.

(** A request with a decoded JSON body and no parameters; a request with
    the path parameter [id]; a request with the two query parameters. *)
Definition postRequest (name : string) : Context :=
  mkContext (Ok (mkCreateRequest name)) (fun _ => EmptyString) (fun _ => EmptyString).

Definition deleteRequest (id : string) : Context :=
  mkContext (Err ErrSyntax)
            (fun k => if String.eqb k "id" then id else EmptyString)
            (fun _ => EmptyString).

Definition listRequest (page limit : string) : Context :=
  mkContext (Err ErrSyntax) (fun _ => EmptyString)
            (fun k => if String.eqb k "page" then page
                      else if String.eqb k "limit" then limit else EmptyString).

End Http.

(** ** Package [repository]: the PostgreSQL store *)
Module Repository.

(** The statements, with their white space normalised. *)
Definition insertQuery : string :=
  "INSERT INTO products (name) VALUES ($1) RETURNING id, name, created_at".
Definition deleteQuery : string := "DELETE FROM products WHERE id = $1".
Definition listQuery : string :=
  "SELECT id, name, created_at FROM products ORDER BY id DESC LIMIT $1 OFFSET $2".
Definition countQuery : string := "SELECT COUNT(*) FROM products".

(** 2 * time.Second, in nanoseconds. *)
Definition healthCheckTimeout : Z := 2 * 1000000000.

Inductive SqlArg : Type :=
| ArgInt (z : Z)
| ArgText (s : string).

(** A [sql.Rows]: what [Scan] gives for each row [Next] reaches, in order,
    and the error [Err] reports once [Next] has returned false. *)
Record Rows : Type := mkRows {
  scanned : list (result Product);
  rowsErr : option error
}.

(** A [sql.Result], as far as it is used. *)
Record ExecResult : Type := mkExecResult {
  RowsAffected : result Z
}.

Section WithWorld.

Variable World : Type.

(** The [sql.DB] the repository holds. [QueryRowProduct] and
    [QueryRowInt] are [QueryRowContext] followed by [Scan] into a product
    and into an [int64]; [PingContext] takes the timeout of its context. *)
Record DB : Type := {
  QueryRowProduct : string -> list SqlArg -> World -> result Product * World;
  QueryRowInt : string -> list SqlArg -> World -> result Z * World;
  ExecContext : string -> list SqlArg -> World -> result ExecResult * World;
  QueryContext : string -> list SqlArg -> World -> result Rows * World;
  RowsClose : World -> World;
  PingContext : Z -> World -> option error * World
}.

Record PostgresRepository : Type := NewPostgres {
  db : DB
}.

Definition Create (r : PostgresRepository) (name : string) (w : World)
  : result Product * World :=
  match QueryRowProduct (db r) insertQuery [ArgText name] w with
  | (Err err, w') => (Err (Wrapped "insert product: %w" [] err), w')
  | (Ok p, w') => (Ok p, w')
  end.

Definition Delete (r : PostgresRepository) (id : Z) (w : World)
  : option error * World :=
  match ExecContext (db r) deleteQuery [ArgInt id] w with
  | (Err err, w') =>
    (Some (Wrapped "delete product %d: %w" [Json.FormatInt id] err), w')
  | (Ok res, w') =>
    match RowsAffected res with
    | Err err => (Some (Wrapped "rows affected: %w" [] err), w')
    | Ok affected =>
      if affected =? 0 then (Some ErrNotFound, w') else (None, w')
    end
  end.

(** The loop [for rows.Next() { ... rows.Scan ... list = append(list, p) }]:
    the products scanned so far, or the first error of [Scan]. *)
Fixpoint scanAll (rows : list (result Product)) (items : list Product)
  : result (list Product) :=
  match rows with
  | [] => Ok items
  | Err err :: _ => Err (Wrapped "scan product: %w" [] err)
  | Ok p :: rows' => scanAll rows' (items ++ [p])%list
  end.

Definition List (r : PostgresRepository) (limit offset : Z) (w : World)
  : result (list Product) * World :=
  match QueryContext (db r) listQuery [ArgInt limit; ArgInt offset] w with
  | (Err err, w') => (Err (Wrapped "query products: %w" [] err), w')
  | (Ok rows, w') =>
    (* [defer rows.Close()] runs on every return below *)
    (match scanAll (scanned rows) [] with
     | Err err => Err err
     | Ok items =>
       match rowsErr rows with
       | Some err => Err (Wrapped "iterate products: %w" [] err)
       | None => Ok items
       end
     end, RowsClose (db r) w')
  end.

Definition Count (r : PostgresRepository) (w : World) : result Z * World :=
  match QueryRowInt (db r) countQuery [] w with
  | (Err err, w') => (Err (Wrapped "count products: %w" [] err), w')
  | (Ok total, w') => (Ok total, w')
  end.

Definition Health (r : PostgresRepository) (w : World) : option error * World :=
  PingContext (db r) healthCheckTimeout w.

(** [PostgresRepository] implements the [Repository] interface of the
    service. *)
Definition asRepository (r : PostgresRepository) : Service.Repository World :=
  {| Service.Create := Create r;
     Service.Delete := Delete r;
     Service.List := List r;
     Service.Count := Count r |}.

End WithWorld.

Arguments QueryRowProduct {World} d query args w.
Arguments QueryRowInt {World} d query args w.
Arguments ExecContext {World} d query args w.
Arguments QueryContext {World} d query args w.
Arguments RowsClose {World} d w.
Arguments PingContext {World} d timeout w.
Arguments db {World} _.
Arguments Create {World} r name w.
Arguments Delete {World} r id w.
Arguments List {World} r limit offset w.
Arguments Count {World} r w.
Arguments Health {World} r w.
Arguments asRepository {World} r.

End Repository.

(** ** Package [config]: the environment of the two services *)
Module Config.

Definition second : Z := 1000000000.
Definition minute : Z := 60 * second.

Definition defaultHTTPAddr : string := ":8080".
Definition defaultMigrationsPath : string := "migrations/products".
Definition defaultShutdownTimeout : Z := 10 * second.
Definition defaultDBMaxOpenConns : Z := 25.
Definition defaultDBMaxIdleConns : Z := 5.
Definition defaultDBConnMaxLifetime : Z := 5 * minute.
Definition defaultDBPingTimeout : Z := 5 * second.
Definition defaultReadHeaderTimeout : Z := 5 * second.

Record Products : Type := mkProducts {
  DatabaseURL : string;
  RabbitMQURL : string;
  HTTPAddr : string;
  MigrationsPath : string;
  ShutdownTimeout : Z;
  DBMaxOpenConns : Z;
  DBMaxIdleConns : Z;
  DBConnMaxLifetime : Z;
  DBPingTimeout : Z;
  ReadHeaderTimeout : Z
}.

Record Notifications : Type := mkNotifications {
  NRabbitMQURL : string;
  NShutdownTimeout : Z
}.

Section WithEnv.

(** [os.Getenv]: the value of a variable, [""] when it is not set. *)
Variable Getenv : string -> string.

Definition getEnv (key fallback : string) : string :=
  let value := Getenv key in
  if String.eqb value EmptyString then fallback else value.

Definition LoadProducts : result Products :=
  let cfg :=
      {| DatabaseURL := getEnv "DATABASE_URL" EmptyString;
         RabbitMQURL := getEnv "RABBITMQ_URL" EmptyString;
         HTTPAddr := getEnv "HTTP_ADDR" defaultHTTPAddr;
         MigrationsPath := getEnv "MIGRATIONS_PATH" defaultMigrationsPath;
         ShutdownTimeout := defaultShutdownTimeout;
         DBMaxOpenConns := defaultDBMaxOpenConns;
         DBMaxIdleConns := defaultDBMaxIdleConns;
         DBConnMaxLifetime := defaultDBConnMaxLifetime;
         DBPingTimeout := defaultDBPingTimeout;
         ReadHeaderTimeout := defaultReadHeaderTimeout |} in
  if String.eqb (DatabaseURL cfg) EmptyString
  then Err (ErrExternal "DATABASE_URL is required")
  else if String.eqb (RabbitMQURL cfg) EmptyString
  then Err (ErrExternal "RABBITMQ_URL is required")
  else Ok cfg.

Definition LoadNotifications : result Notifications :=
  let cfg :=
      {| NRabbitMQURL := getEnv "RABBITMQ_URL" EmptyString;
         NShutdownTimeout := defaultShutdownTimeout |} in
  if String.eqb (NRabbitMQURL cfg) EmptyString
  then Err (ErrExternal "RABBITMQ_URL is required")
  else Ok cfg.

End WithEnv.

(** An environment given as a list of settings, the first one for a key
    counting. *)
Fixpoint environ (settings : list (string * string)) (key : string) : string :=
  match settings with
  | [] => EmptyString
  | (k, v) :: rest => if String.eqb k key then v else environ rest key
  end.

End Config.

(** ** The products service over an in-memory store and broker

    A database that keeps the table as a list, after what
    [postgres_integration_test.go] expects of the real one, and the broker
    of the publisher experiments. *)
Module InMemory.

Record System : Type := mkSystem {
  table : list Product;      (* the rows, in insertion order *)
  serial : Z;                (* the next value of the id sequence *)
  broker : Messaging.Broker
}.

Definition badArguments : error := ErrExternal "pq: wrong number of arguments".

Definition tableDB : Repository.DB System :=
  {| Repository.QueryRowProduct :=
       fun _ args w =>
         match args with
         | [Repository.ArgText name] =>
           let p := mkProduct (serial w) name (Messaging.wallClock (broker w)) in
           (Ok p, mkSystem (table w ++ [p])%list (serial w + 1) (broker w))
         | _ => (Err badArguments, w)
         end;
     Repository.QueryRowInt :=
       fun _ _ w => (Ok (Z.of_nat (List.length (table w))), w);
     Repository.ExecContext :=
       fun _ args w =>
         match args with
         | [Repository.ArgInt id] =>
           let kept := filter (fun p => negb (ID p =? id)) (table w) in
           (Ok (Repository.mkExecResult
                  (Ok (Z.of_nat (List.length (table w) - List.length kept)))),
            mkSystem kept (serial w) (broker w))
         | _ => (Err badArguments, w)
         end;
     Repository.QueryContext :=
       fun _ args w =>
         match args with
         | [Repository.ArgInt limit; Repository.ArgInt offset] =>
           if (limit <? 0) || (offset <? 0)
           then (Err (ErrExternal "pq: LIMIT and OFFSET must not be negative"), w)
           else (Ok (Repository.mkRows
                       (map Ok (firstn (Z.to_nat limit)
                                       (skipn (Z.to_nat offset) (rev (table w)))))
                       None), w)
         | _ => (Err badArguments, w)
         end;
     Repository.RowsClose := fun w => w;
     Repository.PingContext := fun _ w => (None, w) |}.

Definition repository : Repository.PostgresRepository System :=
  Repository.NewPostgres System tableDB.

(** The channel of the broker, on the system. *)
Definition channel : Messaging.Channel System :=
  {| Messaging.PublishWithContext :=
       fun exchange key mandatory immediate msg w =>
         let (r, b) := Messaging.PublishWithContext Messaging.brokerChannel
                         exchange key mandatory immediate msg (broker w) in
         (r, mkSystem (table w) (serial w) b) |}.

Definition publisher : Messaging.RabbitPublisher System :=
  Messaging.mkRabbitPublisher System channel EventsQueue.

(** The service and the handler as [main] wires them. *)
Definition service : Service.Service System :=
  Service.New System (Repository.asRepository repository)
              (Messaging.asPublisher publisher)
              (fun w => (Messaging.wallClock (broker w), w)).

Definition handler : Http.Handler System := Http.ofService service.

(** An empty table, the broker up, the clock at the start of 2026. *)
Definition start : System :=
  mkSystem [] 1 (Messaging.mkBroker [] false ServiceTest.newYear2026).

(** A session: a product is created, the list is read, the product is
    deleted. *)
Definition session : list Service.Operation :=
  [Service.OpCreate " Widget "; Service.OpList 1 10; Service.OpDelete 1].

Definition afterSession : Service.Machine System :=
  snd (Service.run (Service.performAll service session) start).

(** The deliveries the broker makes of what it was sent, tagged from 1. *)
Fixpoint deliver (tag : Z) (sent : list Messaging.Publishing)
  : list Notifications.Delivery :=
  match sent with
  | [] => []
  | m :: sent' =>
    Notifications.mkDelivery tag (Messaging.Body m) :: deliver (tag + 1) sent'
  end.

Definition deliveries : list Notifications.Delivery :=
  deliver 1 (Messaging.sent (broker (Service.world afterSession))).

End InMemory.

(** * Proof steps *)

(** Two closed terms differ, by computation. *)
Ltac computed_diff := let H := fresh in intro H; vm_compute in H; discriminate H.

(** * Sanity checks of the library models *)

Example TrimSpace_phone : Strings.TrimSpace "  Phone	 " = "Phone".
Proof. vm_compute. reflexivity. Qed.

Example TrimSpace_blank : Strings.TrimSpace "   " = EmptyString.
Proof. vm_compute. reflexivity. Qed.

Example TrimSpace_inner : Strings.TrimSpace " iPhone 16 " = "iPhone 16".
Proof. vm_compute. reflexivity. Qed.

Example format_2026 :
  Time.appendStrictRFC3339 (Time.mkTime 1767225600 0 0) = Ok "2026-01-01T00:00:00Z".
Proof. vm_compute. reflexivity. Qed.

Example format_nanos :
  Time.appendStrictRFC3339 (Time.mkTime 1771934400 120000000 0)
  = Ok "2026-02-24T12:00:00.12Z".
Proof. vm_compute. reflexivity. Qed.

Example format_zero : Time.appendStrictRFC3339 Time.zero = Ok "0001-01-01T00:00:00Z".
Proof. vm_compute. reflexivity. Qed.

Example parse_2026 :
  Time.parseRFC3339 "2026-01-01T00:00:00Z" = Some (Time.mkTime 1767225600 0 0).
Proof. vm_compute. reflexivity. Qed.

Example parse_offset :
  Time.parseRFC3339 "2026-01-01T01:30:00.5+01:30"
  = Some (Time.mkTime 1767225600 500000000 5400).
Proof. vm_compute. reflexivity. Qed.

Example format_year_10000 :
  Time.appendStrictRFC3339 (Time.mkTime 253402300800 0 0)
  = Err (ErrTimeFormat "year outside of range [0,9999]").
Proof. vm_compute. reflexivity. Qed.

Example format_year_9999 :
  Time.appendStrictRFC3339 (Time.mkTime 253402300799 999999999 0)
  = Ok "9999-12-31T23:59:59.999999999Z".
Proof. vm_compute. reflexivity. Qed.

Example parse_scalar : Json.parse " 12.5e+3 " = Some (Json.Number "12.5e+3").
Proof. vm_compute. reflexivity. Qed.

Example parse_nested :
  Json.parse ("{ " ++ Json.quote "a" ++ " : [1, true, null, {}], "
                   ++ Json.quote "b\n" ++ ":" ++ Json.quote "x\u00e9" ++ " }")
  = Some (Json.Object
            [("a", Json.Array [Json.Number "1"; Json.Bool true; Json.Null;
                               Json.Object []]);
             ("b\n", Json.Str "x\u00e9")]).
Proof. vm_compute. reflexivity. Qed.

Example unquote_escapes :
  Json.unquote "a\n\u00e9\ud83d\ude00\ud83dx"
  = "a" ++ String (chr 10) (Utf8.EncodeRune 233 ++ Utf8.EncodeRune 128512
                             ++ Utf8.EncodeRune 65533 ++ "x").
Proof. vm_compute. reflexivity. Qed.

Example lookup_folded :
  map Json.lookupField ["event_type"; "Product_ID"; "NAME"; "TimeStamp";
                        "time" ++ Utf8.EncodeRune 383 ++ "tamp"; "id"; "names"]
  = [Some Json.FEventType; Some Json.FProductID; Some Json.FName;
     Some Json.FTimestamp; Some Json.FTimestamp; None; None].
Proof. vm_compute. reflexivity. Qed.

Example escape_html :
  Json.escape ("Wid<get> & " ++ String dquote "co" ++ String (chr 10) "x")
  = "Wid\u003cget\u003e \u0026 \" ++ String dquote "co\nx".
Proof. vm_compute. reflexivity. Qed.

Example parse_trailing_comma : Json.parse "[1,]" = None.
Proof. vm_compute. reflexivity. Qed.

Example parse_leading_zero : Json.parse "01" = None.
Proof. vm_compute. reflexivity. Qed.

Example parse_truncated :
  Json.parse ("{" ++ Json.quote "event_type" ++ ":" ++ String dquote "product_cre")
  = None.
Proof. vm_compute. reflexivity. Qed.

Example parse_empty : Json.parse EmptyString = None.
Proof. vm_compute. reflexivity. Qed.

(** * Trimming and the fuel of the byte loops *)

Section ByteLoops.

Local Open Scope nat_scope.

Lemma drop_length (n : nat) (s : string) :
  String.length (Strings.drop n s) = String.length s - n.
Proof.
  revert s. induction n as [|n IH]; intros s; cbn [Strings.drop].
  - lia.
  - destruct s as [|c s]; cbn [String.length]; [reflexivity | apply IH].
Qed.

(** A rune of a string that is not empty is at least one byte wide. *)
Lemma DecodeRune_size (c : ascii) (s : string) :
  1 <= snd (Utf8.DecodeRune (String c s)).
Proof.
  unfold Utf8.DecodeRune. cbv zeta.
  repeat match goal with
         | |- context [if ?b then _ else _] => destruct b
         | |- context [match ?x with EmptyString => _ | String _ _ => _ end] =>
           destruct x
         end; cbn [snd]; lia.
Qed.

Lemma DecodeLastRune_size (c : ascii) (s : string) :
  1 <= snd (Strings.DecodeLastRune (String c s)).
Proof.
  unfold Strings.DecodeLastRune. cbv zeta.
  repeat match goal with
         | |- context [Nat.eqb ?a ?b] => destruct (Nat.eqb_spec a b)
         | |- context [if ?b then _ else _] => destruct b
         | |- context [match ?x with EmptyString => _ | String _ _ => _ end] =>
           destruct x
         | |- context [let (_, _) := ?x in _] => destruct x
         end; cbn [snd]; lia.
Qed.

(** With fuel for every byte, [trimLeft] stops only at a rune that is
    not white space, or at the end. *)
Lemma trimLeft_done (fuel : nat) :
  forall s,
    String.length s <= fuel ->
    Strings.trimLeft fuel s = EmptyString
    \/ Strings.IsSpace (fst (Utf8.DecodeRune (Strings.trimLeft fuel s))) = false.
Proof.
  induction fuel as [|fuel IH]; intros s Hlen.
  - destruct s; [left; reflexivity | cbn [String.length] in Hlen; lia].
  - cbn [Strings.trimLeft]. destruct s as [|c s]; [left; reflexivity|].
    pose proof (DecodeRune_size c s) as Hsize.
    destruct (Utf8.DecodeRune (String c s)) as [r size] eqn:Hd.
    cbn [snd] in Hsize.
    destruct (Strings.IsSpace r) eqn:Hr.
    + apply IH. rewrite drop_length. cbn [String.length] in *. lia.
    + right. rewrite Hd. exact Hr.
Qed.

Lemma trimRightRev_done (fuel : nat) :
  forall r,
    String.length r <= fuel ->
    Strings.trimRightRev fuel r = EmptyString
    \/ Strings.IsSpace
         (fst (Strings.DecodeLastRune (Strings.trimRightRev fuel r))) = false.
Proof.
  induction fuel as [|fuel IH]; intros s Hlen.
  - destruct s; [left; reflexivity | cbn [String.length] in Hlen; lia].
  - cbn [Strings.trimRightRev]. destruct s as [|c s]; [left; reflexivity|].
    pose proof (DecodeLastRune_size c s) as Hsize.
    destruct (Strings.DecodeLastRune (String c s)) as [r size] eqn:Hd.
    cbn [snd] in Hsize.
    destruct (Strings.IsSpace r) eqn:Hr.
    + apply IH. rewrite drop_length. cbn [String.length] in *. lia.
    + right. rewrite Hd. exact Hr.
Qed.

(** A name of ASCII white space only trims to nothing. *)
Lemma TrimSpace_allAsciiSpace (s : string) :
  Strings.allAsciiSpace s = true -> Strings.TrimSpace s = EmptyString.
Proof.
  intros H.
  assert (Hleft : forall fuel, String.length s <= fuel ->
                               Strings.trimLeft fuel s = EmptyString).
  { induction s as [|c s IH]; intros fuel Hlen.
    - destruct fuel; reflexivity.
    - cbn [Strings.allAsciiSpace] in H. apply andb_prop in H. destruct H as [Hc Hs].
      destruct fuel as [|fuel]; [cbn [String.length] in Hlen; lia|].
      cbn [Strings.trimLeft]. unfold Strings.asciiSpace in Hc.
      assert (Hlt : (code c <? Utf8.RuneSelf)%Z = true).
      { unfold Utf8.RuneSelf, between in *. apply Z.ltb_lt.
        apply orb_prop in Hc. destruct Hc as [Hc|Hc].
        - apply andb_prop in Hc. destruct Hc as [_ Hc]. apply Z.leb_le in Hc. lia.
        - apply Z.eqb_eq in Hc. lia. }
      unfold Utf8.DecodeRune. rewrite Hlt.
      assert (Hsp : Strings.IsSpace (code c) = true).
      { unfold Strings.IsSpace. rewrite Hc. reflexivity. }
      rewrite Hsp. cbn [Strings.drop].
      apply IH; [exact Hs | cbn [String.length] in Hlen; lia]. }
  unfold Strings.TrimSpace, Strings.TrimLeftSpace.
  rewrite (Hleft (String.length s) (le_n _)). reflexivity.
Qed.

(** The byte loops of the JSON package get one unit of fuel per byte;
    any larger amount gives the same result. *)
Lemma unquoteFuel_enough (f1 : nat) :
  forall f2 s,
    String.length s <= f1 -> String.length s <= f2 ->
    Json.unquoteFuel f1 s = Json.unquoteFuel f2 s.
Proof.
  induction f1 as [|f1 IH]; intros f2 s H1 H2.
  { destruct s; [destruct f2; reflexivity | cbn [String.length] in H1; lia]. }
  destruct f2 as [|f2];
    [destruct s; [reflexivity | cbn [String.length] in H2; lia]|].
  destruct s as [|c rest]; [reflexivity|].
  cbn [String.length] in H1, H2.
  assert (Hrec : forall s', String.length s' <= String.length rest ->
                            Json.unquoteFuel f1 s' = Json.unquoteFuel f2 s')
    by (intros; apply IH; lia).
  cbn [Json.unquoteFuel].
  destruct (Ascii.eqb c backslash).
  - destruct rest as [|e rest']; [reflexivity|].
    assert (Hsimple : String (Json.simpleEscape e) (Json.unquoteFuel f1 rest')
                      = String (Json.simpleEscape e) (Json.unquoteFuel f2 rest'))
      by (f_equal; apply Hrec; cbn [String.length]; lia).
    destruct e as [[|] [|] [|] [|] [|] [|] [|] [|]]; try exact Hsimple.
    destruct rest' as [|h1 [|h2 [|h3 [|h4 rest'']]]]; try exact Hsimple.
    destruct (Json.hex4 h1 h2 h3 h4) as [rr|]; [|reflexivity].
    destruct (Json.isSurrogate rr);
      [destruct (_ =? Utf8.RuneError)%Z|];
      f_equal; apply Hrec; rewrite ?drop_length; cbn [String.length]; lia.
  - destruct (code c <? Utf8.RuneSelf)%Z;
      [f_equal; apply Hrec; lia|].
    pose proof (DecodeRune_size c rest) as Hsize.
    destruct (Utf8.DecodeRune (String c rest)) as [r size]. cbn [snd] in Hsize.
    f_equal. apply Hrec. rewrite drop_length. cbn [String.length]. lia.
Qed.

Lemma foldNameFuel_enough (f1 : nat) :
  forall f2 s,
    String.length s <= f1 -> String.length s <= f2 ->
    Json.foldNameFuel f1 s = Json.foldNameFuel f2 s.
Proof.
  induction f1 as [|f1 IH]; intros f2 s H1 H2.
  { destruct s; [destruct f2; reflexivity | cbn [String.length] in H1; lia]. }
  destruct f2 as [|f2];
    [destruct s; [reflexivity | cbn [String.length] in H2; lia]|].
  destruct s as [|c rest]; [reflexivity|].
  cbn [String.length] in H1, H2. cbn [Json.foldNameFuel].
  destruct (code c <? Utf8.RuneSelf)%Z; [f_equal; apply IH; lia|].
  pose proof (DecodeRune_size c rest) as Hsize.
  destruct (Utf8.DecodeRune (String c rest)) as [r size]. cbn [snd] in Hsize.
  f_equal. apply IH; rewrite drop_length; cbn [String.length]; lia.
Qed.

Lemma escapeFuel_enough (f1 : nat) :
  forall f2 s,
    String.length s <= f1 -> String.length s <= f2 ->
    Json.escapeFuel f1 s = Json.escapeFuel f2 s.
Proof.
  induction f1 as [|f1 IH]; intros f2 s H1 H2.
  { destruct s; [destruct f2; reflexivity | cbn [String.length] in H1; lia]. }
  destruct f2 as [|f2];
    [destruct s; [reflexivity | cbn [String.length] in H2; lia]|].
  destruct s as [|c rest]; [reflexivity|].
  cbn [String.length] in H1, H2. cbn [Json.escapeFuel].
  destruct (code c <? Utf8.RuneSelf)%Z; [f_equal; apply IH; lia|].
  pose proof (DecodeRune_size c rest) as Hsize.
  destruct (Utf8.DecodeRune (String c rest)) as [r size]. cbn [snd] in Hsize.
  repeat match goal with
         | |- context [if ?b then _ else _] => destruct b
         end;
    f_equal; apply IH; rewrite ?drop_length; cbn [String.length]; lia.
Qed.

End ByteLoops.

(** * The service *)

Section ServiceFacts.

Variable World : Type.
Variable s : Service.Service World.

Import Service.

(** Symbolic execution of [CreateProduct] from any machine state. *)
Lemma CreateProduct_exec (name : string) (w : World) (tr : list Effect) :
  runState (CreateProduct s name) (mkMachine w tr) =
  let name' := Strings.TrimSpace name in
  if String.eqb name' EmptyString then (Err ErrInvalidName, mkMachine w tr)
  else
    match Create (repo s) name' w with
    | (Err err, w1) =>
      (Err (Wrapped "repo create: %w" [] err),
       mkMachine w1 (tr ++ [RepoCreate name']))
    | (Ok product, w1) =>
      let (t, w2) := now s w1 in
      let ev := createdEvent product t in
      let (perr, w3) := Publish (publisher s) ev w2 in
      (Ok product,
       mkMachine w3
         (tr ++ [RepoCreate name'; Published ev]
             ++ logOf "publish product_created event failed" (ID product) perr
             ++ [CreatedInc]))
    end.
Proof.
  unfold CreateProduct. cbv zeta.
  destruct (String.eqb (Strings.TrimSpace name) EmptyString); [reflexivity|].
  cbn. destruct (Create (repo s) (Strings.TrimSpace name) w) as [[product|err] w1]; cbn.
  - destruct (now s w1) as [t w2]; cbn.
    destruct (Publish (publisher s) _ w2) as [[err|] w3]; cbn;
      rewrite <- !app_assoc; reflexivity.
  - reflexivity.
Qed.

Lemma DeleteProduct_exec (id : Z) (w : World) (tr : list Effect) :
  runState (DeleteProduct s id) (mkMachine w tr) =
  match Delete (repo s) id w with
  | (Some err, w1) =>
    (Some (Wrapped "repo delete: %w" [] err), mkMachine w1 (tr ++ [RepoDelete id]))
  | (None, w1) =>
    let (t, w2) := now s w1 in
    let ev := deletedEvent id t in
    let (perr, w3) := Publish (publisher s) ev w2 in
    (None,
     mkMachine w3
       (tr ++ [RepoDelete id; Published ev]
           ++ logOf "publish product_deleted event failed" id perr
           ++ [DeletedInc]))
  end.
Proof.
  unfold DeleteProduct. cbn.
  destruct (Delete (repo s) id w) as [[err|] w1]; cbn; [reflexivity|].
  destruct (now s w1) as [t w2]; cbn.
  destruct (Publish (publisher s) _ w2) as [[err|] w3]; cbn;
    rewrite <- !app_assoc; reflexivity.
Qed.

Lemma effectiveLimit_range (limit : Z) : 1 <= effectiveLimit limit <= 100.
Proof.
  unfold effectiveLimit.
  destruct (Z.ltb_spec limit 1); [lia|].
  destruct (Z.ltb_spec 100 limit); lia.
Qed.

Lemma ListProducts_exec (page limit : Z) (w : World) (tr : list Effect) :
  runState (ListProducts s page limit) (mkMachine w tr) =
  let L := effectiveLimit limit in
  let off := wrapInt ((Z.max page 1 - 1) * L) in
  match List (repo s) L off w with
  | (Err err, w1) =>
    (Err (Wrapped "repo list: %w" [] err), mkMachine w1 (tr ++ [RepoList L off]))
  | (Ok items, w1) =>
    match Count (repo s) w1 with
    | (Err err, w2) =>
      (Err (Wrapped "repo count: %w" [] err),
       mkMachine w2 (tr ++ [RepoList L off; RepoCount]))
    | (Ok total, w2) =>
      (Ok (items, total), mkMachine w2 (tr ++ [RepoList L off; RepoCount]))
    end
  end.
Proof.
  unfold ListProducts. cbv zeta.
  assert (HL : (if maxPageSize <? (if limit <? 1 then defaultPageSize else limit)
                then maxPageSize
                else if limit <? 1 then defaultPageSize else limit)
               = effectiveLimit limit).
  { unfold effectiveLimit, maxPageSize, defaultPageSize.
    destruct (Z.ltb_spec limit 1); [reflexivity|]. reflexivity. }
  rewrite HL.
  assert (HP : (if page <? 1 then 1 else page) = Z.max page 1).
  { destruct (Z.ltb_spec page 1); lia. }
  rewrite HP. cbn.
  destruct (List (repo s) _ _ w) as [[items|err] w1]; cbn; [|reflexivity].
  destruct (Count (repo s) w1) as [[total|err] w2]; cbn;
    rewrite <- !app_assoc; reflexivity.
Qed.

Lemma published_app (tr tr' : list Effect) :
  published (tr ++ tr') = (published tr ++ published tr')%list.
Proof.
  induction tr as [|e tr IH]; [reflexivity|].
  destruct e; cbn; rewrite ?IH; reflexivity.
Qed.

Lemma logged_app (tr tr' : list Effect) :
  logged (tr ++ tr') = (logged tr ++ logged tr')%list.
Proof.
  induction tr as [|e tr IH]; [reflexivity|].
  destruct e; cbn; rewrite ?IH; reflexivity.
Qed.

Lemma published_logOf (msg : string) (id : Z) (perr : option error) :
  published (logOf msg id perr) = [].
Proof. destruct perr; reflexivity. Qed.

Lemma logged_logOf (msg : string) (id : Z) (perr : option error) :
  logged (logOf msg id perr)
  = match perr with Some err => [(msg, id, err)] | None => [] end.
Proof. destruct perr; reflexivity. Qed.

Lemma eqb_empty_false (x : string) :
  x <> EmptyString -> String.eqb x EmptyString = false.
Proof. intros H. apply String.eqb_neq. exact H. Qed.

(** C1. Publish-failure resilience: once the repository mutation has
    succeeded, [CreateProduct] returns the stored product and
    [DeleteProduct] returns no error, whatever [Publish] returns; a publish
    error appears in the error log and nowhere else. *)
Theorem publish_failure_absorbed :
  (forall name w product w1 t w2 perr w3,
      Strings.TrimSpace name <> EmptyString ->
      Create (repo s) (Strings.TrimSpace name) w = (Ok product, w1) ->
      now s w1 = (t, w2) ->
      Publish (publisher s) (createdEvent product t) w2 = (perr, w3) ->
      fst (run (CreateProduct s name) w) = Ok product
      /\ logged (trace (snd (run (CreateProduct s name) w)))
         = match perr with
           | Some err =>
             [("publish product_created event failed", ID product, err)]
           | None => []
           end)
  /\
  (forall id w w1 t w2 perr w3,
      Delete (repo s) id w = (None, w1) ->
      now s w1 = (t, w2) ->
      Publish (publisher s) (deletedEvent id t) w2 = (perr, w3) ->
      fst (run (DeleteProduct s id) w) = None
      /\ logged (trace (snd (run (DeleteProduct s id) w)))
         = match perr with
           | Some err => [("publish product_deleted event failed", id, err)]
           | None => []
           end).
Proof.
  split.
  - intros name w product w1 t w2 perr w3 Hname Hcreate Hnow Hpub.
    unfold run. rewrite CreateProduct_exec. cbv zeta.
    rewrite (eqb_empty_false _ Hname), Hcreate, Hnow, Hpub. cbn [fst snd trace].
    split; [reflexivity|].
    rewrite !logged_app, logged_logOf. cbn. apply app_nil_r.
  - intros id w w1 t w2 perr w3 Hdelete Hnow Hpub.
    unfold run. rewrite DeleteProduct_exec, Hdelete. cbv zeta.
    rewrite Hnow, Hpub. cbn [fst snd trace].
    split; [reflexivity|].
    rewrite !logged_app, logged_logOf. cbn. apply app_nil_r.
Qed.

(** C2. For a name that is not empty after trimming and a repository that
    stores it and returns the name it was given, [CreateProduct] hands the
    publisher exactly one event: of type [product_created], carrying the
    trimmed name and the identity the repository returned. *)
Theorem created_event_contents (name : string) (w w1 : World) (product : Product) :
  Strings.TrimSpace name <> EmptyString ->
  Create (repo s) (Strings.TrimSpace name) w = (Ok product, w1) ->
  PName product = Strings.TrimSpace name ->
  exists ev,
    published (trace (snd (run (CreateProduct s name) w))) = [ev]
    /\ EventType ev = "product_created"
    /\ Name ev = Strings.TrimSpace name
    /\ ProductID ev = ID product.
Proof.
  intros Hname Hcreate Hsame.
  unfold run. rewrite CreateProduct_exec. cbv zeta.
  rewrite (eqb_empty_false _ Hname), Hcreate.
  destruct (now s w1) as [t w2].
  destruct (Publish (publisher s) (createdEvent product t) w2) as [perr w3].
  exists (createdEvent product t). cbn [snd trace].
  rewrite !published_app, published_logOf. cbn.
  repeat split; try reflexivity. exact Hsame.
Qed.

(** C6. No event on a failed mutation: when [CreateProduct] or
    [DeleteProduct] returns an error, nothing was handed to the publisher.
    The errors are exactly the listed ones: a name that trims to nothing
    gives [ErrInvalidName] without any call at all, and a failure of the
    repository comes back wrapped. *)
Theorem no_event_on_failed_mutation :
  (forall name w e,
      fst (run (CreateProduct s name) w) = Err e ->
      published (trace (snd (run (CreateProduct s name) w))) = []
      /\ ((Strings.TrimSpace name = EmptyString /\ e = ErrInvalidName
           /\ trace (snd (run (CreateProduct s name) w)) = [])
          \/ (exists err w1,
                 Create (repo s) (Strings.TrimSpace name) w = (Err err, w1)
                 /\ e = Wrapped "repo create: %w" [] err)))
  /\
  (forall id w e,
      fst (run (DeleteProduct s id) w) = Some e ->
      published (trace (snd (run (DeleteProduct s id) w))) = []
      /\ exists err w1,
           Delete (repo s) id w = (Some err, w1)
           /\ e = Wrapped "repo delete: %w" [] err).
Proof.
  split.
  - intros name w e. unfold run. rewrite CreateProduct_exec. cbv zeta.
    destruct (String.eqb_spec (Strings.TrimSpace name) EmptyString) as [Hblank|Hname].
    + cbn. intros [= <-]. split; [reflexivity|]. left. auto.
    + destruct (Create (repo s) (Strings.TrimSpace name) w) as [[product|err] w1].
      * destruct (now s w1) as [t w2].
        destruct (Publish (publisher s) _ w2) as [perr w3]. cbn. discriminate.
      * cbn. intros [= <-]. split; [reflexivity|]. right. eauto.
  - intros id w e. unfold run. rewrite DeleteProduct_exec.
    destruct (Delete (repo s) id w) as [[err|] w1].
    + cbn. intros [= <-]. split; [reflexivity|]. eauto.
    + destruct (now s w1) as [t w2]. cbv zeta.
      destruct (Publish (publisher s) (deletedEvent id t) w2) as [perr w3].
      cbn. discriminate.
Qed.

Lemma perform_published (op : Operation) (w : World) (tr : list Effect) :
  Forall validType (published tr) ->
  Forall validType (published (trace (snd (runState (perform s op) (mkMachine w tr))))).
Proof.
  intros Htr.
  destruct op as [name|id|page limit];
    cbn -[CreateProduct DeleteProduct ListProducts].
  - rewrite CreateProduct_exec. cbv zeta.
    destruct (String.eqb _ _); [exact Htr|].
    destruct (Create (repo s) _ w) as [[product|err] w1].
    + destruct (now s w1) as [t w2].
      destruct (Publish (publisher s) (createdEvent product t) w2) as [perr w3].
      cbn [snd trace].
      rewrite !published_app, published_logOf. cbn.
      apply Forall_app. split; [exact Htr|].
      constructor; [left; reflexivity | constructor].
    + cbn [snd trace]. rewrite published_app. cbn. rewrite app_nil_r. exact Htr.
  - rewrite DeleteProduct_exec.
    destruct (Delete (repo s) id w) as [[err|] w1].
    + cbn [snd trace]. rewrite published_app. cbn. rewrite app_nil_r. exact Htr.
    + destruct (now s w1) as [t w2]. cbv zeta.
      destruct (Publish (publisher s) (deletedEvent id t) w2) as [perr w3].
      cbn [snd trace].
      rewrite !published_app, published_logOf. cbn.
      apply Forall_app. split; [exact Htr|].
      constructor; [right; reflexivity | constructor].
  - rewrite ListProducts_exec. cbv zeta.
    destruct (List (repo s) _ _ w) as [[items|err] w1].
    + destruct (Count (repo s) w1) as [[total|err] w2]; cbn [snd trace];
        rewrite published_app; cbn; rewrite app_nil_r; exact Htr.
    + cbn [snd trace]. rewrite published_app. cbn. rewrite app_nil_r. exact Htr.
Qed.

Lemma performAll_published (ops : list Operation) :
  forall (m : Machine World),
    Forall validType (published (trace m)) ->
    Forall validType (published (trace (snd (runState (performAll s ops) m)))).
Proof.
  induction ops as [|op ops IH]; intros m Hm.
  - exact Hm.
  - cbn. destruct (runState (perform s op) m) as [u m'] eqn:Hop.
    apply IH. destruct m as [w tr].
    pose proof (perform_published op w tr Hm) as H. rewrite Hop in H. exact H.
Qed.

(** C7. Event-type invariant: whatever sequence of operations the service
    performs, from whatever state of its surroundings, every event it
    hands to the publisher has type [product_created] or
    [product_deleted]. *)
Theorem event_type_invariant (ops : list Operation) (w : World) :
  Forall (fun ev => EventType ev = "product_created"
                    \/ EventType ev = "product_deleted")
         (published (trace (snd (run (performAll s ops) w)))).
Proof.
  unfold run. apply (performAll_published ops (mkMachine w [])). constructor.
Qed.

Lemma wrapInt_id (z : Z) : minInt64 <= z <= maxInt64 -> wrapInt z = z.
Proof.
  unfold wrapInt, minInt64, maxInt64. intros H.
  rewrite Z.mod_small; lia.
Qed.

(** C10 (amended). Pagination clamping: for every page and limit
    [ListProducts] calls [List] on the repository, whatever the repository
    then answers, for [L] items, where [L] is 10 for a limit below 1, 100
    for a limit above 100 and the limit itself otherwise; the offset it
    passes is [(max page 1 - 1) * L] as a 64-bit [int], which is that
    product whenever the product does not exceed the largest [int]; when
    both repository calls succeed it returns their results unmodified. *)
Theorem pagination_clamping (page limit : Z) (w : World) :
  let L := if limit <? 1 then 10 else if 100 <? limit then 100 else limit in
  let off := (Z.max page 1 - 1) * L in
  let out := run (ListProducts s page limit) w in
  hd_error (trace (snd out)) = Some (RepoList L (wrapInt off))
  /\ (off <= maxInt64 -> wrapInt off = off)
  /\ (forall err w1,
         List (repo s) L (wrapInt off) w = (Err err, w1) ->
         trace (snd out) = [RepoList L (wrapInt off)])
  /\ (forall items w1,
         List (repo s) L (wrapInt off) w = (Ok items, w1) ->
         trace (snd out) = [RepoList L (wrapInt off); RepoCount]
         /\ forall total w2,
             Count (repo s) w1 = (Ok total, w2) ->
             out = (Ok (items, total),
                    mkMachine w2 [RepoList L (wrapInt off); RepoCount])).
Proof.
  intros L off out. subst out.
  unfold run. rewrite ListProducts_exec. cbv zeta.
  fold (effectiveLimit limit) in L. fold L. fold off.
  assert (Hoff : off <= maxInt64 -> wrapInt off = off).
  { intros Hfit. apply wrapInt_id. split; [|exact Hfit].
    pose proof (effectiveLimit_range limit). unfold minInt64. subst off L.
    unfold effectiveLimit in *. nia. }
  split; [|split; [exact Hoff|split]].
  - destruct (List (repo s) L (wrapInt off) w) as [[items|err] w1].
    + destruct (Count (repo s) w1) as [[total|err] w2]; reflexivity.
    + reflexivity.
  - intros err w1 ->. reflexivity.
  - intros items w1 ->. split.
    + destruct (Count (repo s) w1) as [[total|err] w2]; reflexivity.
    + intros total w2 ->. reflexivity.
Qed.

End ServiceFacts.

(** ** The service on the test doubles *)

Import ServiceTest.

(** [TestCreateProduct_PublishFail_StillReturnsProduct], and its
    counterpart for deletion: the broker is down, the mutations succeed. *)
Lemma publish_failure_absorbed_witness :
  let svc := newTestService defaultRepo (mockPublisher (Some brokerDown)) in
  (fst (Service.run (Service.CreateProduct svc "Widget") startWorld)
   = Ok (mkProduct 1 "Widget" newYear2026)
   /\ Service.logged (Service.trace (snd (Service.run (Service.CreateProduct svc "Widget") startWorld)))
      = [("publish product_created event failed", 1, brokerDown)])
  /\
  (fst (Service.run (Service.DeleteProduct svc 42) startWorld) = None
   /\ Service.logged (Service.trace (snd (Service.run (Service.DeleteProduct svc 42) startWorld)))
      = [("publish product_deleted event failed", 42, brokerDown)]).
Proof.
  intros svc. split.
  - refine (proj1 (publish_failure_absorbed MockWorld svc)
              "Widget" startWorld (mkProduct 1 "Widget" newYear2026) startWorld
              newYear2026 startWorld (Some brokerDown)
              (mkMock [Service.createdEvent (mkProduct 1 "Widget" newYear2026) newYear2026]
                      newYear2026) _ _ _ _);
      [computed_diff | reflexivity | reflexivity | reflexivity].
  - refine (proj2 (publish_failure_absorbed MockWorld svc)
              42 startWorld startWorld newYear2026 startWorld (Some brokerDown)
              (mkMock [Service.deletedEvent 42 newYear2026] newYear2026) _ _ _);
      reflexivity.
Defined.

Lemma created_event_contents_witness :
  let svc := newTestService defaultRepo (mockPublisher None) in
  Strings.TrimSpace "  Phone " <> EmptyString
  /\ exists ev,
      Service.published (Service.trace (snd (Service.run (Service.CreateProduct svc "  Phone ") startWorld))) = [ev]
      /\ EventType ev = "product_created"
      /\ Name ev = Strings.TrimSpace "  Phone "
      /\ ProductID ev = ID (mkProduct 1 "Phone" newYear2026).
Proof.
  intros svc. split; [computed_diff|].
  apply (created_event_contents MockWorld svc "  Phone " startWorld startWorld
           (mkProduct 1 "Phone" newYear2026));
    [computed_diff | reflexivity | reflexivity].
Defined.

(** The failing rows of [TestCreateProduct] and [TestDeleteProduct]: a
    blank name, a store that is down, a product that is not there. *)
Lemma no_event_on_failed_mutation_witness :
  let down := newTestService (failingRepo (ErrExternal "db down")) (mockPublisher None) in
  let missing := newTestService (failingRepo ErrNotFound) (mockPublisher None) in
  Service.published (Service.trace (snd (Service.run (Service.CreateProduct down "   ") startWorld))) = []
  /\ Service.published (Service.trace (snd (Service.run (Service.CreateProduct down "Phone") startWorld))) = []
  /\ Service.published (Service.trace (snd (Service.run (Service.DeleteProduct missing 999) startWorld))) = [].
Proof.
  intros down missing. split; [|split].
  - apply (proj1 (no_event_on_failed_mutation MockWorld down) "   " startWorld
             ErrInvalidName). reflexivity.
  - apply (proj1 (no_event_on_failed_mutation MockWorld down) "Phone" startWorld
             (Wrapped "repo create: %w" [] (ErrExternal "db down"))). reflexivity.
  - apply (proj2 (no_event_on_failed_mutation MockWorld missing) 999 startWorld
             (Wrapped "repo delete: %w" [] ErrNotFound)). reflexivity.
Defined.

(** [TestDeleteProduct], the row "not found": the error of the repository
    is still recognised by [errors.Is] behind the wrapping. *)
Example delete_not_found_is_ErrNotFound :
  let missing := newTestService (failingRepo ErrNotFound) (mockPublisher None) in
  match fst (Service.run (Service.DeleteProduct missing 999) startWorld) with
  | Some e => errorIs e ErrNotFound
  | None => false
  end = true.
Proof. vm_compute. reflexivity. Qed.

Example mixed_operations_events :
  let svc := newTestService defaultRepo (mockPublisher (Some brokerDown)) in
  map EventType
      (Service.published
         (Service.trace
            (snd (Service.run
                    (Service.performAll svc
                       [Service.OpCreate "Phone"; Service.OpList 2 2;
                        Service.OpCreate "  "; Service.OpDelete 42])
                    startWorld))))
  = ["product_created"; "product_deleted"].
Proof. vm_compute. reflexivity. Qed.

(** The rows of [TestListProducts], and a row on a store that is down. *)
Lemma pagination_clamping_witness :
  let svc := newTestService defaultRepo (mockPublisher None) in
  let down := newTestService
                {| Service.Create := fun _ w => (Err (ErrExternal "db down"), w);
                   Service.Delete := fun _ w => (Some (ErrExternal "db down"), w);
                   Service.List := fun _ _ w => (Err (ErrExternal "db down"), w);
                   Service.Count := fun w => (Ok 0, w) |}
                (mockPublisher None) in
  Service.run (Service.ListProducts svc 2 2) startWorld
  = (Ok ([], 0), Service.mkMachine startWorld [Service.RepoList 2 2; Service.RepoCount])
  /\ Service.run (Service.ListProducts svc (-1) 0) startWorld
     = (Ok ([], 0), Service.mkMachine startWorld [Service.RepoList 10 0; Service.RepoCount])
  /\ Service.run (Service.ListProducts svc 1 500) startWorld
     = (Ok ([], 0), Service.mkMachine startWorld [Service.RepoList 100 0; Service.RepoCount])
  /\ Service.trace (snd (Service.run (Service.ListProducts down 3 500) startWorld))
     = [Service.RepoList 100 200].
Proof.
  intros svc down. split; [|split; [|split]].
  - exact (proj2 (proj2 (proj2 (proj2 (pagination_clamping MockWorld svc 2 2 startWorld)))
                    [] startWorld eq_refl) 0 startWorld eq_refl).
  - exact (proj2 (proj2 (proj2 (proj2 (pagination_clamping MockWorld svc (-1) 0 startWorld)))
                    [] startWorld eq_refl) 0 startWorld eq_refl).
  - exact (proj2 (proj2 (proj2 (proj2 (pagination_clamping MockWorld svc 1 500 startWorld)))
                    [] startWorld eq_refl) 0 startWorld eq_refl).
  - exact (proj1 (proj2 (proj2 (pagination_clamping MockWorld down 3 500 startWorld)))
             (ErrExternal "db down") startWorld eq_refl).
Defined.

(** C10, as first stated, fails past the range of [int]: for the last page
    number an [int] can hold and a limit of 100 the product
    [(page - 1) * 100] wraps around, and the repository is asked for
    offset -200. *)
Lemma pagination_offset_wraps :
  let svc := newTestService defaultRepo (mockPublisher None) in
  let page := 9223372036854775807 in
  inInt64 page = true
  /\ Service.trace (snd (Service.run (Service.ListProducts svc page 100) startWorld))
     = [Service.RepoList 100 (-200); Service.RepoCount]
  /\ (Z.max page 1 - 1) * 100 <> -200.
Proof.
  intros svc page. split; [reflexivity|]. split; [vm_compute; reflexivity|].
  subst page. lia.
Defined.

(** * The publisher *)

Section PublisherFacts.

Import Json Messaging.

Lemma escape_EventDeleted : escape EventDeleted = "product_deleted".
Proof. reflexivity. Qed.

Lemma escape_EventCreated : escape EventCreated = "product_created".
Proof. reflexivity. Qed.

Lemma Publish_marshalled (World : Type) (p : RabbitPublisher World)
      (ev : ProductEvent) (body : string) (w : World) :
  Marshal ev = Ok body ->
  Publish p ev w
  = sendResult p (PublishWithContext (channel p) EmptyString (queue p) false false
                    (mkPublishing contentTypeJSON body) w).
Proof.
  intros H. unfold Publish, sendResult. rewrite H. reflexivity.
Qed.

(** The year range in which [Time.MarshalJSON] formats a UTC time. *)
Lemma timeMarshalJSON_UTC (t : Time.Time) :
  0 <= Time.Year (Time.UTC t) <= 9999 ->
  exists ts, timeMarshalJSON (Time.UTC t) = Ok ts.
Proof.
  unfold timeMarshalJSON, Time.appendStrictRFC3339, Time.Year.
  destruct (Time.civilFromDays (Time.localSec (Time.UTC t) / 86400)) as [[y m] d].
  intros [Hlo Hhi].
  destruct (Z.ltb_spec y 0); [lia|].
  destruct (Z.ltb_spec 9999 y); [lia|].
  cbn [orb Time.offset Time.UTC].
  change (24 <=? Z.abs 0 / 3600) with false. cbv iota.
  eexists. reflexivity.
Qed.

Lemma timeMarshalJSON_year_out (t : Time.Time) :
  ~ 0 <= Time.Year t <= 9999 ->
  timeMarshalJSON t
  = Err (ErrMarshaler (ErrTimeFormat "year outside of range [0,9999]")).
Proof.
  unfold timeMarshalJSON, Time.appendStrictRFC3339, Time.Year.
  destruct (Time.civilFromDays (Time.localSec t / 86400)) as [[y m] d].
  intros Hout.
  destruct (Z.ltb_spec y 0); [reflexivity|].
  destruct (Z.ltb_spec 9999 y); [reflexivity|]. lia.
Qed.

(** C8 (amended). For an event the service constructs (its timestamp is a
    clock reading in UTC): when the year of the timestamp is from 0 to
    9999 the serialization step of [Publish] succeeds, and an error of
    [Publish] is the error of the send on the channel, wrapped; for every
    other year [Time.MarshalJSON] fails, and [Publish], on whatever
    channel and from whatever state, returns that error wrapped and
    leaves the state as it was: nothing is sent. *)
Theorem marshal_succeeds_in_year_range
        (etype name : string) (id : Z) (t : Time.Time) :
  let ev := mkEvent etype id name (Time.UTC t) in
  let refusal := ErrMarshaler (ErrTimeFormat "year outside of range [0,9999]") in
  (0 <= Time.Year (Time.UTC t) <= 9999 ->
   exists body,
     Marshal ev = Ok body
     /\ forall (World : Type) (p : RabbitPublisher World) (w w' : World) (err : error),
         Publish p ev w = (Some err, w') ->
         exists terr,
           PublishWithContext (channel p) EmptyString (queue p) false false
             (mkPublishing contentTypeJSON body) w = (Some terr, w')
           /\ err = Wrapped "publish to %q: %w" [queue p] terr)
  /\ (~ 0 <= Time.Year (Time.UTC t) <= 9999 ->
      timeMarshalJSON (Time.UTC t) = Err refusal
      /\ Marshal ev = Err refusal
      /\ forall (World : Type) (p : RabbitPublisher World) (w : World),
          Publish p ev w = (Some (Wrapped "marshal event: %w" [] refusal), w)).
Proof.
  intros ev refusal. split.
  - intros Hyear. destruct (timeMarshalJSON_UTC t Hyear) as [ts Hts].
    assert (Hm : exists body, Marshal ev = Ok body).
    { unfold Marshal, encodeEvent. cbn [Timestamp ev]. rewrite Hts.
      eexists. reflexivity. }
    destruct Hm as [body Hbody]. exists body. split; [exact Hbody|].
    intros World p w w' err. rewrite (Publish_marshalled World p _ body w Hbody).
    unfold sendResult.
    destruct (PublishWithContext (channel p) EmptyString (queue p) false false
                (mkPublishing contentTypeJSON body) w) as [[terr|] w''].
    + intros [= <- <-]. exists terr. split; reflexivity.
    + discriminate.
  - intros Hout. pose proof (timeMarshalJSON_year_out (Time.UTC t) Hout) as Hts.
    assert (Hm : Marshal ev = Err refusal).
    { unfold Marshal, encodeEvent. cbn [Timestamp ev]. rewrite Hts. reflexivity. }
    split; [exact Hts|]. split; [exact Hm|].
    intros World p w. unfold Publish. rewrite Hm. reflexivity.
Qed.

End PublisherFacts.

Lemma marshal_succeeds_in_year_range_witness :
  (0 <= Time.Year (Time.UTC ServiceTest.newYear2026) <= 9999
   /\ exists body,
       Json.Marshal (mkEvent "product_created" 7 "Widget" (Time.UTC ServiceTest.newYear2026))
       = Ok body
       /\ forall (World : Type) (p : Messaging.RabbitPublisher World) (w w' : World) (err : error),
           Messaging.Publish p (mkEvent "product_created" 7 "Widget" (Time.UTC ServiceTest.newYear2026)) w
           = (Some err, w') ->
           exists terr,
             Messaging.PublishWithContext (Messaging.channel p) EmptyString
               (Messaging.queue p) false false
               (Messaging.mkPublishing Messaging.contentTypeJSON body) w = (Some terr, w')
             /\ err = Wrapped "publish to %q: %w" [Messaging.queue p] terr)
  /\ (~ 0 <= Time.Year (Time.UTC Messaging.year10000) <= 9999
      /\ forall w : Messaging.Broker,
          Messaging.Publish Messaging.brokerPublisher
            (mkEvent "product_created" 7 "Widget" (Time.UTC Messaging.year10000)) w
          = (Some (Wrapped "marshal event: %w" []
                     (ErrMarshaler (ErrTimeFormat "year outside of range [0,9999]"))),
             w)).
Proof.
  assert (H : 0 <= Time.Year (Time.UTC ServiceTest.newYear2026) <= 9999)
    by (vm_compute; split; discriminate).
  assert (H' : ~ 0 <= Time.Year (Time.UTC Messaging.year10000) <= 9999).
  { intros [_ Hhi]. vm_compute in Hhi. apply Hhi. reflexivity. }
  split; [split; [exact H|] | split; [exact H'|]].
  - exact (proj1 (marshal_succeeds_in_year_range "product_created" "Widget" 7
                    ServiceTest.newYear2026) H).
  - exact (proj2 (proj2 (proj2 (marshal_succeeds_in_year_range "product_created"
                                  "Widget" 7 Messaging.year10000) H'))
             Messaging.Broker Messaging.brokerPublisher).
Defined.

(** C8, as first stated, fails for a time value past the year 9999: with
    the clock at 10000-01-01T00:00:00Z the service constructs an event
    that [json.Marshal] refuses, and [Publish] returns that error although
    the channel is up and nothing was sent on it. *)
Lemma marshal_fails_past_year_9999 :
  let w := Messaging.mkBroker [] false Messaging.year10000 in
  let run := Service.run (Service.CreateProduct Messaging.wiredService "Widget") w in
  let refusal := ErrMarshaler (ErrTimeFormat "year outside of range [0,9999]") in
  Service.published (Service.trace (snd run))
  = [Service.createdEvent (mkProduct 1 "Widget" Messaging.year10000) Messaging.year10000]
  /\ Json.Marshal (Service.createdEvent (mkProduct 1 "Widget" Messaging.year10000)
                                        Messaging.year10000)
     = Err refusal
  /\ Service.logged (Service.trace (snd run))
     = [("publish product_created event failed", 1,
         Wrapped "marshal event: %w" [] refusal)]
  /\ Messaging.sent (Service.world (snd run)) = [].
Proof.
  cbv zeta. repeat split; vm_compute; reflexivity.
Defined.

(** * The consumer *)

Section ConsumerFacts.

Import Json Notifications.

Variable timeParse : string -> result Time.Time.
Variable c : Consumer.

Lemma acknowledgements_app (tr tr' : list Effect) :
  acknowledgements (tr ++ tr') = (acknowledgements tr ++ acknowledgements tr')%list.
Proof. apply filter_app. Qed.

(** One turn of the loop on a delivery: the acknowledgement it issues. *)
Lemma listenLoop_step (msg : Delivery) (sched : list Select) :
  fst (listenLoop timeParse c (Received msg :: sched))
  = fst (listenLoop timeParse c sched)
  /\ acknowledgements (snd (listenLoop timeParse c (Received msg :: sched)))
     = verdict timeParse msg :: acknowledgements (snd (listenLoop timeParse c sched)).
Proof.
  cbn [listenLoop]. unfold handleMessage, verdict.
  destruct (Unmarshal timeParse (Body msg) zeroEvent) as [event|err];
    destruct (listenLoop timeParse c sched) as [out tr];
    cbn [fst snd]; (split; [reflexivity|]);
    rewrite acknowledgements_app; reflexivity.
Qed.

Lemma listenLoop_acknowledgements (sched : list Select) :
  acknowledgements (snd (listenLoop timeParse c sched))
  = map (verdict timeParse) (received sched).
Proof.
  induction sched as [|sel sched IH]; [reflexivity|].
  destruct sel as [|msg|]; [reflexivity| |reflexivity].
  destruct (listenLoop_step msg sched) as [_ ->]. rewrite IH. reflexivity.
Qed.

Lemma Listen_ok (sched : list Select) :
  Listen timeParse c None sched
  = (fst (listenLoop timeParse c sched),
     Consume (queue c) consumerTag false false false false
       :: snd (listenLoop timeParse c sched)).
Proof.
  unfold Listen. destruct (listenLoop timeParse c sched). reflexivity.
Qed.

Lemma Listen_acknowledgements (sched : list Select) :
  acknowledgements (snd (Listen timeParse c None sched))
  = acknowledgements (snd (listenLoop timeParse c sched)).
Proof. rewrite Listen_ok. reflexivity. Qed.

(** C4. Of the deliveries the loop takes from the channel, each one is
    answered exactly once, in order: with a single-message ack when its
    body deserializes into a [ProductEvent], with a single-message nack
    with requeue when it does not; either way the loop goes on to the next
    [select]. *)
Theorem one_acknowledgement_per_message (sched : list Select) :
  acknowledgements (snd (Listen timeParse c None sched))
  = map (fun msg =>
           match Unmarshal timeParse (Body msg) zeroEvent with
           | Ok _ => Ack msg false
           | Err _ => Nack msg false true
           end) (received sched)
  /\ forall msg,
      fst (Listen timeParse c None (Received msg :: sched))
      = fst (Listen timeParse c None sched).
Proof.
  split.
  - rewrite Listen_acknowledgements. apply listenLoop_acknowledgements.
  - intros msg. rewrite !Listen_ok. cbn [fst].
    apply (proj1 (listenLoop_step msg sched)).
Qed.

Lemma listenLoop_deliveries (msgs : list Delivery) (rest : list Select) :
  fst (listenLoop timeParse c (map Received msgs ++ rest))
  = fst (listenLoop timeParse c rest).
Proof.
  induction msgs as [|msg msgs IH]; [reflexivity|].
  cbn [map app]. rewrite (proj1 (listenLoop_step msg _)). exact IH.
Qed.

(** C5. [Listen] returns without error when the context is done or the
    delivery channel is closed, after any number of deliveries; it returns
    an error exactly when the [Consume] call failed, and then at once;
    while deliveries keep coming and nothing else happens it has not
    returned. *)
Theorem listen_termination :
  (forall msgs rest,
      fst (Listen timeParse c None (map Received msgs ++ CtxDone :: rest))
      = Returned None)
  /\ (forall msgs rest,
         fst (Listen timeParse c None (map Received msgs ++ MsgsClosed :: rest))
         = Returned None)
  /\ (forall consumeErr sched,
         (exists e, fst (Listen timeParse c consumeErr sched) = Returned (Some e))
         <-> consumeErr <> None)
  /\ (forall err sched,
         Listen timeParse c (Some err) sched
         = (Returned (Some (Wrapped "consume queue %q: %w" [queue c] err)),
            [Consume (queue c) consumerTag false false false false]))
  /\ (forall msgs,
         fst (Listen timeParse c None (map Received msgs)) = Waiting).
Proof.
  assert (Hnone : forall sched e,
             fst (listenLoop timeParse c sched) <> Returned (Some e)).
  { induction sched as [|sel sched IH]; intros e.
    - discriminate.
    - destruct sel as [|msg|]; [discriminate| |discriminate].
      rewrite (proj1 (listenLoop_step msg sched)). apply IH. }
  repeat match goal with |- _ /\ _ => split end.
  - intros msgs rest. rewrite Listen_ok. cbn [fst].
    rewrite listenLoop_deliveries. reflexivity.
  - intros msgs rest. rewrite Listen_ok. cbn [fst].
    rewrite listenLoop_deliveries. reflexivity.
  - intros [err|] sched; split.
    + discriminate.
    + intros _. eexists. reflexivity.
    + intros [e He]. rewrite Listen_ok in He. cbn [fst] in He.
      exfalso. exact (Hnone sched e He).
    + intros H. exfalso. apply H. reflexivity.
  - reflexivity.
  - intros msgs. rewrite Listen_ok. cbn [fst].
    rewrite <- (app_nil_r (map Received msgs)), listenLoop_deliveries. reflexivity.
Qed.

End ConsumerFacts.

(** * The decoder and the wire contract *)

Section DecoderFacts.

Import Json Notifications.

Variable timeParse : string -> result Time.Time.

Lemma saveError_saved (st : decodeState) (e : error) :
  savedError (saveError st e) <> None.
Proof.
  unfold saveError. destruct (savedError st) eqn:H; cbn; congruence.
Qed.

Lemma storeField_failed (f : Field) (v : value) (st : decodeState) :
  failed (storeField timeParse f v st)
  <-> savedError st <> None \/ wrongType timeParse f v.
Proof.
  pose proof (saveError_saved st) as Hsave.
  destruct f, v; cbn [storeField wrongType failed timeUnmarshalJSON savedError];
    try (split; [intros _; right; exact I | intros _; apply Hsave]);
    try (split; [intros H; left; exact H | intros [H|[]]; exact H]);
    try (split; [intros _; right; exact I | intros _; exact I]).
  - (* product_id, a number *)
    destruct (ParseInt lit) as [n|]; cbn [failed savedError].
    + split; [intros H; left; exact H | intros [H|H]; [exact H | discriminate H]].
    + split; [intros _; right; reflexivity | intros _; apply Hsave].
  - (* timestamp, a string *)
    destruct (parseStrictRFC3339 timeParse raw) as [t|e]; cbn [failed savedError].
    + split; [intros H; left; exact H | intros [H|[e H]]; [exact H | discriminate H]].
    + split; [intros _; right; exists e; reflexivity | intros _; exact I].
Qed.

Lemma decodeMembers_failed (ms : list (string * value)) :
  forall st,
    failed (decodeMembers timeParse ms st)
    <-> savedError st <> None
        \/ exists k v f,
            In (k, v) ms /\ lookupField (unquote k) = Some f
            /\ wrongType timeParse f v.
Proof.
  induction ms as [|[k v] ms IH]; intros st; cbn [decodeMembers].
  - cbn. split; [intros H; left; exact H | intros [H|(k & v & f & [] & _)]; exact H].
  - destruct (lookupField (unquote k)) as [f|] eqn:Hf.
    + pose proof (storeField_failed f v st) as Hstore.
      destruct (storeField timeParse f v st) as [st'|e]; cbn [failed] in Hstore.
      * rewrite IH, Hstore. split.
        -- intros [[H|H]|(k' & v' & f' & Hin & H')].
           ++ left; exact H.
           ++ right. exists k, v, f. split; [left; reflexivity | split; assumption].
           ++ right. exists k', v', f'. split; [right; exact Hin | exact H'].
        -- intros [H|(k' & v' & f' & [Heq|Hin] & Hk & Hw)].
           ++ left; left; exact H.
           ++ injection Heq as <- <-. rewrite Hf in Hk. injection Hk as <-.
              left; right; exact Hw.
           ++ right. exists k', v', f'. split; [exact Hin | split; assumption].
      * cbn [failed]. split; [intros _ | intros _; exact I].
        destruct (proj1 Hstore I) as [H|H]; [left; exact H|].
        right. exists k, v, f. split; [left; reflexivity | split; assumption].
    + rewrite IH. split.
      * intros [H|(k' & v' & f' & Hin & H')]; [left; exact H|].
        right. exists k', v', f'. split; [right; exact Hin | exact H'].
      * intros [H|(k' & v' & f' & [Heq|Hin] & Hk & Hw)]; [left; exact H| |].
        -- injection Heq as <- <-. rewrite Hf in Hk. discriminate Hk.
        -- right. exists k', v', f'. split; [exact Hin | split; assumption].
Qed.

Lemma decodeEvent_rejected (v : value) (init : ProductEvent) :
  (exists e, decodeEvent timeParse v init = Err e) <-> rejected timeParse (Some v).
Proof.
  destruct v; cbn [decodeEvent rejected];
    try (split; [intros _; exact I | intros _; eexists; reflexivity]).
  - split; [intros [e H]; discriminate H | intros []].
  - pose proof (decodeMembers_failed members (mkDecode init None)) as H.
    cbn [savedError] in H.
    destruct (decodeMembers timeParse members (mkDecode init None)) as [st|e];
      cbn [failed] in H.
    + destruct (savedError st) as [e|].
      * split; [intros _ | intros _; eexists; reflexivity].
        destruct (proj1 H ltac:(discriminate)) as [Hn|Hex]; [congruence | exact Hex].
      * split; [intros [e He]; discriminate He|].
        intros Hex. exfalso. apply (proj2 H (or_intror Hex)). reflexivity.
    + split; [intros _ | intros _; eexists; reflexivity].
      destruct (proj1 H I) as [Hn|Hex]; [congruence | exact Hex].
Qed.

Lemma Unmarshal_rejected (data : string) (init : ProductEvent) :
  (exists e, Unmarshal timeParse data init = Err e)
  <-> rejected timeParse (parse data).
Proof.
  unfold Unmarshal. destruct (parse data) as [v|].
  - apply decodeEvent_rejected.
  - cbn. split; [intros _; exact I | intros _; eexists; reflexivity].
Qed.

Lemma decodeMembers_foreign (ms : list (string * value)) (st : decodeState) :
  (forall k v, In (k, v) ms -> lookupField (unquote k) = None) ->
  decodeMembers timeParse ms st = Ok st.
Proof.
  induction ms as [|[k v] ms IH]; intros H; [reflexivity|].
  cbn [decodeMembers]. rewrite (H k v (or_introl eq_refl)).
  apply IH. intros k' v' Hin. apply (H k' v'). right. exact Hin.
Qed.

(** C9 (amended). [handleMessage] reports a deserialization failure
    exactly for the bodies the contract excludes by syntax or by type:
    text the scanner of the decoder refuses, a JSON value other than an
    object or [null], an object in which a member addressing a contract
    field has a value that field does not take (for the timestamp: a
    value other than [null] or a string, or a string that
    [Time.UnmarshalJSON] does not parse, whatever the layout parser
    behind its fast path accepts). The loop requeues exactly these
    messages and acknowledges all others. An object under other field
    names is among the others: its members are skipped, the event keeps
    its zero values and the message is acknowledged. *)
Theorem contract_mismatch_detection (c : Consumer) (msg : Delivery) :
  ((exists err, fst (handleMessage timeParse c msg) = Some err)
   <-> rejected timeParse (parse (Body msg)))
  /\ (rejected timeParse (parse (Body msg)) ->
      forall sched,
        acknowledgements (snd (Listen timeParse c None (Received msg :: sched)))
        = Nack msg false true
            :: acknowledgements (snd (Listen timeParse c None sched)))
  /\ (~ rejected timeParse (parse (Body msg)) ->
      forall sched,
        acknowledgements (snd (Listen timeParse c None (Received msg :: sched)))
        = Ack msg false
            :: acknowledgements (snd (Listen timeParse c None sched)))
  /\ (forall ms,
         parse (Body msg) = Some (Object ms) ->
         (forall k v, In (k, v) ms -> lookupField (unquote k) = None) ->
         handleMessage timeParse c msg
         = (None, [LogInfo "notification event" EmptyString 0 EmptyString Time.zero])
         /\ forall sched,
             acknowledgements (snd (Listen timeParse c None (Received msg :: sched)))
             = Ack msg false
                 :: acknowledgements (snd (Listen timeParse c None sched))).
Proof.
  assert (Hacks : forall sched,
             acknowledgements (snd (Listen timeParse c None (Received msg :: sched)))
             = verdict timeParse msg
                 :: acknowledgements (snd (Listen timeParse c None sched))).
  { intros sched. rewrite !Listen_acknowledgements.
    apply (proj2 (listenLoop_step timeParse c msg sched)). }
  split; [|split; [|split]].
  - rewrite <- Unmarshal_rejected with (init := zeroEvent). unfold handleMessage.
    destruct (Unmarshal timeParse (Body msg) zeroEvent) as [event|e]; cbn [fst].
    + split; intros [e H]; discriminate H.
    + split; intros _; eexists; reflexivity.
  - intros Hrej sched. rewrite Hacks. unfold verdict.
    apply (Unmarshal_rejected (Body msg) zeroEvent) in Hrej.
    destruct Hrej as [e ->]. reflexivity.
  - intros Hok sched. rewrite Hacks. unfold verdict.
    destruct (Unmarshal timeParse (Body msg) zeroEvent) as [event|e] eqn:Hu;
      [reflexivity|].
    exfalso. apply Hok. apply (Unmarshal_rejected (Body msg) zeroEvent).
    exists e. exact Hu.
  - intros ms Hparse Hforeign.
    assert (Hu : Unmarshal timeParse (Body msg) zeroEvent = Ok zeroEvent).
    { unfold Unmarshal. rewrite Hparse. cbn [decodeEvent].
      rewrite (decodeMembers_foreign ms _ Hforeign). reflexivity. }
    split.
    + unfold handleMessage. rewrite Hu. reflexivity.
    + intros sched. rewrite Hacks. unfold verdict. rewrite Hu. reflexivity.
Qed.

End DecoderFacts.

(** ** The consumer on concrete bodies *)

Import Notifications.

Example widget_acknowledged :
  Listen noFallback eventsConsumer None
         [Received (mkDelivery 1 widgetBody); CtxDone]
  = (Returned None,
     [Consume "products.events" "notifications-service" false false false false;
      LogInfo "notification event" "product_created" 7 "Widget"
              ServiceTest.newYear2026;
      Ack (mkDelivery 1 widgetBody) false]).
Proof. vm_compute. reflexivity. Qed.

Example truncated_requeued :
  Listen noFallback eventsConsumer None
         [Received (mkDelivery 1 truncatedBody); Received (mkDelivery 2 widgetBody)]
  = (Waiting,
     [Consume "products.events" "notifications-service" false false false false;
      LogError "handle message failed" (Wrapped "unmarshal event: %w" [] ErrSyntax);
      Nack (mkDelivery 1 truncatedBody) false true;
      LogInfo "notification event" "product_created" 7 "Widget"
              ServiceTest.newYear2026;
      Ack (mkDelivery 2 widgetBody) false]).
Proof. vm_compute. reflexivity. Qed.

(** A timestamp that is a string but no time is requeued when the layout
    parser refuses it, as the fast path does. *)
Example yesterday_requeued :
  Time.parseRFC3339 "yesterday" = None
  /\ Listen noFallback eventsConsumer None [Received (mkDelivery 1 yesterdayBody)]
     = (Waiting,
        [Consume "products.events" "notifications-service" false false false false;
         LogError "handle message failed"
                  (Wrapped "unmarshal event: %w" []
                     (ErrTimeFormat "cannot parse as RFC 3339"));
         Nack (mkDelivery 1 yesterdayBody) false true]).
Proof. split; vm_compute; reflexivity. Qed.

(** The scanner refuses what nests more than 10000 deep: under a foreign
    field name, 9999 arrays in the object are skipped and the message is
    acknowledged; 10000 arrays are a syntax error and it is requeued. *)
Example deep_nesting_requeued :
  Json.Unmarshal noFallback (deepBody (Z.to_nat 9999)) zeroEvent = Ok zeroEvent
  /\ Json.Unmarshal noFallback (deepBody (Z.to_nat 10000)) zeroEvent = Err ErrSyntax.
Proof. split; vm_compute; reflexivity. Qed.

(** The identity sent as a string is a mismatch of type and is requeued;
    the body under other field names is skipped member by member and
    acknowledged. *)
Lemma contract_mismatch_detection_witness :
  Json.rejected noFallback (Json.parse (Body (mkDelivery 1 stringIdBody)))
  /\ acknowledgements
       (snd (Listen noFallback eventsConsumer None
                    [Received (mkDelivery 1 stringIdBody)]))
     = [Nack (mkDelivery 1 stringIdBody) false true]
  /\ acknowledgements
       (snd (Listen noFallback eventsConsumer None
                    [Received (mkDelivery 2 foreignBody)]))
     = [Ack (mkDelivery 2 foreignBody) false].
Proof.
  assert (Hrej : Json.rejected noFallback (Json.parse (Body (mkDelivery 1 stringIdBody)))).
  { assert (Hp : Json.parse stringIdBody
                 = Some (Json.Object [("event_type", Json.Str "product_created");
                                      ("product_id", Json.Str "7")]))
      by (vm_compute; reflexivity).
    cbn [Body]. rewrite Hp. cbn [Json.rejected].
    exists "product_id", (Json.Str "7"), Json.FProductID.
    split; [right; left; reflexivity | split; [vm_compute; reflexivity | exact I]]. }
  split; [exact Hrej | split].
  - exact (proj1 (proj2 (contract_mismatch_detection noFallback eventsConsumer
                           (mkDelivery 1 stringIdBody))) Hrej []).
  - refine (proj2 (proj2 (proj2 (proj2 (contract_mismatch_detection noFallback
                                          eventsConsumer
                                          (mkDelivery 2 foreignBody))))
                         [("type", Json.Str "product_created");
                          ("id", Json.Number "7");
                          ("title", Json.Str "Widget");
                          ("time", Json.Str "2026-01-01T00:00:00Z")] _ _) []).
    + vm_compute. reflexivity.
    + intros k v Hin. cbn [In] in Hin.
      repeat (destruct Hin as [Hin|Hin];
              [injection Hin as <- <-; vm_compute; reflexivity|]).
      destruct Hin.
Defined.

(** C9, as first stated, fails on a body that is valid JSON under other
    field names: it deserializes without error into the zero event, and
    the message is acknowledged, not requeued. *)
Lemma foreign_field_names_acknowledged :
  Json.parse foreignBody
  = Some (Json.Object [("type", Json.Str "product_created");
                       ("id", Json.Number "7");
                       ("title", Json.Str "Widget");
                       ("time", Json.Str "2026-01-01T00:00:00Z")])
  /\ handleMessage noFallback eventsConsumer (mkDelivery 1 foreignBody)
     = (None, [LogInfo "notification event" EmptyString 0 EmptyString Time.zero])
  /\ Listen noFallback eventsConsumer None [Received (mkDelivery 1 foreignBody)]
     = (Waiting,
        [Consume "products.events" "notifications-service" false false false false;
         LogInfo "notification event" EmptyString 0 EmptyString Time.zero;
         Ack (mkDelivery 1 foreignBody) false]).
Proof.
  repeat split; vm_compute; reflexivity.
Defined.

(** * The fuel of the parser *)

Section ParserFuel.

Import Json.

Local Open Scope nat_scope.

Lemma skipSpace_length (s : string) : String.length (skipSpace s) <= String.length s.
Proof.
  induction s as [|c s IH]; cbn [skipSpace String.length]; [lia|].
  destruct (isSpace c); cbn [String.length]; lia.
Qed.

Lemma skipSpace_cons (s : string) (c : ascii) (rest : string) :
  skipSpace s = String c rest -> String.length rest < String.length s.
Proof.
  intros H. pose proof (skipSpace_length s) as Hle. rewrite H in Hle.
  cbn [String.length] in Hle. lia.
Qed.

Lemma scanString_length (s : string) :
  forall raw r, scanString s = Some (raw, r) -> String.length r < String.length s.
Proof.
  induction s as [s IH] using (well_founded_induction
                                 (Wf_nat.well_founded_ltof _ String.length)).
  unfold Wf_nat.ltof in IH.
  intros raw r. destruct s as [|c rest]; [discriminate|].
  cbn [scanString].
  destruct (Ascii.eqb c dquote).
  { intros [= <- <-]. cbn [String.length]. lia. }
  destruct (Ascii.eqb c backslash).
  { destruct rest as [|e rest']; [discriminate|].
    assert (Hsimple :
              (if isSimpleEscape e
               then match scanString rest' with
                    | Some (raw0, r0) => Some (String c (String e raw0), r0)
                    | None => None
                    end
               else None) = Some (raw, r) ->
              String.length r < String.length (String c (String e rest'))).
    { destruct (isSimpleEscape e); [|discriminate].
      destruct (scanString rest') as [[raw0 r0]|] eqn:Hs; [|discriminate].
      intros [= <- <-]. apply IH in Hs; cbn [String.length] in *; lia. }
    destruct e as [[|] [|] [|] [|] [|] [|] [|] [|]]; try exact Hsimple.
    destruct rest' as [|h1 [|h2 [|h3 [|h4 rest'']]]]; try exact Hsimple.
    destruct (isHex h1 && isHex h2 && isHex h3 && isHex h4); [|discriminate].
    destruct (scanString rest'') as [[raw0 r0]|] eqn:Hs; [|discriminate].
    intros [= <- <-]. apply IH in Hs; cbn [String.length] in *; lia. }
  destruct (code c <? 32)%Z; [discriminate|].
  destruct (scanString rest) as [[raw0 r0]|] eqn:Hs; [|discriminate].
  intros [= <- <-]. apply IH in Hs; cbn [String.length] in *; lia.
Qed.

Lemma takeDigits_length (s : string) :
  String.length (snd (takeDigits s)) <= String.length s.
Proof.
  induction s as [|c s IH]; cbn [takeDigits]; [cbn; lia|].
  destruct (isDigit c); [|cbn; lia].
  destruct (takeDigits s) as [d r]. cbn [snd String.length] in *. lia.
Qed.

Lemma scanInt_length (s i r : string) :
  scanInt s = Some (i, r) -> String.length r < String.length s.
Proof.
  destruct s as [|c s]; [discriminate|]. cbn [scanInt].
  destruct (Ascii.eqb c "0"%char).
  { intros [= <- <-]. cbn [String.length]. lia. }
  destruct (between 49 (code c) 57); [|discriminate].
  pose proof (takeDigits_length s) as H.
  destruct (takeDigits s) as [ds r']. intros [= <- <-].
  cbn [snd String.length] in *. lia.
Qed.

Lemma scanFrac_length (s f r : string) :
  scanFrac s = Some (f, r) -> String.length r <= String.length s.
Proof.
  unfold scanFrac.
  assert (Hsame : Some (EmptyString, s) = Some (f, r) ->
                  String.length r <= String.length s)
    by (intros [= <- <-]; lia).
  destruct s as [|c s]; [exact Hsame|].
  destruct c as [[|] [|] [|] [|] [|] [|] [|] [|]]; try exact Hsame.
  pose proof (takeDigits_length s) as H.
  destruct (takeDigits s) as [[|d ds] r']; [discriminate|].
  intros [= <- <-]. cbn [snd String.length] in *. lia.
Qed.

Lemma scanExp_length (s e r : string) :
  scanExp s = Some (e, r) -> String.length r <= String.length s.
Proof.
  unfold scanExp. destruct s as [|c s]; [intros [= <- <-]; lia|].
  destruct (Ascii.eqb c "e"%char || Ascii.eqb c "E"%char);
    [|intros [= <- <-]; lia].
  assert (Hsign : String.length
                    (snd match s with
                         | String sg r' =>
                           if Ascii.eqb sg "+"%char || Ascii.eqb sg "-"%char
                           then (String sg EmptyString, r')
                           else (EmptyString, s)
                         | EmptyString => (EmptyString, s)
                         end) <= String.length s).
  { destruct s as [|sg r']; [cbn; lia|].
    destruct (Ascii.eqb sg "+"%char || Ascii.eqb sg "-"%char); cbn; lia. }
  destruct (match s with
            | String sg r' =>
              if Ascii.eqb sg "+"%char || Ascii.eqb sg "-"%char
              then (String sg EmptyString, r')
              else (EmptyString, s)
            | EmptyString => (EmptyString, s)
            end) as [sign r1].
  cbn [snd] in Hsign.
  pose proof (takeDigits_length r1) as H.
  destruct (takeDigits r1) as [[|d ds] r2]; [discriminate|].
  intros [= <- <-]. cbn [snd String.length] in *. lia.
Qed.

Lemma scanNumber_length (s lit r : string) :
  scanNumber s = Some (lit, r) -> String.length r < String.length s.
Proof.
  unfold scanNumber.
  assert (Hsign : String.length
                    (snd match s with
                         | String "-"%char r0 => ("-"%string, r0)
                         | _ => (EmptyString, s)
                         end) <= String.length s).
  { destruct s as [|c s]; [cbn; lia|].
    destruct c as [[|] [|] [|] [|] [|] [|] [|] [|]]; cbn; lia. }
  destruct (match s with
            | String "-"%char r0 => ("-"%string, r0)
            | _ => (EmptyString, s)
            end) as [sign s1].
  cbn [snd] in Hsign.
  destruct (scanInt s1) as [[i s2]|] eqn:Hi; [|discriminate].
  destruct (scanFrac s2) as [[f s3]|] eqn:Hf; [|discriminate].
  destruct (scanExp s3) as [[e s4]|] eqn:He; [|discriminate].
  intros [= <- <-].
  apply scanInt_length in Hi. apply scanFrac_length in Hf.
  apply scanExp_length in He. lia.
Qed.

Lemma stripPrefix_length (p s r : string) :
  p <> EmptyString -> stripPrefix p s = Some r ->
  String.length r < String.length s.
Proof.
  revert s. induction p as [|a p IH]; intros s Hp; [contradiction|].
  destruct s as [|b s]; [discriminate|]. cbn [stripPrefix].
  destruct (Ascii.eqb a b); [|discriminate].
  destruct p as [|a' p'].
  - intros [= <-]. cbn [String.length]. lia.
  - intros H. apply IH in H; [|discriminate]. cbn [String.length] in *. lia.
Qed.

(** Whatever the parser returns, it has consumed at least one byte. *)
Lemma parse_consumes (fuel : nat) :
  forall depth s,
    (forall v r, parseValue fuel depth s = Parsed v r ->
                 String.length r < String.length s)
    /\ (forall vs r, parseElems fuel depth s = Parsed vs r ->
                     String.length r < String.length s)
    /\ (forall ms r, parseMembers fuel depth s = Parsed ms r ->
                     String.length r < String.length s).
Proof.
  induction fuel as [|fuel IH]; intros depth s.
  { repeat split; intros; discriminate. }
  split; [|split].
  - intros v r. cbn [parseValue].
    destruct (skipSpace s) as [|c rest] eqn:Hs; [discriminate|].
    apply skipSpace_cons in Hs.
    destruct (Ascii.eqb c "{"%char).
    { destruct (maxNestingDepth <? depth + 1)%Z; [discriminate|].
      assert (Hm : match parseMembers fuel (depth + 1) rest with
                   | Parsed ms rest' => Parsed (Object ms) rest'
                   | Invalid => Invalid
                   | OutOfFuel => OutOfFuel
                   end = Parsed v r -> String.length r < String.length s).
      { destruct (parseMembers fuel (depth + 1) rest) as [ms rest'| |] eqn:Hp;
          try discriminate.
        intros [= <- <-]. apply (IH (depth + 1)%Z rest) in Hp. lia. }
      pose proof (skipSpace_length rest) as Hr.
      destruct (skipSpace rest) as [|c' rest'] eqn:Hs'; [exact Hm|].
      destruct c' as [[|] [|] [|] [|] [|] [|] [|] [|]]; try exact Hm.
      intros [= <- <-]. cbn [String.length] in Hr. lia. }
    destruct (Ascii.eqb c "["%char).
    { destruct (maxNestingDepth <? depth + 1)%Z; [discriminate|].
      assert (Hm : match parseElems fuel (depth + 1) rest with
                   | Parsed vs rest' => Parsed (Array vs) rest'
                   | Invalid => Invalid
                   | OutOfFuel => OutOfFuel
                   end = Parsed v r -> String.length r < String.length s).
      { destruct (parseElems fuel (depth + 1) rest) as [vs rest'| |] eqn:Hp;
          try discriminate.
        intros [= <- <-]. apply (IH (depth + 1)%Z rest) in Hp. lia. }
      pose proof (skipSpace_length rest) as Hr.
      destruct (skipSpace rest) as [|c' rest'] eqn:Hs'; [exact Hm|].
      destruct c' as [[|] [|] [|] [|] [|] [|] [|] [|]]; try exact Hm.
      intros [= <- <-]. cbn [String.length] in Hr. lia. }
    destruct (Ascii.eqb c dquote).
    { destruct (scanString rest) as [[raw rest']|] eqn:Hp; [|discriminate].
      intros [= <- <-]. apply scanString_length in Hp. lia. }
    destruct (Ascii.eqb c "-"%char || isDigit c).
    { destruct (scanNumber (String c rest)) as [[lit rest']|] eqn:Hp; [|discriminate].
      intros [= <- <-]. apply scanNumber_length in Hp.
      cbn [String.length] in Hp. lia. }
    destruct (stripPrefix "true" (String c rest)) as [r1|] eqn:H1.
    { intros [= <- <-]. apply stripPrefix_length in H1; [|discriminate].
      cbn [String.length] in H1. lia. }
    destruct (stripPrefix "false" (String c rest)) as [r2|] eqn:H2.
    { intros [= <- <-]. apply stripPrefix_length in H2; [|discriminate].
      cbn [String.length] in H2. lia. }
    destruct (stripPrefix "null" (String c rest)) as [r3|] eqn:H3; [|discriminate].
    intros [= <- <-]. apply stripPrefix_length in H3; [|discriminate].
    cbn [String.length] in H3. lia.
  - intros vs r. cbn [parseElems].
    destruct (parseValue fuel depth s) as [v rest| |] eqn:Hv; try discriminate.
    apply (IH depth s) in Hv.
    pose proof (skipSpace_length rest) as Hr.
    destruct (skipSpace rest) as [|c rest'] eqn:Hs; [discriminate|].
    cbn [String.length] in Hr.
    destruct c as [[|] [|] [|] [|] [|] [|] [|] [|]]; try discriminate.
    + intros [= <- <-]. lia.
    + destruct (parseElems fuel depth rest') as [vs' r'| |] eqn:Hp; try discriminate.
      intros [= <- <-]. apply (IH depth rest') in Hp. lia.
  - intros ms r. cbn [parseMembers].
    pose proof (skipSpace_length s) as Hs0.
    destruct (skipSpace s) as [|c rest] eqn:Hs; [discriminate|].
    cbn [String.length] in Hs0.
    destruct (Ascii.eqb c dquote); [|discriminate].
    destruct (scanString rest) as [[key rest1]|] eqn:Hk; [|discriminate].
    apply scanString_length in Hk.
    pose proof (skipSpace_length rest1) as H1.
    destruct (skipSpace rest1) as [|c1 rest2] eqn:Hs1; [discriminate|].
    cbn [String.length] in H1.
    destruct c1 as [[|] [|] [|] [|] [|] [|] [|] [|]]; try discriminate.
    destruct (parseValue fuel depth rest2) as [v rest3| |] eqn:Hv; try discriminate.
    apply (IH depth rest2) in Hv.
    pose proof (skipSpace_length rest3) as H3.
    destruct (skipSpace rest3) as [|c3 rest4] eqn:Hs3; [discriminate|].
    cbn [String.length] in H3.
    destruct c3 as [[|] [|] [|] [|] [|] [|] [|] [|]]; try discriminate.
    + intros [= <- <-]. lia.
    + destruct (parseMembers fuel depth rest4) as [ms' r'| |] eqn:Hp; try discriminate.
      intros [= <- <-]. apply (IH depth rest4) in Hp. lia.
Qed.

(** Fuel linear in the length of the input is never exhausted. *)
Lemma parse_fuel (fuel : nat) :
  forall depth s,
    (2 * String.length s + 1 <= fuel -> parseValue fuel depth s <> OutOfFuel)
    /\ (2 * String.length s + 2 <= fuel -> parseElems fuel depth s <> OutOfFuel)
    /\ (2 * String.length s + 2 <= fuel -> parseMembers fuel depth s <> OutOfFuel).
Proof.
  induction fuel as [|fuel IH]; intros depth s.
  { repeat split; intros; lia. }
  split; [|split]; intros Hfuel.
  - cbn [parseValue].
    destruct (skipSpace s) as [|c rest] eqn:Hs; [discriminate|].
    apply skipSpace_cons in Hs.
    destruct (Ascii.eqb c "{"%char).
    { destruct (maxNestingDepth <? depth + 1)%Z; [discriminate|].
      assert (Hm : match parseMembers fuel (depth + 1) rest with
                   | Parsed ms rest' => Parsed (Object ms) rest'
                   | Invalid => Invalid
                   | OutOfFuel => OutOfFuel
                   end <> OutOfFuel).
      { pose proof (proj2 (proj2 (IH (depth + 1)%Z rest))) as Hp.
        destruct (parseMembers fuel (depth + 1) rest); try discriminate.
        exfalso. apply Hp; [lia | reflexivity]. }
      destruct (skipSpace rest) as [|c' rest']; [exact Hm|].
      destruct c' as [[|] [|] [|] [|] [|] [|] [|] [|]]; try exact Hm.
      discriminate. }
    destruct (Ascii.eqb c "["%char).
    { destruct (maxNestingDepth <? depth + 1)%Z; [discriminate|].
      assert (Hm : match parseElems fuel (depth + 1) rest with
                   | Parsed vs rest' => Parsed (Array vs) rest'
                   | Invalid => Invalid
                   | OutOfFuel => OutOfFuel
                   end <> OutOfFuel).
      { pose proof (proj1 (proj2 (IH (depth + 1)%Z rest))) as Hp.
        destruct (parseElems fuel (depth + 1) rest); try discriminate.
        exfalso. apply Hp; [lia | reflexivity]. }
      destruct (skipSpace rest) as [|c' rest']; [exact Hm|].
      destruct c' as [[|] [|] [|] [|] [|] [|] [|] [|]]; try exact Hm.
      discriminate. }
    destruct (Ascii.eqb c dquote).
    { destruct (scanString rest) as [[raw rest']|]; discriminate. }
    destruct (Ascii.eqb c "-"%char || isDigit c).
    { destruct (scanNumber (String c rest)) as [[lit rest']|]; discriminate. }
    destruct (stripPrefix "true" (String c rest)); [discriminate|].
    destruct (stripPrefix "false" (String c rest)); [discriminate|].
    destruct (stripPrefix "null" (String c rest)); discriminate.
  - cbn [parseElems].
    pose proof (proj1 (IH depth s)) as Hv0.
    destruct (parseValue fuel depth s) as [v rest| |] eqn:Hv;
      [| discriminate | exfalso; apply Hv0; [lia | reflexivity]].
    apply (parse_consumes fuel depth s) in Hv.
    pose proof (skipSpace_length rest) as Hr.
    destruct (skipSpace rest) as [|c rest'] eqn:Hs; [discriminate|].
    cbn [String.length] in Hr.
    destruct c as [[|] [|] [|] [|] [|] [|] [|] [|]]; try discriminate.
    pose proof (proj1 (proj2 (IH depth rest'))) as Hp.
    destruct (parseElems fuel depth rest'); try discriminate.
    exfalso. apply Hp; [lia | reflexivity].
  - cbn [parseMembers].
    pose proof (skipSpace_length s) as Hs0.
    destruct (skipSpace s) as [|c rest] eqn:Hs; [discriminate|].
    cbn [String.length] in Hs0.
    destruct (Ascii.eqb c dquote); [|discriminate].
    destruct (scanString rest) as [[key rest1]|] eqn:Hk; [|discriminate].
    apply scanString_length in Hk.
    pose proof (skipSpace_length rest1) as H1.
    destruct (skipSpace rest1) as [|c1 rest2] eqn:Hs1; [discriminate|].
    cbn [String.length] in H1.
    destruct c1 as [[|] [|] [|] [|] [|] [|] [|] [|]]; try discriminate.
    pose proof (proj1 (IH depth rest2)) as Hv0.
    destruct (parseValue fuel depth rest2) as [v rest3| |] eqn:Hv;
      [| discriminate | exfalso; apply Hv0; [lia | reflexivity]].
    apply (parse_consumes fuel depth rest2) in Hv.
    pose proof (skipSpace_length rest3) as H3.
    destruct (skipSpace rest3) as [|c3 rest4] eqn:Hs3; [discriminate|].
    cbn [String.length] in H3.
    destruct c3 as [[|] [|] [|] [|] [|] [|] [|] [|]]; try discriminate.
    pose proof (proj2 (proj2 (IH depth rest4))) as Hp.
    destruct (parseMembers fuel depth rest4); try discriminate.
    exfalso. apply Hp; [lia | reflexivity].
Qed.

(** [parse] never gives up for want of fuel: when it returns [None] the
    scanner has refused the input. *)
Lemma parse_total (data : string) :
  parseValue (2 * String.length data + 1) 0 data <> OutOfFuel.
Proof. apply parse_fuel. lia. Qed.

End ParserFuel.

(** * The scanner on what the encoder writes *)

Section ScannerFacts.

Import Json.

Lemma append_assoc (a b d : string) : (a ++ b) ++ d = a ++ (b ++ d).
Proof. induction a as [|x a IH]; cbn; [reflexivity | rewrite IH; reflexivity]. Qed.

Lemma code_range (c : ascii) : 0 <= code c < 256.
Proof.
  unfold code. pose proof (N_ascii_bounded c). lia.
Qed.

Lemma code_chr (z : Z) : 0 <= z < 256 -> code (chr z) = z.
Proof.
  intros H. unfold code, chr. rewrite N_ascii_embedding; lia.
Qed.

Lemma code_inj (a b : ascii) : code a = code b -> a = b.
Proof.
  unfold code. intros H. apply N2Z.inj in H.
  rewrite <- (ascii_N_embedding a), <- (ascii_N_embedding b), H. reflexivity.
Qed.

Lemma eqb_code (a b : ascii) : Ascii.eqb a b = (code a =? code b).
Proof.
  destruct (Ascii.eqb_spec a b) as [->|Hne].
  - symmetry. apply Z.eqb_refl.
  - symmetry. apply Z.eqb_neq. intros H. apply Hne, code_inj, H.
Qed.

Lemma plain_digit (n : Z) : plain (digit (n mod 10)) = true.
Proof.
  unfold plain, digit. pose proof (Z.mod_pos_bound n 10 ltac:(lia)).
  rewrite code_chr by lia.
  destruct (Z.leb_spec 32 (48 + n mod 10)); [|lia].
  destruct (Z.eqb_spec (48 + n mod 10) 34); [lia|].
  destruct (Z.eqb_spec (48 + n mod 10) 92); [lia|]. reflexivity.
Qed.

Lemma allPlain_app (a b : string) :
  allPlain (a ++ b) = allPlain a && allPlain b.
Proof.
  induction a as [|x a IH]; cbn [append allPlain]; [reflexivity|].
  rewrite IH. apply andb_assoc.
Qed.

Lemma allPlain_rev_onto (s acc : string) :
  allPlain (Strings.rev_onto s acc) = allPlain s && allPlain acc.
Proof.
  revert acc. induction s as [|x s IH]; intros acc; cbn [Strings.rev_onto allPlain].
  - reflexivity.
  - rewrite IH. cbn [allPlain]. destruct (plain x), (allPlain s); reflexivity.
Qed.

Lemma allPlain_rev (s : string) : allPlain (Strings.rev s) = allPlain s.
Proof. unfold Strings.rev. rewrite allPlain_rev_onto. apply andb_true_r. Qed.

Lemma allPlain_padded (width : nat) :
  forall n acc, allPlain acc = true -> allPlain (Time.padded width n acc) = true.
Proof.
  induction width as [|w IH]; intros n acc Hacc; cbn [Time.padded]; [exact Hacc|].
  apply IH. cbn [allPlain]. rewrite plain_digit, Hacc. reflexivity.
Qed.

Lemma allPlain_trimZerosRev (r : string) :
  allPlain r = true -> allPlain (Time.trimZerosRev r) = true.
Proof.
  induction r as [|x r IH]; intros H; [reflexivity|].
  cbn [allPlain] in H. apply andb_prop in H. destruct H as [Hx Hr].
  cbn [Time.trimZerosRev].
  destruct x as [[|] [|] [|] [|] [|] [|] [|] [|]];
    try (cbn [allPlain]; rewrite Hx, Hr; reflexivity).
  apply IH, Hr.
Qed.

Lemma allPlain_fraction (ns : Z) : allPlain (Time.fraction ns) = true.
Proof.
  unfold Time.fraction. destruct (ns =? 0); [reflexivity|].
  cbn [allPlain]. rewrite allPlain_rev.
  rewrite allPlain_trimZerosRev; [reflexivity|].
  rewrite allPlain_rev. apply allPlain_padded. reflexivity.
Qed.

(** The text [Time.MarshalJSON] writes for a UTC time needs no escape. *)
Lemma allPlain_timeMarshalJSON (t : Time.Time) (ts : string) :
  timeMarshalJSON (Time.UTC t) = Ok ts -> allPlain ts = true.
Proof.
  unfold timeMarshalJSON, Time.appendStrictRFC3339.
  destruct (Time.civilFromDays (Time.localSec (Time.UTC t) / 86400)) as [[y m] d].
  destruct ((y <? 0) || (9999 <? y)); [discriminate|].
  cbn [Time.offset Time.UTC].
  change (24 <=? Z.abs 0 / 3600) with false. cbv iota.
  intros [= <-]. cbn [String.concat].
  change (Time.zone 0) with "Z".
  cbn [allPlain]. rewrite !plain_digit, allPlain_app, allPlain_fraction.
  vm_compute. reflexivity.
Qed.

Lemma scanString_plain (s rest : string) :
  allPlain s = true ->
  scanString (s ++ String dquote rest) = Some (s, rest).
Proof.
  induction s as [|x s IH]; intros H.
  - reflexivity.
  - cbn [allPlain] in H. apply andb_prop in H. destruct H as [Hx Hs].
    unfold plain in Hx. apply andb_prop in Hx. destruct Hx as [Hx H92].
    apply andb_prop in Hx. destruct Hx as [H32 H34].
    cbn [append scanString].
    rewrite (eqb_code x dquote), (eqb_code x backslash).
    change (code dquote) with 34. change (code backslash) with 92.
    apply negb_true_iff in H34. apply negb_true_iff in H92.
    rewrite H34, H92.
    destruct (Z.ltb_spec (code x) 32); [apply Z.leb_le in H32; lia|].
    rewrite (IH Hs). reflexivity.
Qed.

(** The digits of a decimal numeral are taken as one run. *)
Lemma takeDigits_uint (d : Decimal.uint) (rest : string) :
  takeDigits (NilEmpty.string_of_uint d ++ String ","%char rest)
  = (NilEmpty.string_of_uint d, String ","%char rest).
Proof.
  induction d as [|d IH|d IH|d IH|d IH|d IH|d IH|d IH|d IH|d IH|d IH];
    cbn [NilEmpty.string_of_uint append takeDigits];
    [reflexivity | ..];
    match goal with
    | |- context [isDigit ?c] => change (isDigit c) with true
    end; cbv iota; rewrite IH; reflexivity.
Qed.

(** The numeral of a positive number starts with a digit other than 0. *)
Lemma to_uint_head (p : positive) :
  match Pos.to_uint p with
  | Decimal.Nil | Decimal.D0 _ => False
  | _ => True
  end.
Proof.
  pose proof (DecimalPos.Unsigned.to_uint_nonnil p) as Hnil.
  pose proof (DecimalPos.Unsigned.to_uint_nonzero p) as Hzero.
  assert (Hnorm : Decimal.unorm (Pos.to_uint p) = Pos.to_uint p).
  { rewrite <- DecimalPos.Unsigned.to_of, DecimalPos.Unsigned.of_to. reflexivity. }
  destruct (Pos.to_uint p) as [|d|d|d|d|d|d|d|d|d|d]; try exact I.
  - apply Hnil. reflexivity.
  - unfold Decimal.unorm in Hnorm. rewrite DecimalFacts.nzhead_D0 in Hnorm.
    pose proof (DecimalFacts.nzhead_nonzero d d) as Hnz.
    destruct (Decimal.nzhead d) eqn:Hd;
      try (apply Hnz; exact Hnorm).
    apply Hzero. symmetry. exact Hnorm.
Qed.

Lemma append_nil_r (s : string) : s ++ EmptyString = s.
Proof. induction s as [|x s IH]; cbn; [reflexivity | rewrite IH; reflexivity]. Qed.

(** [FormatInt] writes a minus sign or a digit first. *)
Lemma FormatInt_head (n : Z) :
  exists c s',
    FormatInt n = String c s'
    /\ In c (list_ascii_of_string "-0123456789").
Proof.
  unfold FormatInt. destruct n as [|p|p]; cbn [Z.to_int NilZero.string_of_int].
  - exists "0"%char, EmptyString. split; [reflexivity | cbn; tauto].
  - pose proof (to_uint_head p) as H.
    destruct (Pos.to_uint p); try contradiction;
      cbn [NilZero.string_of_uint NilEmpty.string_of_uint];
      eexists _, _; (split; [reflexivity | cbn; tauto]).
  - eexists _, _. split; [reflexivity | cbn; tauto].
Qed.

(** [FormatInt] writes a number the scanner takes whole. *)
Lemma scanNumber_FormatInt (n : Z) (rest : string) :
  scanNumber (FormatInt n ++ String ","%char rest)
  = Some (FormatInt n, String ","%char rest).
Proof.
  assert (Hpos : forall p,
             scanNumber (NilZero.string_of_uint (Pos.to_uint p) ++ String ","%char rest)
             = Some (NilZero.string_of_uint (Pos.to_uint p), String ","%char rest)).
  { intros p. pose proof (to_uint_head p) as H.
    destruct (Pos.to_uint p); try contradiction;
      cbn [NilZero.string_of_uint NilEmpty.string_of_uint append];
      unfold scanNumber; cbn [scanInt];
      match goal with
      | |- context [Ascii.eqb ?c "0"%char] => change (Ascii.eqb c "0"%char) with false
      end;
      match goal with
      | |- context [between 49 (code ?c) 57] => change (between 49 (code c) 57) with true
      end; cbv iota; rewrite takeDigits_uint; cbn [scanFrac scanExp];
      change (Ascii.eqb ","%char "e"%char || Ascii.eqb ","%char "E"%char) with false;
      cbv iota; cbn [append]; rewrite !append_nil_r; reflexivity. }
  unfold FormatInt. destruct n as [|p|p]; cbn [Z.to_int NilZero.string_of_int].
  - reflexivity.
  - apply Hpos.
  - specialize (Hpos p). pose proof (to_uint_head p) as H.
    unfold scanNumber in *. cbn [append].
    destruct (Pos.to_uint p); try contradiction;
      cbn [NilZero.string_of_uint NilEmpty.string_of_uint append] in *;
      destruct (scanInt _) as [[i s2]|]; try discriminate Hpos;
      destruct (scanFrac s2) as [[fr s3]|]; try discriminate Hpos;
      destruct (scanExp s3) as [[e s4]|]; try discriminate Hpos;
      cbn [append] in *; injection Hpos as -> ->; reflexivity.
Qed.

Lemma parseValue_FormatInt (fuel : nat) (depth n : Z) (rest : string) :
  parseValue (S fuel) depth (FormatInt n ++ String ","%char rest)
  = Parsed (Number (FormatInt n)) (String ","%char rest).
Proof.
  pose proof (scanNumber_FormatInt n rest) as Hscan.
  destruct (FormatInt_head n) as (c & s' & E & Hin).
  rewrite E in *. cbn [append] in *.
  cbn [list_ascii_of_string In] in Hin.
  repeat (destruct Hin as [<-|Hin];
          [cbn -[scanNumber]; rewrite Hscan; reflexivity|]).
  destruct Hin.
Qed.

Lemma parseValue_plain (fuel : nat) (depth : Z) (raw rest : string) :
  allPlain raw = true ->
  parseValue (S fuel) depth (String dquote (raw ++ String dquote rest))
  = Parsed (Str raw) rest.
Proof.
  intros H. cbn -[scanString]. rewrite (scanString_plain raw rest H). reflexivity.
Qed.

(** A member with a plain key, followed by more members or by the end of
    the object. *)
Lemma parseMembers_more (fuel : nat) (depth : Z) (key s r r' : string)
      (v : value) (ms : list (string * value)) :
  allPlain key = true ->
  parseValue fuel depth s = Parsed v (String ","%char r) ->
  parseMembers fuel depth r = Parsed ms r' ->
  parseMembers (S fuel) depth (String dquote (key ++ String dquote (String ":"%char s)))
  = Parsed ((key, v) :: ms) r'.
Proof.
  intros Hkey Hv Hms. cbn -[scanString parseValue].
  rewrite (scanString_plain key _ Hkey). cbn -[parseValue parseMembers].
  rewrite Hv. cbn -[parseValue parseMembers]. rewrite Hms. reflexivity.
Qed.

Lemma parseMembers_last (fuel : nat) (depth : Z) (key s r : string) (v : value) :
  allPlain key = true ->
  parseValue fuel depth s = Parsed v (String "}"%char r) ->
  parseMembers (S fuel) depth (String dquote (key ++ String dquote (String ":"%char s)))
  = Parsed [(key, v)] r.
Proof.
  intros Hkey Hv. cbn -[scanString parseValue].
  rewrite (scanString_plain key _ Hkey). cbn -[parseValue parseMembers].
  rewrite Hv. reflexivity.
Qed.

Lemma render_deletion (id : Z) (ts : string) :
  render (Object [("event_type", Str "product_deleted");
                  ("product_id", Number (FormatInt id));
                  ("timestamp", Str ts)])
  = deletionText id ts.
Proof.
  unfold deletionText. cbn [render]. unfold quote. cbn [append].
  repeat (rewrite append_assoc; cbn [append]). reflexivity.
Qed.

(** The same text, member by member. *)
Lemma deletionText_members (id : Z) (ts : string) :
  deletionText id ts
  = String "{"%char
      (String dquote ("event_type" ++ String dquote (String ":"%char
         (String dquote ("product_deleted" ++ String dquote (String ","%char
            (String dquote ("product_id" ++ String dquote (String ":"%char
               (FormatInt id ++ String ","%char
                  (String dquote ("timestamp" ++ String dquote (String ":"%char
                     (String dquote (ts ++ String dquote "}"))))))))))))))).
Proof.
  unfold deletionText, quote. cbn [append].
  repeat (rewrite append_assoc; cbn [append]). reflexivity.
Qed.

Lemma parseValue_deletion (k : nat) (id : Z) (ts : string) :
  allPlain ts = true ->
  parseValue (S (S (S (S (S k))))) 0 (deletionText id ts)
  = Parsed (Object [("event_type", Str "product_deleted");
                    ("product_id", Number (FormatInt id));
                    ("timestamp", Str ts)]) EmptyString.
Proof.
  intros Hts. rewrite deletionText_members.
  assert (H3 : forall f,
             parseMembers (S (S f)) 1
               (String dquote ("timestamp" ++ String dquote (String ":"%char
                  (String dquote (ts ++ String dquote "}")))))
             = Parsed [("timestamp", Str ts)] EmptyString).
  { intros f. apply parseMembers_last; [reflexivity|].
    apply parseValue_plain. exact Hts. }
  assert (H2 : forall f,
             parseMembers (S (S (S f))) 1
               (String dquote ("product_id" ++ String dquote (String ":"%char
                  (FormatInt id ++ String ","%char
                     (String dquote ("timestamp" ++ String dquote (String ":"%char
                        (String dquote (ts ++ String dquote "}")))))))))
             = Parsed [("product_id", Number (FormatInt id));
                       ("timestamp", Str ts)] EmptyString).
  { intros f. eapply parseMembers_more; [reflexivity | | apply H3].
    apply parseValue_FormatInt. }
  assert (H1 : forall f,
             parseMembers (S (S (S (S f)))) 1
               (String dquote ("event_type" ++ String dquote (String ":"%char
                  (String dquote ("product_deleted" ++ String dquote (String ","%char
                     (String dquote ("product_id" ++ String dquote (String ":"%char
                        (FormatInt id ++ String ","%char
                           (String dquote ("timestamp" ++ String dquote (String ":"%char
                              (String dquote (ts ++ String dquote "}")))))))))))))))
             = Parsed [("event_type", Str "product_deleted");
                       ("product_id", Number (FormatInt id));
                       ("timestamp", Str ts)] EmptyString).
  { intros f. eapply parseMembers_more; [reflexivity | | apply H2].
    apply parseValue_plain. reflexivity. }
  cbn -[parseMembers append]. rewrite H1. reflexivity.
Qed.

(** The decoder's scanner reads the body of a deletion back as the three
    members the encoder wrote. *)
Lemma parse_deletionText (id : Z) (ts : string) :
  allPlain ts = true ->
  parse (deletionText id ts)
  = Some (Object [("event_type", Str "product_deleted");
                  ("product_id", Number (FormatInt id));
                  ("timestamp", Str ts)]).
Proof.
  intros Hts. unfold parse.
  assert (Hfuel : exists k,
             (2 * String.length (deletionText id ts) + 1)%nat
             = S (S (S (S (S k))))).
  { assert (Hlen : (2 <= String.length (deletionText id ts))%nat)
      by (rewrite deletionText_members; cbn [String.length]; lia).
    exists (2 * String.length (deletionText id ts) - 4)%nat. lia. }
  destruct Hfuel as [k ->].
  rewrite (parseValue_deletion k id ts Hts). reflexivity.
Qed.

(** What [Marshal] writes for the event of a deletion. *)
Lemma Marshal_deletedEvent (id : Z) (t : Time.Time) (body : string) :
  Marshal (Service.deletedEvent id t) = Ok body ->
  exists ts,
    timeMarshalJSON (Time.UTC t) = Ok ts
    /\ body = deletionText id ts.
Proof.
  unfold Marshal, encodeEvent. cbn [Timestamp Service.deletedEvent].
  destruct (timeMarshalJSON (Time.UTC t)) as [ts|e]; [|discriminate].
  intros [= <-]. exists ts. split; [reflexivity|].
  rewrite <- render_deletion. reflexivity.
Qed.

End ScannerFacts.

(** * Deletion events on the wire *)

Section DeletionFacts.

Import Json Service.

Variable World : Type.
Variable s : Service.Service World.

(** C3. When the repository deletes the product, [DeleteProduct] hands the
    publisher exactly one event, of type [product_deleted] and with the
    given identity; the body [Publish] serializes for it and sends on the
    channel is the text of an object with the three members [event_type],
    [product_id] and [timestamp], which the scanner reads back as such:
    there is no [name] member in it, neither null nor empty. *)
Theorem deleted_event_has_no_name (id : Z) (w w1 : World) :
  Delete (repo s) id w = (None, w1) ->
  exists ev,
    published (trace (snd (run (DeleteProduct s id) w))) = [ev]
    /\ EventType ev = "product_deleted"
    /\ ProductID ev = id
    /\ forall body,
        Marshal ev = Ok body ->
        (exists ts ms,
            body = deletionText id ts
            /\ parse body = Some (Object ms)
            /\ map fst ms = ["event_type"; "product_id"; "timestamp"]
            /\ ~ In "name" (map fst ms))
        /\ forall (B : Type) (p : Messaging.RabbitPublisher B) (b : B),
            Messaging.Publish p ev b
            = Messaging.sendResult p
                (Messaging.PublishWithContext (Messaging.channel p) EmptyString
                   (Messaging.queue p) false false
                   (Messaging.mkPublishing "application/json" body) b).
Proof.
  intros Hdelete.
  unfold run. rewrite DeleteProduct_exec, Hdelete.
  destruct (now s w1) as [t w2]. cbv zeta.
  destruct (Publish (publisher s) (deletedEvent id t) w2) as [perr w3].
  exists (deletedEvent id t). cbn [snd trace].
  rewrite !published_app, published_logOf.
  split; [reflexivity|]. split; [reflexivity|]. split; [reflexivity|].
  intros body Hbody. split.
  - destruct (Marshal_deletedEvent id t body Hbody) as (ts & Hts & ->).
    exists ts. eexists. split; [reflexivity|].
    split; [apply parse_deletionText, (allPlain_timeMarshalJSON t ts Hts)|].
    split; [reflexivity|].
    cbn [map fst In]. intros [H|[H|[H|[]]]]; discriminate H.
  - intros B p b. apply Publish_marshalled. exact Hbody.
Qed.

End DeletionFacts.

Example deletion_body :
  Json.Marshal (Service.deletedEvent 42 ServiceTest.newYear2026)
  = Ok ("{" ++ q "event_type" ++ ":" ++ q "product_deleted" ++ ","
            ++ q "product_id" ++ ":42,"
            ++ q "timestamp" ++ ":" ++ q "2026-01-01T00:00:00Z" ++ "}").
Proof. vm_compute. reflexivity. Qed.

Example creation_body :
  Json.Marshal (Service.createdEvent (mkProduct 7 "Widget" ServiceTest.newYear2026)
                                     ServiceTest.newYear2026)
  = Ok widgetBody.
Proof. vm_compute. reflexivity. Qed.

(** [TestDeleteProduct], the row that succeeds, on the wired service. *)
Lemma deleted_event_has_no_name_witness :
  let w := Messaging.mkBroker [] false ServiceTest.newYear2026 in
  Service.Delete (Service.repo Messaging.wiredService) 42 w = (None, w)
  /\ exists ev,
      Service.published
        (Service.trace (snd (Service.run (Service.DeleteProduct Messaging.wiredService 42) w)))
      = [ev]
      /\ EventType ev = "product_deleted"
      /\ ProductID ev = 42
      /\ forall body,
          Json.Marshal ev = Ok body ->
          (exists ts ms,
              body = Json.deletionText 42 ts
              /\ Json.parse body = Some (Json.Object ms)
              /\ map fst ms = ["event_type"; "product_id"; "timestamp"]
              /\ ~ In "name" (map fst ms))
          /\ forall (B : Type) (p : Messaging.RabbitPublisher B) (b : B),
              Messaging.Publish p ev b
              = Messaging.sendResult p
                  (Messaging.PublishWithContext (Messaging.channel p) EmptyString
                     (Messaging.queue p) false false
                     (Messaging.mkPublishing "application/json" body) b).
Proof.
  intros w. split; [reflexivity|].
  exact (deleted_event_has_no_name Messaging.Broker Messaging.wiredService 42 w w eq_refl).
Defined.

(** With the broker down the wired service still stores the product; the
    transport error ends in the log, wrapped by [Publish]. *)
Example broker_down_still_creates :
  let w := Messaging.mkBroker [] true ServiceTest.newYear2026 in
  let run := Service.run (Service.CreateProduct Messaging.wiredService "Widget") w in
  fst run = Ok (mkProduct 1 "Widget" ServiceTest.newYear2026)
  /\ Service.logged (Service.trace (snd run))
     = [("publish product_created event failed", 1,
         Wrapped "publish to %q: %w" ["products.events"]
                 (ErrExternal "channel closed"))]
  /\ Messaging.sent (Service.world (snd run)) = [].
Proof. vm_compute. repeat split; reflexivity. Qed.

Example deletion_sent :
  let w := Messaging.mkBroker [] false ServiceTest.newYear2026 in
  map Messaging.Body
      (Messaging.sent
         (Service.world
            (snd (Service.run (Service.DeleteProduct Messaging.wiredService 42) w))))
  = ["{" ++ q "event_type" ++ ":" ++ q "product_deleted" ++ ","
         ++ q "product_id" ++ ":42,"
         ++ q "timestamp" ++ ":" ++ q "2026-01-01T00:00:00Z" ++ "}"].
Proof. vm_compute. reflexivity. Qed.

(** * The HTTP handlers on the service *)

Section HttpFacts.

Import Service Http.

Variable World : Type.
Variable s : Service.Service World.

(** [Handler.CreateProduct] on the real service, step by step. *)
Lemma handleCreate_exec (c : Context) (w : World) :
  run (handleCreate (ofService s) c) w =
  match ShouldBindJSON c with
  | Err _ =>
    (mkResponse StatusBadRequest (errorResponse (Literal "invalid request body")),
     mkMachine w [])
  | Ok req =>
    let (r, m) := run (Service.CreateProduct s (ReqName req)) w in
    (match r with
     | Err err =>
       if errorIs err ErrInvalidName
       then mkResponse StatusBadRequest (errorResponse (TextOf err))
       else mkResponse StatusInternalServerError
                       (errorResponse (Literal "failed to create product"))
     | Ok product => mkResponse StatusCreated (productResponse product)
     end, m)
  end.
Proof.
  unfold run, handleCreate. destruct (ShouldBindJSON c) as [req|e]; [|reflexivity].
  cbn -[Service.CreateProduct errorIs].
  destruct (runState (Service.CreateProduct s (ReqName req)) (mkMachine w []))
    as [[product|err] m]; [reflexivity|].
  destruct (errorIs err ErrInvalidName); reflexivity.
Qed.

Lemma handleDelete_exec (c : Context) (w : World) :
  run (handleDelete (ofService s) c) w =
  match Strconv.ParseInt (Param c "id") with
  | None =>
    (mkResponse StatusBadRequest (errorResponse (Literal "invalid product id")),
     mkMachine w [])
  | Some id =>
    let (derr, m) := run (Service.DeleteProduct s id) w in
    (match derr with
     | Some err =>
       if errorIs err ErrNotFound
       then mkResponse StatusNotFound (errorResponse (TextOf err))
       else mkResponse StatusInternalServerError
                       (errorResponse (Literal "failed to delete product"))
     | None => mkResponse StatusNoContent NoBody
     end, m)
  end.
Proof.
  unfold run, handleDelete.
  destruct (Strconv.ParseInt (Param c "id")) as [id|]; [|reflexivity].
  cbn -[Service.DeleteProduct errorIs].
  destruct (runState (Service.DeleteProduct s id) (mkMachine w []))
    as [[err|] m]; [|reflexivity].
  destruct (errorIs err ErrNotFound); reflexivity.
Qed.

Lemma handleList_exec (c : Context) (w : World) :
  run (handleList (ofService s) c) w =
  let page := parseQueryInt (Query c "page") defaultPage in
  let limit := parseQueryInt (Query c "limit") defaultLimit in
  let (r, m) := run (Service.ListProducts s page limit) w in
  (match r with
   | Err _ => mkResponse StatusInternalServerError
                         (errorResponse (Literal "failed to get products"))
   | Ok (items, total) =>
     mkResponse StatusOK (listProductsResponse items page limit total)
   end, m).
Proof.
  unfold run, handleList. cbv zeta.
  cbn -[Service.ListProducts parseQueryInt].
  destruct (runState (Service.ListProducts s _ _) (mkMachine w []))
    as [[[items total]|err] m]; reflexivity.
Qed.

Lemma ParseInt_range (x : string) (z : Z) :
  Json.ParseInt x = Some z -> minInt64 <= z <= maxInt64.
Proof.
  unfold Json.ParseInt.
  destruct (match x with
            | String "-"%char r => (true, r)
            | String "+"%char r => (false, r)
            | _ => (false, x)
            end) as [neg ds].
  destruct ds as [|c ds]; [discriminate|].
  destruct (digitsValue (String c ds) 0) as [n|]; [|discriminate].
  destruct (inInt64 (if neg then - n else n)) eqn:Hin; [|discriminate].
  intros [= <-]. unfold inInt64, between in Hin.
  apply andb_prop in Hin. destruct Hin as [H1 H2].
  apply Z.leb_le in H1. apply Z.leb_le in H2. split; assumption.
Qed.

(** A query parameter read by [parseQueryInt] is a positive [int]: the
    number in the query when it is one, else the fallback. *)
Lemma parseQueryInt_positive (raw : string) (fallback : Z) :
  1 <= fallback <= maxInt64 ->
  1 <= parseQueryInt raw fallback <= maxInt64
  /\ (parseQueryInt raw fallback = fallback
      \/ Strconv.Atoi raw = Some (parseQueryInt raw fallback)).
Proof.
  intros Hf. unfold parseQueryInt.
  destruct (String.eqb raw EmptyString); [split; [exact Hf | left; reflexivity]|].
  destruct (Strconv.Atoi raw) as [value|] eqn:Ha;
    [|split; [exact Hf | left; reflexivity]].
  destruct (Z.ltb_spec value 1); [split; [exact Hf | left; reflexivity]|].
  apply ParseInt_range in Ha. split; [lia | right; reflexivity].
Qed.

Lemma published_single (ev : ProductEvent) (tr1 tr2 : list Effect) :
  published (tr1 ++ Published ev :: tr2) <> [].
Proof.
  rewrite published_app. cbn. intros H. apply app_eq_nil in H.
  destruct H as [_ H]. discriminate H.
Qed.


(** X2. [DELETE /products/:id] on the real service: an id that is not a
    decimal [int64] is answered 400 without any call; otherwise the answer
    is 204 exactly when the repository deleted the product and 404 exactly
    when its error is [ErrNotFound]; an event is handed to the publisher
    exactly when the answer is 204. *)
Theorem delete_answer (c : Context) (w : World) :
  let out := run (handleDelete (ofService s) c) w in
  (Strconv.ParseInt (Param c "id") = None ->
   out = (mkResponse StatusBadRequest (errorResponse (Literal "invalid product id")),
          mkMachine w []))
  /\ (Status (fst out) = StatusNoContent
      <-> exists id w1,
          Strconv.ParseInt (Param c "id") = Some id
          /\ Delete (repo s) id w = (None, w1))
  /\ (Status (fst out) = StatusNotFound
      <-> exists id err w1,
          Strconv.ParseInt (Param c "id") = Some id
          /\ Delete (repo s) id w = (Some err, w1)
          /\ errorIs err ErrNotFound = true)
  /\ (Status (fst out) = StatusNoContent <-> published (trace (snd out)) <> []).
Proof.
  cbv zeta. rewrite handleDelete_exec.
  destruct (Strconv.ParseInt (Param c "id")) as [id|].
  2:{ cbn [fst snd trace Status Body].
      split; [reflexivity|].
      split; [split; [computed_diff|intros (id & w1 & H & _); discriminate H]|].
      split; [split; [computed_diff|intros (id & err & w1 & H & _); discriminate H]|].
      split; [computed_diff|intros H; exfalso; apply H; reflexivity]. }
  unfold run. rewrite DeleteProduct_exec.
  split; [discriminate|].
  destruct (Delete (repo s) id w) as [[err|] w1] eqn:Hd.
  - assert (Hno : (exists id' w', Some id = Some id' /\ Delete (repo s) id' w = (None, w'))
                  -> False).
    { intros (id' & w' & [= <-] & Hd'). rewrite Hd in Hd'. discriminate Hd'. }
    cbn [fst snd trace errorIs].
    destruct (errorIs err ErrNotFound) eqn:His; cbn [Status Body].
    + split; [split; [computed_diff|intros H; exfalso; exact (Hno H)]|].
      split; [split; [intros _; exists id, err, w1; auto | reflexivity]|].
      split; [computed_diff|intros H; exfalso; apply H; reflexivity].
    + split; [split; [computed_diff|intros H; exfalso; exact (Hno H)]|].
      split; [split; [computed_diff|]|].
      { intros (id' & err' & w' & [= <-] & Hd' & His').
        rewrite Hd in Hd'. injection Hd' as <- <-. rewrite His in His'. discriminate. }
      split; [computed_diff|intros H; exfalso; apply H; reflexivity].
  - destruct (now s w1) as [t w2]. cbv zeta.
    destruct (Publish (publisher s) (deletedEvent id t) w2) as [perr w3].
    cbn [fst snd trace Status].
    split; [split; [intros _; exists id, w1; auto | reflexivity]|].
    split; [split; [computed_diff|]|].
    { intros (id' & err' & w' & [= <-] & Hd' & _).
      rewrite Hd in Hd'. discriminate Hd'. }
    split; [intros _ | reflexivity].
    apply (published_single _ [RepoDelete _]).
Qed.

(** X3. [GET /products] on the real service: the page and the limit it
    passes on are at least 1; the repository is asked for that limit cut
    down to 100, while the answer reports the limit as the client gave
    it; nothing is handed to the publisher. *)
Theorem list_answer (c : Context) (w : World) :
  let out := run (handleList (ofService s) c) w in
  let page := parseQueryInt (Query c "page") 1 in
  let limit := parseQueryInt (Query c "limit") 10 in
  1 <= page /\ 1 <= limit
  /\ In (RepoList (Z.min limit 100) (wrapInt ((page - 1) * Z.min limit 100)))
        (trace (snd out))
  /\ (Status (fst out) = StatusOK ->
      exists items total,
        Body (fst out) = listProductsResponse items page limit total)
  /\ published (trace (snd out)) = [].
Proof.
  cbv zeta. rewrite handleList_exec. cbv zeta.
  unfold defaultPage, defaultLimit.
  destruct (parseQueryInt_positive (Query c "page") 1
              ltac:(unfold maxInt64; lia)) as [[Hp _] _].
  destruct (parseQueryInt_positive (Query c "limit") 10
              ltac:(unfold maxInt64; lia)) as [[Hl _] _].
  set (page := parseQueryInt (Query c "page") 1) in *.
  set (limit := parseQueryInt (Query c "limit") 10) in *.
  unfold run. rewrite ListProducts_exec. cbv zeta.
  assert (HL : effectiveLimit limit = Z.min limit 100).
  { unfold effectiveLimit. destruct (Z.ltb_spec limit 1); [lia|].
    destruct (Z.ltb_spec 100 limit); lia. }
  rewrite HL. replace (Z.max page 1) with page by lia.
  split; [exact Hp|]. split; [exact Hl|].
  destruct (List (repo s) _ _ w) as [[items|err] w1].
  - destruct (Count (repo s) w1) as [[total|err] w2]; cbn [fst snd trace Status Body].
    + split; [left; reflexivity|]. split; [|reflexivity].
      intros _. exists items, total. reflexivity.
    + split; [left; reflexivity|]. split; [computed_diff | reflexivity].
  - cbn [fst snd trace Status Body].
    split; [left; reflexivity|]. split; [computed_diff | reflexivity].
Qed.

End HttpFacts.

(** * The counters *)

Section CounterFacts.

Import Service.

Variable World : Type.
Variable s : Service.Service World.

Lemma countersAgree_app (tr tr' : list Effect) :
  countersAgree tr -> countersAgree tr' -> countersAgree (tr ++ tr').
Proof.
  unfold countersAgree, createdTotal, deletedTotal, eventsOfType.
  intros [H1 H2] [H1' H2'].
  rewrite published_app, !filter_app, !length_app. lia.
Qed.

Lemma perform_countersAgree (op : Operation) (w : World) (tr : list Effect) :
  countersAgree tr ->
  countersAgree (trace (snd (runState (perform s op) (mkMachine w tr)))).
Proof.
  intros Htr.
  destruct op as [name|id|page limit];
    cbn -[CreateProduct DeleteProduct ListProducts].
  - rewrite CreateProduct_exec. cbv zeta.
    destruct (String.eqb _ _); [exact Htr|].
    destruct (Create (repo s) _ w) as [[product|err] w1].
    + destruct (now s w1) as [t w2].
      destruct (Publish (publisher s) (createdEvent product t) w2) as [perr w3].
      cbn [snd trace].
      apply countersAgree_app; [exact Htr|].
      destruct perr; split; reflexivity.
    + cbn [snd trace]. apply countersAgree_app; [exact Htr | split; reflexivity].
  - rewrite DeleteProduct_exec.
    destruct (Delete (repo s) id w) as [[err|] w1].
    + cbn [snd trace]. apply countersAgree_app; [exact Htr | split; reflexivity].
    + destruct (now s w1) as [t w2]. cbv zeta.
      destruct (Publish (publisher s) (deletedEvent id t) w2) as [perr w3].
      cbn [snd trace].
      apply countersAgree_app; [exact Htr|].
      destruct perr; split; reflexivity.
  - rewrite ListProducts_exec. cbv zeta.
    destruct (List (repo s) _ _ w) as [[items|err] w1].
    + destruct (Count (repo s) w1) as [[total|err] w2]; cbn [snd trace];
        (apply countersAgree_app; [exact Htr | split; reflexivity]).
    + cbn [snd trace]. apply countersAgree_app; [exact Htr | split; reflexivity].
Qed.

(** X4. The two counters count the events: after any sequence of
    operations, from any state of the surroundings, the created counter
    was incremented once for every [product_created] event handed to the
    publisher and the deleted counter once for every [product_deleted]
    event, whether or not publishing them succeeded. *)
Theorem counters_count_events (ops : list Operation) (w : World) :
  let tr := trace (snd (run (performAll s ops) w)) in
  createdTotal tr = List.length (eventsOfType "product_created" tr)
  /\ deletedTotal tr = List.length (eventsOfType "product_deleted" tr).
Proof.
  cbv zeta. unfold run.
  assert (H : forall m : Machine World,
             countersAgree (trace m) ->
             countersAgree (trace (snd (runState (performAll s ops) m)))).
  { induction ops as [|op ops IH]; intros m Hm; [exact Hm|].
    cbn. destruct (runState (perform s op) m) as [u m'] eqn:Hop.
    apply IH. destruct m as [w0 tr].
    pose proof (perform_countersAgree op w0 tr Hm) as H. rewrite Hop in H. exact H. }
  apply (H (mkMachine w [])). split; reflexivity.
Qed.

End CounterFacts.

(** * The PostgreSQL repository *)

Section RepositoryFacts.

Import Repository.

Variable World : Type.
Variable r : PostgresRepository World.

Lemma scanAll_spec (rows : list (result Product)) :
  forall acc items,
    scanAll rows acc = Ok items
    <-> exists ps, rows = map Ok ps /\ items = (acc ++ ps)%list.
Proof.
  induction rows as [|[p|e] rows IH]; intros acc items; cbn [scanAll].
  - split.
    + intros [= <-]. exists []. split; [reflexivity | symmetry; apply app_nil_r].
    + intros (ps & Hps & ->). destruct ps; [|discriminate Hps].
      rewrite app_nil_r. reflexivity.
  - rewrite IH. split.
    + intros (ps & -> & ->). exists (p :: ps). split; [reflexivity|].
      rewrite <- app_assoc. reflexivity.
    + intros (ps & Hps & ->). destruct ps as [|p' ps]; [discriminate Hps|].
      injection Hps as <- ->. exists ps. split; [reflexivity|].
      rewrite <- app_assoc. reflexivity.
  - split; [discriminate|].
    intros (ps & Hps & _). destruct ps; discriminate Hps.
Qed.

(** X5. [List] gives all the rows of the result set or none: once the
    query has run, it returns products exactly when every row scanned and
    the iteration ended without error, and then one product per row, in
    the order of the rows; on every path the rows are closed once. *)
Theorem list_all_or_nothing (limit offset : Z) (w w1 : World) (rows : Rows) :
  QueryContext (db r) listQuery [ArgInt limit; ArgInt offset] w = (Ok rows, w1) ->
  snd (List r limit offset w) = RowsClose (db r) w1
  /\ forall items,
      fst (List r limit offset w) = Ok items
      <-> rowsErr rows = None /\ scanned rows = map Ok items.
Proof.
  intros Hq. unfold List. rewrite Hq. cbn [fst snd]. split; [reflexivity|].
  intros items.
  pose proof (scanAll_spec (scanned rows) [] items) as Hspec.
  destruct (scanAll (scanned rows) []) as [got|e] eqn:Hs.
  - pose proof (proj1 (scanAll_spec (scanned rows) [] got) Hs) as (ps & Hps & Hgot).
    cbn [app] in Hgot. subst got.
    destruct (rowsErr rows) as [e|].
    + split; [discriminate | intros [H _]; discriminate H].
    + split.
      * intros [= <-]. split; [reflexivity | exact Hps].
      * intros [_ Hitems]. rewrite Hps in Hitems.
        f_equal. clear -Hitems. revert items Hitems.
        induction ps as [|p ps IH]; intros [|i items] H; try discriminate H.
        -- reflexivity.
        -- injection H as <- H. f_equal. apply IH, H.
  - split; [intros H; discriminate H|].
    intros [_ Hitems]. exfalso.
    assert (Hex : exists ps, scanned rows = map Ok ps /\ items = ([] ++ ps)%list)
      by (exists items; split; [exact Hitems | reflexivity]).
    apply Hspec in Hex. discriminate Hex.
Qed.

End RepositoryFacts.

(** * A deletion, from the request to the table *)

Section DeleteThrough.

Import Service Http Repository.

Variable World : Type.
Variable r : PostgresRepository World.
Variable pub : Service.Publisher World.
Variable clock : World -> Time.Time * World.

(** X6. [DELETE /products/:id] down to the database: when the statement
    ran and affected no row, the answer is 404 with the text
    "repo delete: product not found", nothing is handed to the publisher
    and no counter moves; when it affected a row, the answer is 204 and
    exactly one [product_deleted] event with that id is handed over. *)
Theorem delete_by_rows_affected (c : Context) (w w1 : World)
        (id affected : Z) (res : ExecResult) :
  let s := Service.New World (asRepository r) pub clock in
  let out := run (handleDelete (ofService s) c) w in
  Strconv.ParseInt (Param c "id") = Some id ->
  ExecContext (db r) deleteQuery [ArgInt id] w = (Ok res, w1) ->
  RowsAffected res = Ok affected ->
  (affected = 0 ->
   exists err,
     out = (mkResponse StatusNotFound (errorResponse (TextOf err)),
            mkMachine w1 [RepoDelete id])
     /\ errorMessage err = Some "repo delete: product not found")
  /\ (affected <> 0 ->
      Status (fst out) = StatusNoContent
      /\ exists ev,
          published (trace (snd out)) = [ev]
          /\ EventType ev = "product_deleted" /\ ProductID ev = id).
Proof.
  intros s out Hid Hexec Hrows. subst out.
  rewrite handleDelete_exec, Hid. unfold run. rewrite DeleteProduct_exec.
  cbn [repo s asRepository Service.Delete]. unfold Delete.
  rewrite Hexec, Hrows. split.
  - intros ->. cbn [Z.eqb]. cbv iota. cbn [errorIs].
    eexists. split; reflexivity.
  - intros Hn. destruct (Z.eqb_spec affected 0) as [H0|_]; [contradiction|].
    cbn [now s]. destruct (clock w1) as [t w2]. cbv zeta.
    cbn [publisher s].
    destruct (Publish pub (deletedEvent id t) w2) as [perr w3].
    cbn [fst snd trace Status]. split; [reflexivity|].
    exists (deletedEvent id t).
    rewrite !published_app, published_logOf. cbn.
    repeat split; reflexivity.
Qed.

End DeleteThrough.

(** * The configuration *)

Section ConfigFacts.

Import Config.

Variable Getenv : string -> string.

(** X7. [LoadProducts] succeeds exactly when [DATABASE_URL] and
    [RABBITMQ_URL] are set to something; the configuration it returns
    carries these two values, has no empty address or path, and in the
    same environment [LoadNotifications] succeeds with the same broker
    URL and the same shutdown timeout. *)
Theorem products_configuration :
  ((exists cfg, LoadProducts Getenv = Ok cfg)
   <-> Getenv "DATABASE_URL" <> EmptyString /\ Getenv "RABBITMQ_URL" <> EmptyString)
  /\ forall cfg,
      LoadProducts Getenv = Ok cfg ->
      DatabaseURL cfg = Getenv "DATABASE_URL"
      /\ RabbitMQURL cfg = Getenv "RABBITMQ_URL"
      /\ HTTPAddr cfg <> EmptyString
      /\ MigrationsPath cfg <> EmptyString
      /\ LoadNotifications Getenv
         = Ok (mkNotifications (RabbitMQURL cfg) (ShutdownTimeout cfg)).
Proof.
  assert (Hget : forall key fallback,
             fallback <> EmptyString -> getEnv Getenv key fallback <> EmptyString).
  { intros key fallback Hf. unfold getEnv.
    destruct (String.eqb_spec (Getenv key) EmptyString); assumption. }
  assert (Hreq : forall key, getEnv Getenv key EmptyString = Getenv key).
  { intros key. unfold getEnv.
    destruct (String.eqb_spec (Getenv key) EmptyString) as [->|]; reflexivity. }
  unfold LoadProducts, LoadNotifications. cbv zeta.
  cbn [DatabaseURL RabbitMQURL NRabbitMQURL]. rewrite !Hreq.
  destruct (String.eqb_spec (Getenv "DATABASE_URL") EmptyString) as [Hd|Hd].
  { split.
    - split; [intros [cfg H]; discriminate H | intros [H _]; contradiction].
    - intros cfg H. discriminate H. }
  destruct (String.eqb_spec (Getenv "RABBITMQ_URL") EmptyString) as [Hr|Hr].
  { split.
    - split; [intros [cfg H]; discriminate H | intros [_ H]; contradiction].
    - intros cfg H. discriminate H. }
  split.
  - split; [intros _; split; assumption | intros _; eexists; reflexivity].
  - intros cfg [= <-]. cbn [DatabaseURL RabbitMQURL HTTPAddr MigrationsPath ShutdownTimeout].
    repeat split; try reflexivity; apply Hget; discriminate.
Qed.

(** The error of [LoadProducts] names the first variable that is missing. *)
Lemma products_configuration_error :
  forall e,
    LoadProducts Getenv = Err e ->
    (Getenv "DATABASE_URL" = EmptyString /\ e = ErrExternal "DATABASE_URL is required")
    \/ (Getenv "DATABASE_URL" <> EmptyString /\ Getenv "RABBITMQ_URL" = EmptyString
        /\ e = ErrExternal "RABBITMQ_URL is required").
Proof.
  intros e. unfold LoadProducts, getEnv. cbv zeta. cbn [DatabaseURL RabbitMQURL].
  destruct (String.eqb_spec (Getenv "DATABASE_URL") EmptyString) as [Hd|Hd].
  - cbn. intros [= <-]. left. auto.
  - destruct (String.eqb_spec (Getenv "DATABASE_URL") EmptyString); [contradiction|].
    destruct (String.eqb_spec (Getenv "RABBITMQ_URL") EmptyString) as [Hr|Hr].
    + cbn. intros [= <-]. right. auto.
    + destruct (String.eqb_spec (Getenv "RABBITMQ_URL") EmptyString); [contradiction|].
      discriminate.
Qed.

End ConfigFacts.

(** * Round trips of the wire format *)

Section NumberRoundTrip.

Import Json.

Lemma digitsValue_acc (d : Decimal.uint) :
  forall acc : positive,
    digitsValue (NilEmpty.string_of_uint d) (Z.pos acc)
    = Some (Z.pos (Pos.of_uint_acc d acc)).
Proof.
  induction d as [|d IH|d IH|d IH|d IH|d IH|d IH|d IH|d IH|d IH|d IH];
    intros acc; cbn [NilEmpty.string_of_uint digitsValue Pos.of_uint_acc];
    [reflexivity | ..];
    match goal with
    | |- context [isDigit ?c] => change (isDigit c) with true
    end; cbv iota;
    match goal with
    | |- context [digitVal ?c] =>
      let v := eval vm_compute in (digitVal c) in change (digitVal c) with v
    end;
    rewrite <- IH; f_equal; lia.
Qed.

Lemma digitsValue_uint (d : Decimal.uint) :
  digitsValue (NilEmpty.string_of_uint d) 0 = Some (Z.of_N (Pos.of_uint d)).
Proof.
  induction d as [|d IH|d IH|d IH|d IH|d IH|d IH|d IH|d IH|d IH|d IH];
    cbn [NilEmpty.string_of_uint digitsValue Pos.of_uint];
    [reflexivity | exact IH | ..];
    match goal with
    | |- context [isDigit ?c] => change (isDigit c) with true
    end; cbv iota;
    match goal with
    | |- context [0 * 10 + digitVal ?c] =>
      let v := eval vm_compute in (0 * 10 + digitVal c) in
      change (0 * 10 + digitVal c) with v
    end;
    rewrite digitsValue_acc; reflexivity.
Qed.

Lemma digitsValue_to_uint (p : positive) :
  digitsValue (NilZero.string_of_uint (Pos.to_uint p)) 0 = Some (Z.pos p).
Proof.
  assert (H : NilZero.string_of_uint (Pos.to_uint p)
              = NilEmpty.string_of_uint (Pos.to_uint p)).
  { pose proof (DecimalPos.Unsigned.to_uint_nonnil p) as Hnil.
    destruct (Pos.to_uint p); [contradiction Hnil; reflexivity | reflexivity ..]. }
  rewrite H, digitsValue_uint, DecimalPos.Unsigned.of_to. reflexivity.
Qed.

(** The numeral of a positive number starts with a decimal digit. *)
Lemma string_of_to_uint_head (p : positive) :
  exists c s',
    NilZero.string_of_uint (Pos.to_uint p) = String c s'
    /\ In c (list_ascii_of_string "123456789").
Proof.
  pose proof (to_uint_head p) as H.
  destruct (Pos.to_uint p); try contradiction;
    cbn [NilZero.string_of_uint NilEmpty.string_of_uint];
    eexists _, _; (split; [reflexivity | cbn; tauto]).
Qed.

(** [ParseInt] reads back every [int64] that [FormatInt] wrote. *)
Lemma ParseInt_FormatInt (n : Z) :
  minInt64 <= n <= maxInt64 -> ParseInt (FormatInt n) = Some n.
Proof.
  intros Hn.
  assert (Hin : forall z, z = n -> inInt64 z = true).
  { intros z ->. unfold inInt64, between.
    apply andb_true_intro. split; apply Z.leb_le; lia. }
  unfold FormatInt. destruct n as [|p|p]; cbn [Z.to_int NilZero.string_of_int].
  - reflexivity.
  - destruct (string_of_to_uint_head p) as (c & s' & E & Hc).
    pose proof (digitsValue_to_uint p) as Hv. rewrite E in *.
    cbn [list_ascii_of_string In] in Hc.
    repeat (destruct Hc as [<-|Hc];
            [unfold ParseInt; rewrite Hv, (Hin (Z.pos p) eq_refl); reflexivity|]).
    destruct Hc.
  - destruct (string_of_to_uint_head p) as (c & s' & E & _).
    pose proof (digitsValue_to_uint p) as Hv.
    unfold ParseInt. rewrite E in *. rewrite Hv.
    change (- Z.pos p) with (Z.neg p). rewrite (Hin (Z.neg p) eq_refl). reflexivity.
Qed.

End NumberRoundTrip.

Ltac eval_test :=
  match goal with
  | |- context [?a <=? ?b] =>
    let v := eval vm_compute in (a <=? b) in
    match v with true => idtac | false => idtac end; change (a <=? b) with v
  | |- context [?a <? ?b] =>
    let v := eval vm_compute in (a <? b) in
    match v with true => idtac | false => idtac end; change (a <? b) with v
  | |- context [?a =? ?b] =>
    let v := eval vm_compute in (a =? b) in
    match v with true => idtac | false => idtac end; change (a =? b) with v
  end; cbv iota; cbn [orb andb negb].

Section CalendarFacts.

Import Time.

(** The fields [civilFromDays] works with: the era, the year of the era
    counted from March, the day of that year and its month. *)
Lemma civil_fields (days : Z) :
  exists era yoe doy mp,
    0 <= yoe <= 399 /\ 0 <= doy <= 365 /\ 0 <= mp <= 11
    /\ mp = (5 * doy + 2) / 153
    /\ days = era * 146097 + (365 * yoe + yoe / 4 - yoe / 100 + doy) - 719468
    /\ (doy = 365 -> ((yoe + 1) mod 4 = 0 /\ (yoe + 1) mod 100 <> 0) \/ yoe = 399)
    /\ civilFromDays days
       = ((if (if mp <? 10 then mp + 3 else mp - 9) <=? 2
           then yoe + era * 400 + 1 else yoe + era * 400),
          (if mp <? 10 then mp + 3 else mp - 9),
          doy - (153 * mp + 2) / 5 + 1).
Proof.
  unfold civilFromDays. cbv zeta.
  set (z := days + 719468).
  set (era := z / 146097).
  set (doe := z - era * 146097).
  assert (Hdoe : 0 <= doe <= 146096).
  { subst doe era. Z.div_mod_to_equations. lia. }
  assert (Ez : days = era * 146097 + doe - 719468) by (subst doe z; lia).
  clearbody doe.
  set (yoe := (doe - doe / 1460 + doe / 36524 - doe / 146096) / 365).
  set (doy := doe - (365 * yoe + yoe / 4 - yoe / 100)).
  set (mp := (5 * doy + 2) / 153).
  assert (Hyoe : 0 <= yoe <= 399)
    by (subst yoe; Z.div_mod_to_equations; lia).
  assert (Hdoy : 0 <= doy <= 365)
    by (subst doy yoe; Z.div_mod_to_equations; lia).
  assert (Hleap : doy = 365 ->
                  ((yoe + 1) mod 4 = 0 /\ (yoe + 1) mod 100 <> 0) \/ yoe = 399)
    by (subst doy yoe; Z.div_mod_to_equations; lia).
  exists era, yoe, doy, mp.
  split; [exact Hyoe|]. split; [exact Hdoy|].
  split; [subst mp; Z.div_mod_to_equations; lia|].
  split; [reflexivity|].
  split; [subst doy; rewrite Ez; lia|].
  split; [exact Hleap|]. reflexivity.
Qed.

(** The date of a day number is a date of the calendar, and it is the
    date of that day. *)
Lemma civil_roundtrip (days : Z) :
  let '(y, m, d) := civilFromDays days in
  daysFromCivil y m d = days /\ 1 <= m <= 12 /\ 1 <= d <= daysIn m y.
Proof.
  destruct (civil_fields days)
    as (era & yoe & doy & mp & Hyoe & Hdoy & Hmp & Emp & Edays & Hleap & ->).
  assert (Hcase : mp = 0 \/ mp = 1 \/ mp = 2 \/ mp = 3 \/ mp = 4 \/ mp = 5 \/ mp = 6
                  \/ mp = 7 \/ mp = 8 \/ mp = 9 \/ mp = 10 \/ mp = 11) by lia.
  assert (Hd : (153 * mp + 2) / 5 <= doy
               /\ (mp < 11 -> doy < (153 * (mp + 1) + 2) / 5)).
  { rewrite Emp. Z.div_mod_to_equations. lia. }
  unfold daysFromCivil, daysIn, isLeap.
  repeat (destruct Hcase as [E|Hcase]; [rewrite E in *; clear E|]);
    [.. | rewrite Hcase in *; clear Hcase ].
  all: repeat eval_test.
  all: try (split; [ rewrite Edays; Z.div_mod_to_equations; lia
                   | split; [lia | revert Hd; Z.div_mod_to_equations; lia]]).
  split; [rewrite Edays; Z.div_mod_to_equations; lia|].
  split; [lia|].
  destruct (Z.eqb_spec ((yoe + era * 400 + 1) mod 4) 0) as [H4|H4];
    destruct (Z.eqb_spec ((yoe + era * 400 + 1) mod 100) 0) as [H100|H100];
    destruct (Z.eqb_spec ((yoe + era * 400 + 1) mod 400) 0) as [H400|H400];
    cbn [andb orb negb];
    revert Hd Hleap; try revert H4; try revert H100; try revert H400;
    Z.div_mod_to_equations; lia.
Qed.

End CalendarFacts.

Section DigitFacts.

Import Time.

Lemma isDigit_digit (n : Z) : isDigit (digit (n mod 10)) = true.
Proof.
  unfold isDigit, digit, between.
  pose proof (Z.mod_pos_bound n 10 ltac:(lia)).
  rewrite code_chr by lia.
  apply andb_true_intro. split; apply Z.leb_le; lia.
Qed.

Lemma digitVal_digit (n : Z) : digitVal (digit (n mod 10)) = n mod 10.
Proof.
  unfold digitVal, digit.
  pose proof (Z.mod_pos_bound n 10 ltac:(lia)).
  rewrite code_chr by lia. lia.
Qed.

Lemma digitsValue_padded (width : nat) :
  forall n acc a,
    digitsValue (padded width n acc) a
    = digitsValue acc (a * 10 ^ Z.of_nat width + n mod 10 ^ Z.of_nat width).
Proof.
  induction width as [|w IH]; intros n acc a.
  - cbn [padded]. change (10 ^ Z.of_nat 0) with 1. rewrite Z.mod_1_r. f_equal. lia.
  - cbn [padded]. rewrite IH. cbn [digitsValue].
    rewrite isDigit_digit, digitVal_digit. f_equal.
    rewrite Nat2Z.inj_succ, Z.pow_succ_r by lia.
    rewrite (Z.rem_mul_r n 10 (10 ^ Z.of_nat w)) by lia. lia.
Qed.

Lemma parseUint_padded (width : nat) (n lo hi : Z) :
  0 <= n < 10 ^ Z.of_nat width -> lo <= n <= hi ->
  parseUint (padded width n EmptyString) lo hi = Some n.
Proof.
  intros Hn Hr. unfold parseUint. rewrite digitsValue_padded.
  cbn [digitsValue]. rewrite Z.mod_small by lia. cbn [Z.mul Z.add].
  unfold between.
  destruct (Z.leb_spec lo n); [|lia]. destruct (Z.leb_spec n hi); [|lia]. reflexivity.
Qed.

Lemma digitsValue_app (a b : string) :
  forall acc,
    digitsValue (a ++ b) acc
    = match digitsValue a acc with
      | Some x => digitsValue b x
      | None => None
      end.
Proof.
  induction a as [|c a IH]; intros acc; cbn [append digitsValue]; [reflexivity|].
  destruct (isDigit c); [apply IH | reflexivity].
Qed.

Lemma rev_onto_app (s acc : string) :
  Strings.rev_onto s acc = Strings.rev s ++ acc.
Proof.
  unfold Strings.rev. revert acc.
  induction s as [|c s IH]; intros acc; cbn [Strings.rev_onto]; [reflexivity|].
  rewrite IH, (IH (String c EmptyString)), append_assoc. reflexivity.
Qed.

Lemma rev_cons (c : ascii) (s : string) :
  Strings.rev (String c s) = Strings.rev s ++ String c EmptyString.
Proof. unfold Strings.rev at 1. cbn [Strings.rev_onto]. apply rev_onto_app. Qed.

Lemma rev_app (a b : string) :
  Strings.rev (a ++ b) = Strings.rev b ++ Strings.rev a.
Proof.
  induction a as [|c a IH]; cbn [append].
  - symmetry. apply append_nil_r.
  - rewrite !rev_cons, IH, append_assoc. reflexivity.
Qed.

Lemma rev_involutive (s : string) : Strings.rev (Strings.rev s) = s.
Proof.
  induction s as [|c s IH]; [reflexivity|].
  rewrite rev_cons, rev_app, IH. reflexivity.
Qed.

Lemma length_app (a b : string) :
  String.length (a ++ b) = (String.length a + String.length b)%nat.
Proof. induction a as [|c a IH]; cbn; [reflexivity | rewrite IH; reflexivity]. Qed.

Lemma length_rev (s : string) : String.length (Strings.rev s) = String.length s.
Proof.
  induction s as [|c s IH]; [reflexivity|].
  rewrite rev_cons, length_app, IH. cbn. lia.
Qed.

Lemma length_padded (width : nat) :
  forall n acc,
    String.length (padded width n acc) = (width + String.length acc)%nat.
Proof.
  induction width as [|w IH]; intros n acc; cbn [padded]; [reflexivity|].
  rewrite IH. cbn. lia.
Qed.

Lemma length_trimZerosRev (r : string) :
  (String.length (trimZerosRev r) <= String.length r)%nat.
Proof.
  induction r as [|c r IH]; [apply Nat.le_refl|].
  cbn [trimZerosRev].
  destruct c as [[|] [|] [|] [|] [|] [|] [|] [|]]; try apply Nat.le_refl.
  cbn [String.length]. lia.
Qed.

(** Trailing zeros carry no value: the digits that are left, read as a
    number, are the number divided by a power of ten. *)
Lemma digitsValue_trimZeros (r : string) :
  forall v,
    digitsValue (Strings.rev r) 0 = Some v ->
    exists v',
      digitsValue (Strings.rev (trimZerosRev r)) 0 = Some v'
      /\ v = v' * 10 ^ (Z.of_nat (String.length r)
                        - Z.of_nat (String.length (trimZerosRev r))).
Proof.
  induction r as [|c r IH]; intros v Hv.
  - exists v. split; [exact Hv|]. cbn. lia.
  - assert (Hkeep : trimZerosRev (String c r) = String c r ->
                    exists v',
                      digitsValue (Strings.rev (trimZerosRev (String c r))) 0 = Some v'
                      /\ v = v' * 10 ^ (Z.of_nat (String.length (String c r))
                                        - Z.of_nat (String.length
                                                      (trimZerosRev (String c r))))).
    { intros ->. exists v. split; [exact Hv|]. rewrite Z.sub_diag. cbn. lia. }
    destruct c as [[|] [|] [|] [|] [|] [|] [|] [|]];
      try (apply Hkeep; reflexivity).
    clear Hkeep. cbn [trimZerosRev].
    rewrite rev_cons, digitsValue_app in Hv.
    destruct (digitsValue (Strings.rev r) 0) as [v1|] eqn:E; [|discriminate Hv].
    destruct (IH v1 eq_refl) as (v' & Hv' & Ev1).
    exists v'. split; [exact Hv'|].
    cbn [digitsValue] in Hv. change (isDigit "0"%char) with true in Hv.
    change (digitVal "0"%char) with 0 in Hv. cbv iota in Hv.
    injection Hv as <-. rewrite Ev1.
    pose proof (length_trimZerosRev r) as Hle.
    cbn [String.length]. rewrite Nat2Z.inj_succ.
    replace (Z.succ (Z.of_nat (String.length r))
             - Z.of_nat (String.length (trimZerosRev r)))
      with (Z.succ (Z.of_nat (String.length r)
                    - Z.of_nat (String.length (trimZerosRev r)))) by lia.
    rewrite Z.pow_succ_r by lia. lia.
Qed.

(** [nanos] scales the digits it is given to nine places. *)
Lemma nanos_scale (scale : nat) :
  forall ds acc v,
    digitsValue ds acc = Some v ->
    (String.length ds <= scale)%nat ->
    nanos ds scale acc
    = v * 10 ^ (Z.of_nat scale - Z.of_nat (String.length ds)).
Proof.
  induction scale as [|k IH]; intros ds acc v Hv Hlen.
  - destruct ds; [|cbn in Hlen; lia]. cbn in Hv. injection Hv as <-. cbn. lia.
  - destruct ds as [|c ds]; cbn [nanos].
    + cbn in Hv. injection Hv as <-.
      rewrite (IH EmptyString (acc * 10) (acc * 10) eq_refl) by (cbn; lia).
      cbn [String.length]. rewrite Nat2Z.inj_succ.
      change (Z.of_nat 0) with 0. rewrite !Z.sub_0_r.
      rewrite Z.pow_succ_r by lia. lia.
    + cbn [digitsValue] in Hv. destruct (isDigit c); [|discriminate Hv].
      rewrite (IH ds _ v Hv) by (cbn in Hlen; lia).
      cbn [String.length]. rewrite !Nat2Z.inj_succ. f_equal. f_equal. lia.
Qed.

Lemma takeDigits_run (ds : string) :
  forall acc v (c : ascii) (rest : string),
    digitsValue ds acc = Some v ->
    isDigit c = false ->
    takeDigits (ds ++ String c rest) = (ds, String c rest).
Proof.
  induction ds as [|x ds IH]; intros acc v c rest Hv Hc; cbn [append takeDigits].
  - rewrite Hc. reflexivity.
  - cbn [digitsValue] in Hv. destruct (isDigit x); [|discriminate Hv].
    rewrite (IH _ v c rest Hv Hc). reflexivity.
Qed.

(** The fraction of the layout, read back. *)
Lemma fraction_read (ns : Z) :
  0 < ns < 10 ^ 9 ->
  exists c ds,
    fraction ns = String "."%char (String c ds)
    /\ isDigit c = true
    /\ takeDigits (String c ds ++ "Z") = (String c ds, "Z")
    /\ nanos (String c ds) 9 0 = ns.
Proof.
  intros Hns. unfold fraction.
  destruct (Z.eqb_spec ns 0) as [|_]; [lia|].
  set (p := padded 9 ns EmptyString).
  assert (Hp : digitsValue (Strings.rev (Strings.rev p)) 0 = Some ns).
  { rewrite rev_involutive. subst p. rewrite digitsValue_padded.
    cbn [digitsValue]. rewrite Z.mod_small by (change (Z.of_nat 9) with 9; lia).
    reflexivity. }
  destruct (digitsValue_trimZeros (Strings.rev p) ns Hp) as (v' & Hv' & Ev).
  assert (Hlen : String.length (Strings.rev p) = 9%nat).
  { rewrite length_rev. subst p. rewrite length_padded. reflexivity. }
  pose proof (length_trimZerosRev (Strings.rev p)) as Hle.
  rewrite Hlen in Hle, Ev.
  set (T := Strings.rev (trimZerosRev (Strings.rev p))) in *.
  assert (HT : String.length T = String.length (trimZerosRev (Strings.rev p)))
    by (subst T; apply length_rev).
  destruct T as [|c ds] eqn:ET.
  { cbn in Hv'. injection Hv' as <-. lia. }
  exists c, ds. split; [reflexivity|].
  assert (Hc : isDigit c = true).
  { cbn [digitsValue] in Hv'. destruct (isDigit c); [reflexivity | discriminate Hv']. }
  split; [exact Hc|]. split.
  - apply (takeDigits_run (String c ds) 0 v'); [exact Hv' | reflexivity].
  - rewrite (nanos_scale 9 (String c ds) 0 v' Hv') by (rewrite HT; exact Hle).
    rewrite HT. symmetry. exact Ev.
Qed.

End DigitFacts.

Section TimestampRoundTrip.

Import Time.

(** The fast path on a text in the layout, field by field. *)
Lemma parseRFC3339_layout
      (y1 y2 y3 y4 m1 m2 d1 d2 h1 h2 n1 n2 s1 s2 : ascii) (frac : string)
      (year month day hour min sec ns : Z) :
  parseUint (String y1 (String y2 (String y3 (String y4 EmptyString)))) 0 9999 = Some year ->
  parseUint (String m1 (String m2 EmptyString)) 1 12 = Some month ->
  parseUint (String d1 (String d2 EmptyString)) 1 (daysIn month year) = Some day ->
  parseUint (String h1 (String h2 EmptyString)) 0 23 = Some hour ->
  parseUint (String n1 (String n2 EmptyString)) 0 59 = Some min ->
  parseUint (String s1 (String s2 EmptyString)) 0 59 = Some sec ->
  (frac = EmptyString /\ ns = 0
   \/ exists c ds,
      frac = String "."%char (String c ds)
      /\ isDigit c = true
      /\ takeDigits (String c ds ++ "Z") = (String c ds, "Z")
      /\ nanos (String c ds) 9 0 = ns) ->
  parseRFC3339
    (String y1 (String y2 (String y3 (String y4 (String "-"%char
    (String m1 (String m2 (String "-"%char
    (String d1 (String d2 (String "T"%char
    (String h1 (String h2 (String ":"%char
    (String n1 (String n2 (String ":"%char
    (String s1 (String s2 (frac ++ "Z"))))))))))))))))))))
  = Some (Date year month day hour min sec ns).
Proof.
  intros Hy Hm Hd Hh Hn Hs Hfrac.
  cbn [parseRFC3339]. cbv beta zeta. rewrite Hy, Hm, Hd, Hh, Hn, Hs.
  destruct Hfrac as [[-> ->] | (c & ds & -> & Hc & Htake & Hns)].
  - reflexivity.
  - cbn [append] in *. rewrite Hc, Htake, Hns. reflexivity.
Qed.

(** A UTC time with a year from 0 to 9999 and a nanosecond within the
    second is formatted, and the text parses back to the same time, to the
    nanosecond. *)
Lemma timestamp_round_trip (t : Time) :
  0 <= Year (UTC t) <= 9999 ->
  0 <= nsec t < 10 ^ 9 ->
  exists ts,
    appendStrictRFC3339 (UTC t) = Ok ts
    /\ parseRFC3339 ts = Some (UTC t).
Proof.
  intros Hyear Hns. unfold appendStrictRFC3339, Year in *.
  change (localSec (UTC t)) with (unixSec t + 0) in *.
  rewrite Z.add_0_r in *.
  pose proof (civil_roundtrip (unixSec t / 86400)) as Hcivil.
  destruct (civilFromDays (unixSec t / 86400)) as [[y m] d].
  destruct Hcivil as (Hdays & Hm & Hd).
  destruct (Z.ltb_spec y 0); [lia|].
  destruct (Z.ltb_spec 9999 y); [lia|].
  cbn [orb offset UTC].
  change (24 <=? Z.abs 0 / 3600) with false. cbv iota.
  eexists. split; [reflexivity|].
  change (zone 0) with "Z".
  set (sod := unixSec t mod 86400).
  assert (Hsod : 0 <= sod < 86400) by (subst sod; apply Z.mod_pos_bound; lia).
  assert (Hdim : daysIn m y <= 31).
  { unfold daysIn. destruct (m =? 2); [destruct (isLeap y); lia|].
    destruct ((m =? 4) || (m =? 6) || (m =? 9) || (m =? 11)); lia. }
  cbn [String.concat append padded].
  rewrite (parseRFC3339_layout _ _ _ _ _ _ _ _ _ _ _ _ _ _ (fraction (nsec t))
             y m d (sod / 3600) ((sod / 60) mod 60) (sod mod 60) (nsec t)).
  - f_equal. unfold Date, UTC. f_equal.
    rewrite Hdays. subst sod. Z.div_mod_to_equations. lia.
  - apply (parseUint_padded 4 y 0 9999); [change (10 ^ Z.of_nat 4) with 10000|]; lia.
  - apply (parseUint_padded 2 m 1 12); [change (10 ^ Z.of_nat 2) with 100|]; lia.
  - apply (parseUint_padded 2 d 1 (daysIn m y));
      [change (10 ^ Z.of_nat 2) with 100|]; lia.
  - apply (parseUint_padded 2 (sod / 3600) 0 23);
      [change (10 ^ Z.of_nat 2) with 100|]; Z.div_mod_to_equations; lia.
  - apply (parseUint_padded 2 ((sod / 60) mod 60) 0 59);
      [change (10 ^ Z.of_nat 2) with 100|]; Z.div_mod_to_equations; lia.
  - apply (parseUint_padded 2 (sod mod 60) 0 59);
      [change (10 ^ Z.of_nat 2) with 100|]; Z.div_mod_to_equations; lia.
  - destruct (Z.eq_dec (nsec t) 0) as [E|E].
    + left. rewrite E. split; reflexivity.
    + right. apply fraction_read. lia.
Qed.

End TimestampRoundTrip.

Section StringRoundTrip.

Import Json.

Lemma escapeFuel_ascii (c : ascii) (rest : string) (n : nat) :
  code c < 128 ->
  escapeFuel (S n) (String c rest) = escape (String c EmptyString) ++ escapeFuel n rest.
Proof.
  intros Hc. unfold escape. cbn [String.length escapeFuel].
  change Utf8.RuneSelf with 128.
  destruct (Z.ltb_spec (code c) 128) as [_|]; [|lia].
  rewrite append_assoc. reflexivity.
Qed.

Lemma ascii_cases (P : ascii -> Prop) :
  (forall b0 b1 b2 b3 b4 b5 b6, P (Ascii b0 b1 b2 b3 b4 b5 b6 false)) ->
  forall c, code c < 128 -> P c.
Proof.
  intros H [b0 b1 b2 b3 b4 b5 b6 [|]] Hc; [|apply H].
  exfalso. revert Hc. destruct b0, b1, b2, b3, b4, b5, b6; vm_compute; discriminate.
Qed.

Lemma unquote_piece (c : ascii) :
  code c < 128 ->
  forall f X,
    unquoteFuel (S f) (escape (String c EmptyString) ++ X)
    = String c (unquoteFuel f X).
Proof.
  intros Hc. pattern c. revert c Hc. apply ascii_cases.
  intros [|] [|] [|] [|] [|] [|] [|] f X;
    match goal with
    | |- context [escape ?s] =>
      let v := eval vm_compute in (escape s) in change (escape s) with v
    end; cbn [append unquoteFuel]; reflexivity.
Qed.

Lemma scanString_piece (c : ascii) :
  code c < 128 ->
  forall X,
    scanString (escape (String c EmptyString) ++ X)
    = match scanString X with
      | Some (raw, r) => Some (escape (String c EmptyString) ++ raw, r)
      | None => None
      end.
Proof.
  intros Hc. pattern c. revert c Hc. apply ascii_cases.
  intros [|] [|] [|] [|] [|] [|] [|] X;
    match goal with
    | |- context [escape ?s] =>
      let v := eval vm_compute in (escape s) in change (escape s) with v
    end; cbn [append scanString]; reflexivity.
Qed.
Lemma chr_code (c : ascii) : chr (code c) = c.
Proof.
  unfold chr, code. rewrite N2Z.id. apply ascii_N_embedding.
Qed.

Lemma between_spec (lo x hi : Z) : between lo x hi = true <-> lo <= x <= hi.
Proof.
  unfold between. rewrite andb_true_iff, !Z.leb_le. tauto.
Qed.

(** A valid encoding at the head of a string: its bytes, and the rune
    written back. *)
Lemma DecodeRune_valid (c : ascii) (rest : string) (r : Z) (size : nat) :
  Utf8.DecodeRune (String c rest) = (r, size) ->
  128 <= code c ->
  (r =? Utf8.RuneError) && Nat.eqb size 1 = false ->
  exists p,
    String c rest = p ++ Strings.drop size (String c rest)
    /\ take size (String c rest) = p
    /\ Utf8.EncodeRune r = p
    /\ 128 <= r
    /\ (forall X, Utf8.DecodeRune (p ++ X) = (r, size))
    /\ (forall X, Strings.drop size (p ++ X) = X)
    /\ (exists c' p', p = String c' p' /\ 128 <= code c')
    /\ (forall X,
          scanString (p ++ X)
          = match scanString X with
            | Some (raw, r') => Some (p ++ raw, r')
            | None => None
            end).
Proof.
  intros Hdec Hc Hvalid.
  assert (Hinv : forall z, (z =? Utf8.RuneError) && Nat.eqb 1 1 = false ->
                           z <> Utf8.RuneError).
  { intros z H E. rewrite E in H. discriminate H. }
  assert (Hscan1 : forall x X, 128 <= code x ->
            scanString (String x X)
            = match scanString X with
              | Some (raw, r') => Some (String x raw, r')
              | None => None
              end).
  { intros x X Hx. cbn [scanString].
    rewrite (eqb_code x dquote), (eqb_code x backslash).
    change (code dquote) with 34. change (code backslash) with 92.
    destruct (Z.eqb_spec (code x) 34); [lia|].
    destruct (Z.eqb_spec (code x) 92); [lia|].
    destruct (Z.ltb_spec (code x) 32); [lia|]. reflexivity. }
  unfold Utf8.DecodeRune in Hdec. cbv zeta in Hdec.
  change Utf8.RuneSelf with 128 in Hdec.
  destruct (Z.ltb_spec (code c) 128) as [|_]; [lia|].
  destruct rest as [|c1 s2].
  { injection Hdec as <- <-. exfalso. apply (Hinv _ Hvalid). reflexivity. }
  unfold Utf8.cont in Hdec.
  pose proof (code_range c) as Rc. pose proof (code_range c1) as Rc1.
  destruct (between 194 (code c) 223) eqn:E2.
  { apply between_spec in E2.
    destruct (between 128 (code c1) 191) eqn:E21.
    2:{ injection Hdec as <- <-. exfalso. apply (Hinv _ Hvalid). reflexivity. }
    apply between_spec in E21. injection Hdec as <- <-.
    exists (String c (String c1 EmptyString)).
    split; [reflexivity|]. split; [reflexivity|].
    split.
    { unfold Utf8.EncodeRune. cbv zeta. unfold between.
      set (r := (code c - 192) * 64 + (code c1 - 128)).
      assert (Hr : 128 <= r < 2048) by (subst r; lia).
      destruct (Z.ltb_spec r 0); [lia|].
      destruct (Z.ltb_spec 1114111 r); [lia|].
      destruct (Z.leb_spec 55296 r); [lia|]. cbn [orb andb].
      destruct (Z.ltb_spec r 128); [lia|].
      destruct (Z.ltb_spec r 2048); [|lia].
      replace (192 + r / 64) with (code c)
        by (subst r; Z.div_mod_to_equations; lia).
      replace (128 + r mod 64) with (code c1)
        by (subst r; Z.div_mod_to_equations; lia).
      rewrite !chr_code. reflexivity. }
    split; [lia|].
    split.
    { intros X. cbn [append]. unfold Utf8.DecodeRune. cbv zeta.
      change Utf8.RuneSelf with 128.
      destruct (Z.ltb_spec (code c) 128) as [|_]; [lia|].
      unfold Utf8.cont.
      rewrite (proj2 (between_spec 194 (code c) 223) E2).
      rewrite (proj2 (between_spec 128 (code c1) 191) E21). reflexivity. }
    split; [intros X; reflexivity|].
    split; [exists c, (String c1 EmptyString); split; [reflexivity | lia]|].
    intros X. cbn [append]. rewrite (Hscan1 c) by lia. rewrite (Hscan1 c1) by lia.
    destruct (scanString X) as [[raw r']|]; reflexivity. }
  destruct (between 224 (code c) 239) eqn:E3.
  { apply between_spec in E3.
    set (lo := if code c =? 224 then 160 else 128) in *.
    set (hi := if code c =? 237 then 159 else 191) in *.
    destruct (between lo (code c1) hi) eqn:E31.
    2:{ injection Hdec as <- <-. exfalso. apply (Hinv _ Hvalid). reflexivity. }
    destruct s2 as [|c2 s3].
    { injection Hdec as <- <-. exfalso. apply (Hinv _ Hvalid). reflexivity. }
    destruct (between 128 (code c2) 191) eqn:E32.
    2:{ injection Hdec as <- <-. exfalso. apply (Hinv _ Hvalid). reflexivity. }
    pose proof E31 as B31. pose proof E32 as B32.
    apply between_spec in B31. apply between_spec in B32.
    injection Hdec as <- <-.
    assert (Hlo : 128 <= lo /\ (code c = 224 -> lo = 160))
      by (subst lo; destruct (Z.eqb_spec (code c) 224); lia).
    assert (Hhi : hi <= 191 /\ (code c = 237 -> hi = 159))
      by (subst hi; destruct (Z.eqb_spec (code c) 237); lia).
    exists (String c (String c1 (String c2 EmptyString))).
    split; [reflexivity|]. split; [reflexivity|].
    split.
    { unfold Utf8.EncodeRune. cbv zeta. unfold between.
      set (r := (code c - 224) * 4096 + (code c1 - 128) * 64 + (code c2 - 128)).
      assert (Hr : 2048 <= r < 65536 /\ (r < 55296 \/ 57343 < r)) by (subst r; lia).
      destruct (Z.ltb_spec r 0); [lia|].
      destruct (Z.ltb_spec 1114111 r); [lia|].
      assert (Hs : (55296 <=? r) && (r <=? 57343) = false).
      { destruct (Z.leb_spec 55296 r); destruct (Z.leb_spec r 57343); try reflexivity. lia. }
      rewrite Hs. cbn [orb].
      destruct (Z.ltb_spec r 128); [lia|].
      destruct (Z.ltb_spec r 2048); [lia|].
      destruct (Z.ltb_spec r 65536); [|lia].
      replace (224 + r / 4096) with (code c)
        by (subst r; Z.div_mod_to_equations; lia).
      replace (128 + (r / 64) mod 64) with (code c1)
        by (subst r; Z.div_mod_to_equations; lia).
      replace (128 + r mod 64) with (code c2)
        by (subst r; Z.div_mod_to_equations; lia).
      rewrite !chr_code. reflexivity. }
    split; [lia|].
    split.
    { intros X. cbn [append]. unfold Utf8.DecodeRune. cbv zeta.
      change Utf8.RuneSelf with 128.
      destruct (Z.ltb_spec (code c) 128) as [|_]; [lia|].
      unfold Utf8.cont. rewrite E2.
      rewrite (proj2 (between_spec 224 (code c) 239) E3).
      fold lo hi. rewrite E31, E32. reflexivity. }
    split; [intros X; reflexivity|].
    split; [exists c, (String c1 (String c2 EmptyString));
            split; [reflexivity | lia]|].
    intros X. cbn [append].
    rewrite (Hscan1 c) by lia. rewrite (Hscan1 c1) by lia. rewrite (Hscan1 c2) by lia.
    destruct (scanString X) as [[raw r']|]; reflexivity. }
  destruct (between 240 (code c) 244) eqn:E4.
  2:{ injection Hdec as <- <-. exfalso. apply (Hinv _ Hvalid). reflexivity. }
  apply between_spec in E4.
  set (lo := if code c =? 240 then 144 else 128) in *.
  set (hi := if code c =? 244 then 143 else 191) in *.
  destruct (between lo (code c1) hi) eqn:E41.
  2:{ injection Hdec as <- <-. exfalso. apply (Hinv _ Hvalid). reflexivity. }
  destruct s2 as [|c2 [|c3 s4]];
    try (injection Hdec as <- <-; exfalso; apply (Hinv _ Hvalid); reflexivity).
  destruct (between 128 (code c2) 191) eqn:E42;
    [|injection Hdec as <- <-; exfalso; apply (Hinv _ Hvalid); reflexivity].
  destruct (between 128 (code c3) 191) eqn:E43;
    [|injection Hdec as <- <-; exfalso; apply (Hinv _ Hvalid); reflexivity].
  cbn [andb] in Hdec.
  pose proof E41 as B41. pose proof E42 as B42. pose proof E43 as B43.
  apply between_spec in B41. apply between_spec in B42. apply between_spec in B43.
  injection Hdec as <- <-.
  assert (Hlo : 128 <= lo /\ (code c = 240 -> lo = 144))
    by (subst lo; destruct (Z.eqb_spec (code c) 240); lia).
  assert (Hhi : hi <= 191 /\ (code c = 244 -> hi = 143))
    by (subst hi; destruct (Z.eqb_spec (code c) 244); lia).
  exists (String c (String c1 (String c2 (String c3 EmptyString)))).
  split; [reflexivity|]. split; [reflexivity|].
  split.
  { unfold Utf8.EncodeRune. cbv zeta. unfold between.
    set (r := (code c - 240) * 262144 + (code c1 - 128) * 4096
              + (code c2 - 128) * 64 + (code c3 - 128)).
    assert (Hr : 65536 <= r <= 1114111) by (subst r; lia).
    destruct (Z.ltb_spec r 0); [lia|].
    destruct (Z.ltb_spec 1114111 r); [lia|].
    destruct (Z.leb_spec r 57343); [lia|]. rewrite andb_false_r. cbn [orb].
    destruct (Z.ltb_spec r 128); [lia|].
    destruct (Z.ltb_spec r 2048); [lia|].
    destruct (Z.ltb_spec r 65536); [lia|].
    replace (240 + r / 262144) with (code c)
      by (subst r; Z.div_mod_to_equations; lia).
    replace (128 + (r / 4096) mod 64) with (code c1)
      by (subst r; Z.div_mod_to_equations; lia).
    replace (128 + (r / 64) mod 64) with (code c2)
      by (subst r; Z.div_mod_to_equations; lia).
    replace (128 + r mod 64) with (code c3)
      by (subst r; Z.div_mod_to_equations; lia).
    rewrite !chr_code. reflexivity. }
  split; [lia|].
  split.
  { intros X. cbn [append]. unfold Utf8.DecodeRune. cbv zeta.
    change Utf8.RuneSelf with 128.
    destruct (Z.ltb_spec (code c) 128) as [|_]; [lia|].
    unfold Utf8.cont. rewrite E2, E3.
    rewrite (proj2 (between_spec 240 (code c) 244) E4).
    fold lo hi. rewrite E41, E42, E43. reflexivity. }
  split; [intros X; reflexivity|].
  split; [exists c, (String c1 (String c2 (String c3 EmptyString)));
          split; [reflexivity | lia]|].
  intros X. cbn [append].
  rewrite (Hscan1 c) by lia. rewrite (Hscan1 c1) by lia.
  rewrite (Hscan1 c2) by lia. rewrite (Hscan1 c3) by lia.
  destruct (scanString X) as [[raw r']|]; reflexivity.
Qed.

Lemma piece_nonempty (c : ascii) :
  code c < 128 -> (1 <= String.length (escape (String c EmptyString)))%nat.
Proof.
  intros Hc. pattern c. revert c Hc. apply ascii_cases.
  intros [|] [|] [|] [|] [|] [|] [|]; vm_compute; repeat constructor.
Qed.

Lemma unquote_high (c : ascii) (Y : string) (f : nat) :
  128 <= code c ->
  unquoteFuel (S f) (String c Y)
  = let (r, size) := Utf8.DecodeRune (String c Y) in
    Utf8.EncodeRune r ++ unquoteFuel f (Strings.drop size (String c Y)).
Proof.
  intros Hc. cbn [unquoteFuel].
  rewrite (eqb_code c backslash). change (code backslash) with 92.
  destruct (Z.eqb_spec (code c) 92); [lia|].
  change Utf8.RuneSelf with 128.
  destruct (Z.ltb_spec (code c) 128); [lia|]. reflexivity.
Qed.

(** What the encoder writes between the quotes is taken whole by the
    scanner, up to the closing quote. *)
Lemma scanString_escape (n : nat) :
  forall s rest,
    scanString (escapeFuel n s ++ String dquote rest)
    = Some (escapeFuel n s, rest).
Proof.
  induction n as [|n IH]; intros s rest; [reflexivity|].
  destruct s as [|c s']; [reflexivity|].
  destruct (Z.lt_ge_cases (code c) 128) as [Hc|Hc].
  { rewrite (escapeFuel_ascii c s' n Hc), append_assoc.
    rewrite (scanString_piece c Hc), IH. reflexivity. }
  cbn [escapeFuel]. change Utf8.RuneSelf with 128.
  destruct (Z.ltb_spec (code c) 128) as [|_]; [lia|].
  destruct (Utf8.DecodeRune (String c s')) as [r size] eqn:Hd.
  destruct ((r =? Utf8.RuneError) && Nat.eqb size 1) eqn:Hv.
  { cbn [append scanString]. rewrite IH. reflexivity. }
  destruct (r =? 8232).
  { cbn [append scanString]. rewrite IH. reflexivity. }
  destruct (r =? 8233).
  { cbn [append scanString]. rewrite IH. reflexivity. }
  destruct (DecodeRune_valid c s' r size Hd Hc Hv)
    as (p & _ & -> & _ & _ & _ & _ & _ & Hscan).
  rewrite append_assoc, Hscan, IH. reflexivity.
Qed.

Lemma unquoteFuel_escape (n : nat) :
  forall s,
    validRunes n s = true ->
    forall f,
      (String.length (escapeFuel n s) <= f)%nat ->
      unquoteFuel f (escapeFuel n s) = s.
Proof.
  induction n as [|n IH]; intros s Hvalid f Hf.
  { destruct s; [destruct f; reflexivity | discriminate Hvalid]. }
  destruct s as [|c s']; [destruct f; reflexivity|].
  cbn [validRunes] in Hvalid.
  destruct (Z.lt_ge_cases (code c) 128) as [Hc|Hc].
  { assert (Hs' : validRunes n s' = true).
    { unfold Utf8.DecodeRune in Hvalid. cbv zeta in Hvalid.
      change Utf8.RuneSelf with 128 in Hvalid.
      destruct (Z.ltb_spec (code c) 128) as [_|]; [|lia].
      change Utf8.RuneError with 65533 in Hvalid.
      destruct (Z.eqb_spec (code c) 65533); [lia|]. exact Hvalid. }
    rewrite (escapeFuel_ascii c s' n Hc) in *.
    rewrite length_app in Hf. pose proof (piece_nonempty c Hc) as Hp.
    destruct f as [|f]; [lia|].
    rewrite (unquote_piece c Hc), (IH s' Hs') by lia. reflexivity. }
  destruct (Utf8.DecodeRune (String c s')) as [r size] eqn:Hd.
  destruct ((r =? Utf8.RuneError) && Nat.eqb size 1) eqn:Hv; [discriminate Hvalid|].
  destruct (DecodeRune_valid c s' r size Hd Hc Hv)
    as (p & Hsplit & Htake & Henc & Hr & Hdec & Hdrop & Hhead & _).
  revert Hf. cbn [escapeFuel]. change Utf8.RuneSelf with 128.
  destruct (Z.ltb_spec (code c) 128) as [|_]; [lia|].
  rewrite Hd, Hv.
  set (E := escapeFuel n (Strings.drop size (String c s'))).
  assert (HE : forall f', (String.length E <= f')%nat ->
                          unquoteFuel f' E = Strings.drop size (String c s'))
    by (intros f' Hf'; apply (IH _ Hvalid f' Hf')).
  clearbody E.
  destruct (Z.eqb_spec r 8232) as [E1|_].
  { intros Hf. cbn [append String.length] in Hf. destruct f as [|f]; [lia|].
    cbn [append unquoteFuel]. rewrite E1 in Henc.
    change (hex4 "2" "0" "2" "8") with (Some 8232). cbv iota.
    change (isSurrogate 8232) with false. cbv iota.
    rewrite Henc, HE by lia. symmetry. exact Hsplit. }
  destruct (Z.eqb_spec r 8233) as [E2|_].
  { intros Hf. cbn [append String.length] in Hf. destruct f as [|f]; [lia|].
    cbn [append unquoteFuel]. rewrite E2 in Henc.
    change (hex4 "2" "0" "2" "9") with (Some 8233). cbv iota.
    change (isSurrogate 8233) with false. cbv iota.
    rewrite Henc, HE by lia. symmetry. exact Hsplit. }
  rewrite Htake. intros Hf. rewrite length_app in Hf.
  destruct Hhead as (c' & p' & Ehead & Hc').
  assert (Hp : (1 <= String.length p)%nat) by (rewrite Ehead; cbn; lia).
  destruct f as [|f]; [lia|].
  pose proof (unquote_high c' (p' ++ E) f Hc') as Hstep.
  change (String c' (p' ++ E)) with (String c' p' ++ E) in Hstep.
  rewrite <- Ehead, Hdec, Hdrop, Henc in Hstep. rewrite Hstep.
  rewrite HE by lia. symmetry. exact Hsplit.
Qed.

(** A string of valid UTF-8, written by the encoder (with its escapes for
    quotes, control bytes, HTML characters and the line separators) and
    read by the decoder, is the same string. *)
Lemma unquote_escape (s : string) :
  ValidString s = true -> unquote (escape s) = s.
Proof.
  intros H. unfold unquote, escape.
  apply (unquoteFuel_escape (String.length s) s H). apply Nat.le_refl.
Qed.

End StringRoundTrip.

(** * An event, from the publisher to the consumer *)

Section EventWire.

Import Json.

Lemma parseValue_scanned (fuel : nat) (depth : Z) (raw rest : string) :
  scanString (raw ++ String dquote rest) = Some (raw, rest) ->
  parseValue (S fuel) depth (String dquote (raw ++ String dquote rest))
  = Parsed (Str raw) rest.
Proof.
  intros H. cbn -[scanString]. rewrite H. reflexivity.
Qed.

(** The members the encoder writes for an event, with or without the
    name. *)
Lemma encodeEvent_members (ev : ProductEvent) (ts : string) :
  timeMarshalJSON (Timestamp ev) = Ok ts ->
  encodeEvent ev
  = Ok ([("event_type", Str (escape (EventType ev)));
         ("product_id", Number (FormatInt (ProductID ev)))]
        ++ (if String.eqb (Name ev) EmptyString then []
            else [("name", Str (escape (Name ev)))])
        ++ [("timestamp", Str ts)])%list.
Proof.
  intros H. unfold encodeEvent. rewrite H. reflexivity.
Qed.

Lemma parseValue_members (k : nat) (ety nm ts : string) (id : Z) (named : bool) :
  (forall rest, scanString (ety ++ String dquote rest) = Some (ety, rest)) ->
  (forall rest, scanString (nm ++ String dquote rest) = Some (nm, rest)) ->
  allPlain ts = true ->
  let ms := ([("event_type", Str ety); ("product_id", Number (FormatInt id))]
             ++ (if named then [("name", Str nm)] else [])
             ++ [("timestamp", Str ts)])%list in
  parseValue (S (S (S (S (S (S k)))))) 0 (render (Object ms))
  = Parsed (Object ms) EmptyString
  /\ (3 <= String.length (render (Object ms)))%nat.
Proof.
  intros Hety Hnm Hts ms. subst ms.
  pose (Tts := String dquote ("timestamp" ++ String dquote (String ":"%char
                 (String dquote (ts ++ String dquote "}"))))).
  pose (Tname := String dquote ("name" ++ String dquote (String ":"%char
                   (String dquote (nm ++ String dquote (String ","%char Tts)))))).
  pose (Thead := fun tail : string =>
          String "{"%char
            (String dquote ("event_type" ++ String dquote (String ":"%char
               (String dquote (ety ++ String dquote (String ","%char
                  (String dquote ("product_id" ++ String dquote (String ":"%char
                     (FormatInt id ++ String ","%char tail))))))))))).
  assert (H4 : forall f,
             parseMembers (S (S f)) 1 Tts = Parsed [("timestamp", Str ts)] EmptyString).
  { intros f. apply parseMembers_last; [reflexivity|].
    apply parseValue_plain. exact Hts. }
  assert (H3 : forall f,
             parseMembers (S (S (S f))) 1 Tname
             = Parsed [("name", Str nm); ("timestamp", Str ts)] EmptyString).
  { intros f. eapply parseMembers_more; [reflexivity | | apply H4].
    apply parseValue_scanned, Hnm. }
  assert (Hhead : forall f tail tl,
             (parseMembers (S (S f)) 1 tail = Parsed tl EmptyString) ->
             parseValue (S (S (S (S (S f))))) 0 (Thead tail)
             = Parsed (Object (("event_type", Str ety)
                                 :: ("product_id", Number (FormatInt id)) :: tl))
                      EmptyString).
  { intros f tail tl Htail.
    assert (H2 : parseMembers (S (S (S f))) 1
                   (String dquote ("product_id" ++ String dquote (String ":"%char
                      (FormatInt id ++ String ","%char tail))))
                 = Parsed (("product_id", Number (FormatInt id)) :: tl) EmptyString).
    { eapply parseMembers_more; [reflexivity | | exact Htail].
      apply parseValue_FormatInt. }
    assert (H1 : parseMembers (S (S (S (S f)))) 1
                   (String dquote ("event_type" ++ String dquote (String ":"%char
                      (String dquote (ety ++ String dquote (String ","%char
                         (String dquote ("product_id" ++ String dquote (String ":"%char
                            (FormatInt id ++ String ","%char tail))))))))))
                 = Parsed (("event_type", Str ety)
                             :: ("product_id", Number (FormatInt id)) :: tl)
                          EmptyString).
    { eapply parseMembers_more; [reflexivity | | exact H2].
      apply parseValue_scanned, Hety. }
    unfold Thead. cbn -[parseMembers append]. rewrite H1. reflexivity. }
  destruct named; cbn [app].
  - assert (Hr : render (Object [("event_type", Str ety);
                                 ("product_id", Number (FormatInt id));
                                 ("name", Str nm); ("timestamp", Str ts)])
                 = Thead Tname).
    { unfold Thead, Tname, Tts. cbn [render]. unfold quote. cbn [append].
      repeat (rewrite append_assoc; cbn [append]). reflexivity. }
    rewrite Hr. split; [exact (Hhead (S k) Tname _ (H3 k))|].
    unfold Thead. cbn [String.length append]. lia.
  - assert (Hr : render (Object [("event_type", Str ety);
                                 ("product_id", Number (FormatInt id));
                                 ("timestamp", Str ts)])
                 = Thead Tts).
    { unfold Thead, Tts. cbn [render]. unfold quote. cbn [append].
      repeat (rewrite append_assoc; cbn [append]). reflexivity. }
    rewrite Hr. split; [exact (Hhead (S k) Tts _ (H4 (S k)))|].
    unfold Thead. cbn [String.length append]. lia.
Qed.

(** The scanner reads the text of these members back. *)
Lemma parse_members (ety nm ts : string) (id : Z) (named : bool) :
  (forall rest, scanString (ety ++ String dquote rest) = Some (ety, rest)) ->
  (forall rest, scanString (nm ++ String dquote rest) = Some (nm, rest)) ->
  allPlain ts = true ->
  let ms := ([("event_type", Str ety); ("product_id", Number (FormatInt id))]
             ++ (if named then [("name", Str nm)] else [])
             ++ [("timestamp", Str ts)])%list in
  parse (render (Object ms)) = Some (Object ms).
Proof.
  intros Hety Hnm Hts ms. unfold parse.
  pose proof (parseValue_members 0 ety nm ts id named Hety Hnm Hts) as [_ Hlen].
  cbv zeta in Hlen. subst ms.
  match type of Hlen with
  | (3 <= String.length ?text)%nat =>
    assert (Hfuel : exists k,
               (2 * String.length text + 1)%nat = S (S (S (S (S (S k))))))
      by (exists (2 * String.length text - 5)%nat; lia)
  end.
  destruct Hfuel as [k ->].
  rewrite (proj1 (parseValue_members k ety nm ts id named Hety Hnm Hts)).
  reflexivity.
Qed.

(** What [Marshal] writes for an event in UTC, [Unmarshal] reads: the
    identity and the time as they were, the texts through the escapes and
    back. *)
Lemma Unmarshal_Marshal (timeParse : string -> result Time.Time)
      (ety nm : string) (id : Z) (t : Time.Time) :
  minInt64 <= id <= maxInt64 ->
  0 <= Time.Year (Time.UTC t) <= 9999 ->
  0 <= Time.nsec t < 10 ^ 9 ->
  exists body,
    Marshal (mkEvent ety id nm (Time.UTC t)) = Ok body
    /\ Unmarshal timeParse body zeroEvent
       = Ok (mkEvent (unquote (escape ety)) id (unquote (escape nm)) (Time.UTC t)).
Proof.
  intros Hid Hyear Hns.
  destruct (timestamp_round_trip t Hyear Hns) as (ts & Hfmt & Hparse).
  assert (Hts : timeMarshalJSON (Time.UTC t) = Ok ts)
    by (unfold timeMarshalJSON; rewrite Hfmt; reflexivity).
  pose proof (allPlain_timeMarshalJSON t ts Hts) as Hplain.
  unfold Marshal.
  rewrite (encodeEvent_members (mkEvent ety id nm (Time.UTC t)) ts Hts).
  cbn [EventType ProductID Name Timestamp].
  eexists. split; [reflexivity|].
  unfold Unmarshal.
  assert (Hscan : forall s rest,
             scanString (escape s ++ String dquote rest) = Some (escape s, rest))
    by (intros s rest; apply scanString_escape).
  destruct (String.eqb_spec nm EmptyString) as [->|Hne].
  - rewrite (parse_members (escape ety) EmptyString ts id false
               (Hscan ety) (fun rest => eq_refl) Hplain).
    cbn [app decodeEvent decodeMembers].
    change (lookupField (unquote "event_type")) with (Some FEventType).
    change (lookupField (unquote "product_id")) with (Some FProductID).
    change (lookupField (unquote "timestamp")) with (Some FTimestamp).
    cbn [storeField dest savedError timeUnmarshalJSON
         EventType ProductID Name Timestamp zeroEvent].
    rewrite (ParseInt_FormatInt id Hid).
    cbn [dest savedError EventType ProductID Name Timestamp].
    unfold parseStrictRFC3339. rewrite Hparse.
    cbn [dest savedError]. reflexivity.
  - rewrite (parse_members (escape ety) (escape nm) ts id true
               (Hscan ety) (Hscan nm) Hplain).
    cbn [app decodeEvent decodeMembers].
    change (lookupField (unquote "event_type")) with (Some FEventType).
    change (lookupField (unquote "product_id")) with (Some FProductID).
    change (lookupField (unquote "name")) with (Some FName).
    change (lookupField (unquote "timestamp")) with (Some FTimestamp).
    cbn [storeField dest savedError timeUnmarshalJSON
         EventType ProductID Name Timestamp zeroEvent].
    rewrite (ParseInt_FormatInt id Hid).
    cbn [dest savedError EventType ProductID Name Timestamp].
    unfold parseStrictRFC3339. rewrite Hparse.
    cbn [dest savedError]. reflexivity.
Qed.

Lemma Unmarshal_sendable (timeParse : string -> result Time.Time)
      (ev : ProductEvent) :
  Messaging.sendable ev ->
  exists body,
    Marshal ev = Ok body
    /\ Unmarshal timeParse body zeroEvent = Ok (Messaging.readBack ev).
Proof.
  destruct ev as [ety id nm [u n o]].
  unfold Messaging.sendable, Messaging.readBack.
  cbn [EventType ProductID Name Timestamp Time.offset Time.nsec].
  intros (Hid & -> & Hyear & Hns).
  apply (Unmarshal_Marshal timeParse ety nm id (Time.mkTime u n 0));
    assumption.
Qed.

(** Texts in valid UTF-8 are read back as they were. *)
Lemma readBack_valid (ev : ProductEvent) :
  ValidString (EventType ev) = true ->
  ValidString (Name ev) = true ->
  Messaging.readBack ev = ev.
Proof.
  intros Hty Hnm. destruct ev as [ety id nm ts]. unfold Messaging.readBack.
  cbn [EventType ProductID Name Timestamp] in *.
  rewrite (unquote_escape ety Hty), (unquote_escape nm Hnm). reflexivity.
Qed.

(** X8. The wire contract, from one side to the other: for an event with
    an [int64] identity and a UTC time in the years 0 to 9999, [Publish]
    sends a body that [handleMessage] accepts, whatever the texts are;
    the consumer logs the identity and the time as the publisher was
    given them, and the event type and the name too when they are valid
    UTF-8. *)
Theorem published_body_is_understood
        (World : Type) (p : Messaging.RabbitPublisher World)
        (timeParse : string -> result Time.Time) (c : Notifications.Consumer)
        (ev : ProductEvent) (w : World) (tag : Z) :
  Messaging.sendable ev ->
  exists body,
    Messaging.Publish p ev w
    = Messaging.sendResult p
        (Messaging.PublishWithContext (Messaging.channel p) EmptyString
           (Messaging.queue p) false false
           (Messaging.mkPublishing Messaging.contentTypeJSON body) w)
    /\ Notifications.handleMessage timeParse c (Notifications.mkDelivery tag body)
       = (None,
          [Notifications.LogInfo "notification event"
             (EventType (Messaging.readBack ev)) (ProductID ev)
             (Name (Messaging.readBack ev)) (Timestamp ev)])
    /\ (ValidString (EventType ev) = true -> ValidString (Name ev) = true ->
        Messaging.readBack ev = ev).
Proof.
  intros Hev. destruct (Unmarshal_sendable timeParse ev Hev) as (body & Hm & Hu).
  exists body. split; [|split].
  - apply Publish_marshalled, Hm.
  - unfold Notifications.handleMessage. cbn [Notifications.Body].
    rewrite Hu. reflexivity.
  - apply readBack_valid.
Qed.

End EventWire.

Lemma published_body_is_understood_witness :
  exists body,
    Messaging.Publish Messaging.brokerPublisher
      (mkEvent "product_created" 7 "Widget <A&B>" ServiceTest.newYear2026)
      (Messaging.mkBroker [] false ServiceTest.newYear2026)
    = Messaging.sendResult Messaging.brokerPublisher
        (Messaging.PublishWithContext
           (Messaging.channel Messaging.brokerPublisher) EmptyString
           (Messaging.queue Messaging.brokerPublisher) false false
           (Messaging.mkPublishing Messaging.contentTypeJSON body)
           (Messaging.mkBroker [] false ServiceTest.newYear2026))
    /\ Notifications.handleMessage Notifications.noFallback
         Notifications.eventsConsumer (Notifications.mkDelivery 1 body)
       = (None,
          [Notifications.LogInfo "notification event"
             (EventType (Messaging.readBack
                (mkEvent "product_created" 7 "Widget <A&B>" ServiceTest.newYear2026)))
             7
             (Name (Messaging.readBack
                (mkEvent "product_created" 7 "Widget <A&B>" ServiceTest.newYear2026)))
             ServiceTest.newYear2026])
    /\ (ValidString "product_created" = true -> ValidString "Widget <A&B>" = true ->
        Messaging.readBack
          (mkEvent "product_created" 7 "Widget <A&B>" ServiceTest.newYear2026)
        = mkEvent "product_created" 7 "Widget <A&B>" ServiceTest.newYear2026).
Proof.
  refine (published_body_is_understood Messaging.Broker Messaging.brokerPublisher
            Notifications.noFallback Notifications.eventsConsumer
            (mkEvent "product_created" 7 "Widget <A&B>" ServiceTest.newYear2026)
            (Messaging.mkBroker [] false ServiceTest.newYear2026) 1 _).
  unfold Messaging.sendable.
  split; [unfold minInt64, maxInt64; cbn; lia|].
  split; [reflexivity|].
  split; [vm_compute; split; discriminate|].
  cbn. lia.
Defined.

(** * The event path, end to end *)

Section EventPath.

Import Service.

Variable World : Type.
Variable s : Service.Service World.

(** What holds of the two events the service builds holds of every event
    it hands to the publisher. *)
Lemma perform_published_all (P : ProductEvent -> Prop)
      (op : Operation) (w : World) (tr : list Effect) :
  (forall product t, P (createdEvent product t)) ->
  (forall id t, P (deletedEvent id t)) ->
  Forall P (published tr) ->
  Forall P (published (trace (snd (runState (perform s op) (mkMachine w tr))))).
Proof.
  intros Hc Hd Htr.
  destruct op as [name|id|page limit];
    cbn -[CreateProduct DeleteProduct ListProducts].
  - rewrite CreateProduct_exec. cbv zeta.
    destruct (String.eqb _ _); [exact Htr|].
    destruct (Create (repo s) _ w) as [[product|err] w1].
    + destruct (now s w1) as [t w2].
      destruct (Publish (publisher s) (createdEvent product t) w2) as [perr w3].
      cbn [snd trace].
      rewrite !published_app, published_logOf. cbn.
      apply Forall_app. split; [exact Htr|].
      constructor; [apply Hc | constructor].
    + cbn [snd trace]. rewrite published_app. cbn. rewrite app_nil_r. exact Htr.
  - rewrite DeleteProduct_exec.
    destruct (Delete (repo s) id w) as [[err|] w1].
    + cbn [snd trace]. rewrite published_app. cbn. rewrite app_nil_r. exact Htr.
    + destruct (now s w1) as [t w2]. cbv zeta.
      destruct (Publish (publisher s) (deletedEvent id t) w2) as [perr w3].
      cbn [snd trace].
      rewrite !published_app, published_logOf. cbn.
      apply Forall_app. split; [exact Htr|].
      constructor; [apply Hd | constructor].
  - rewrite ListProducts_exec. cbv zeta.
    destruct (List (repo s) _ _ w) as [[items|err] w1].
    + destruct (Count (repo s) w1) as [[total|err] w2]; cbn [snd trace];
        rewrite published_app; cbn; rewrite app_nil_r; exact Htr.
    + cbn [snd trace]. rewrite published_app. cbn. rewrite app_nil_r. exact Htr.
Qed.

Lemma performAll_published_all (P : ProductEvent -> Prop) (ops : list Operation) :
  (forall product t, P (createdEvent product t)) ->
  (forall id t, P (deletedEvent id t)) ->
  forall (m : Machine World),
    Forall P (published (trace m)) ->
    Forall P (published (trace (snd (runState (performAll s ops) m)))).
Proof.
  intros Hc Hd. induction ops as [|op ops IH]; intros m Hm.
  - exact Hm.
  - cbn. destruct (runState (perform s op) m) as [u m'] eqn:Hop.
    apply IH. destruct m as [w tr].
    pose proof (perform_published_all P op w tr Hc Hd Hm) as H.
    rewrite Hop in H. exact H.
Qed.

(** The shape the service gives every event: a type of the contract and
    a time in UTC. *)
Lemma published_shape (ops : list Operation) (w : World) :
  Forall (fun ev => ValidString (EventType ev) = true
                    /\ Time.offset (Timestamp ev) = 0)
         (published (trace (snd (run (performAll s ops) w)))).
Proof.
  unfold run.
  apply (performAll_published_all _ ops); [| |constructor];
    intros; split; reflexivity.
Qed.

End EventPath.

Section EventPathConsumer.

Import Json Notifications.

Variable timeParse : string -> result Time.Time.
Variable c : Consumer.

(** The loop on deliveries that carry, one by one, the bodies of events
    the encoder and the decoder take. *)
Lemma listenLoop_accepted (evs : list ProductEvent) (msgs : list Delivery) :
  Forall Messaging.sendable evs ->
  Forall2 (fun ev msg => Marshal ev = Ok (Body msg)) evs msgs ->
  listenLoop timeParse c (map Received msgs ++ [CtxDone])
  = (Returned None, acceptedAll (map Messaging.readBack evs) msgs).
Proof.
  intros Hcar Hbodies. induction Hbodies as [|ev msg evs msgs Hbody _ IH].
  - reflexivity.
  - inversion Hcar as [|? ? Hev Hrest]; subst.
    destruct (Unmarshal_sendable timeParse ev Hev) as (body & Hm & Hu).
    rewrite Hbody in Hm. injection Hm as <-.
    cbn [map app listenLoop acceptedAll]. unfold handleMessage.
    rewrite Hu, (IH Hrest). reflexivity.
Qed.

End EventPathConsumer.

(** X9. The event path, end to end: whatever operations the products
    service performs, if the events it hands to the publisher have
    identities within [int64] and clock readings with a four-digit year,
    then a consumer that receives their serialized bodies accepts every
    one of them: it logs each event and answers each delivery with a
    single-message ack, nothing is requeued, and [Listen] returns without
    error when the context is done. The fields logged are the fields
    published when the names are valid UTF-8. *)
Theorem published_events_are_acknowledged
        (World : Type) (s : Service.Service World)
        (timeParse : string -> result Time.Time) (c : Notifications.Consumer)
        (ops : list Service.Operation) (w : World)
        (msgs : list Notifications.Delivery) :
  let evs := Service.published
               (Service.trace (snd (Service.run (Service.performAll s ops) w))) in
  Forall (fun ev => minInt64 <= ProductID ev <= maxInt64
                    /\ 0 <= Time.Year (Timestamp ev) <= 9999
                    /\ 0 <= Time.nsec (Timestamp ev) < 10 ^ 9) evs ->
  Forall2 (fun ev msg => Json.Marshal ev = Ok (Notifications.Body msg)) evs msgs ->
  Notifications.Listen timeParse c None
    (map Notifications.Received msgs ++ [Notifications.CtxDone])
  = (Notifications.Returned None,
     Notifications.Consume (Notifications.queue c) Notifications.consumerTag
       false false false false
       :: Notifications.acceptedAll (map Messaging.readBack evs) msgs)
  /\ (Forall (fun ev => ValidString (Name ev) = true) evs ->
      map Messaging.readBack evs = evs).
Proof.
  intros evs Hfields Hbodies.
  pose proof (published_shape World s ops w) as Hshape. fold evs in Hshape.
  split.
  - assert (Hcar : Forall Messaging.sendable evs).
    { clear Hbodies. induction Hfields as [|ev evs' Hev _ IH]; [constructor|].
      inversion Hshape as [|? ? [Hty Hoff] Hshape']; subst.
      constructor; [|apply IH, Hshape'].
      unfold Messaging.sendable. tauto. }
    unfold Notifications.Listen.
    rewrite (listenLoop_accepted timeParse c evs msgs Hcar Hbodies). reflexivity.
  - clear Hfields Hbodies. intros Hvalid.
    induction Hvalid as [|ev evs' Hev _ IH]; [reflexivity|].
    inversion Hshape as [|? ? [Hty Hoff] Hshape']; subst.
    cbn [map]. rewrite (readBack_valid ev Hty Hev), (IH Hshape'). reflexivity.
Qed.

Lemma published_events_are_acknowledged_witness :
  Notifications.Listen Notifications.noFallback Notifications.eventsConsumer None
    (map Notifications.Received InMemory.deliveries ++ [Notifications.CtxDone])
  = (Notifications.Returned None,
     Notifications.Consume "products.events" "notifications-service"
       false false false false
       :: Notifications.acceptedAll
            (map Messaging.readBack
               [Service.createdEvent (mkProduct 1 "Widget" ServiceTest.newYear2026)
                                     ServiceTest.newYear2026;
                Service.deletedEvent 1 ServiceTest.newYear2026])
            InMemory.deliveries).
Proof.
  assert (Hevs : Service.published
                   (Service.trace
                      (snd (Service.run
                              (Service.performAll InMemory.service InMemory.session)
                              InMemory.start)))
                 = [Service.createdEvent (mkProduct 1 "Widget" ServiceTest.newYear2026)
                                         ServiceTest.newYear2026;
                    Service.deletedEvent 1 ServiceTest.newYear2026])
    by (vm_compute; reflexivity).
  pose proof (published_events_are_acknowledged InMemory.System InMemory.service
                Notifications.noFallback Notifications.eventsConsumer
                InMemory.session InMemory.start InMemory.deliveries) as H.
  cbv zeta in H. rewrite Hevs in H. apply H.
  - constructor; [|constructor; [|constructor]].
    + split; [unfold minInt64, maxInt64; cbn; lia|].
      split; [vm_compute; split; discriminate | cbn; lia].
    + split; [unfold minInt64, maxInt64; cbn; lia|].
      split; [vm_compute; split; discriminate | cbn; lia].
  - assert (Hd : InMemory.deliveries
                 = [Notifications.mkDelivery 1
                      (Notifications.Body (nth 0 InMemory.deliveries
                                               (Notifications.mkDelivery 0 EmptyString)));
                    Notifications.mkDelivery 2
                      (Notifications.Body (nth 1 InMemory.deliveries
                                               (Notifications.mkDelivery 0 EmptyString)))])
      by (vm_compute; reflexivity).
    rewrite Hd.
    constructor; [vm_compute; reflexivity|].
    constructor; [vm_compute; reflexivity|]. constructor.
Defined.

(** * The store, the handlers and the broker together *)

Lemma list_all_or_nothing_witness :
  let w := InMemory.mkSystem
             [mkProduct 1 "Widget" ServiceTest.newYear2026;
              mkProduct 2 "Gadget" ServiceTest.newYear2026]
             3 (Messaging.mkBroker [] false ServiceTest.newYear2026) in
  let rows := Repository.mkRows
                [Ok (mkProduct 2 "Gadget" ServiceTest.newYear2026);
                 Ok (mkProduct 1 "Widget" ServiceTest.newYear2026)] None in
  snd (Repository.List InMemory.repository 10 0 w)
  = Repository.RowsClose (Repository.db InMemory.repository) w
  /\ forall items,
      fst (Repository.List InMemory.repository 10 0 w) = Ok items
      <-> Repository.rowsErr rows = None
          /\ Repository.scanned rows = map Ok items.
Proof.
  intros w rows.
  exact (list_all_or_nothing InMemory.System InMemory.repository 10 0 w w rows
           eq_refl).
Defined.

Lemma delete_by_rows_affected_witness :
  let w := InMemory.mkSystem
             [mkProduct 1 "Widget" ServiceTest.newYear2026]
             2 (Messaging.mkBroker [] false ServiceTest.newYear2026) in
  let missing := Service.run
                   (Http.handleDelete InMemory.handler (Http.deleteRequest "5")) w in
  let present := Service.run
                   (Http.handleDelete InMemory.handler (Http.deleteRequest "1")) w in
  (exists err,
      missing = (Http.mkResponse Http.StatusNotFound
                   (Http.errorResponse (Http.TextOf err)),
                 Service.mkMachine w [Service.RepoDelete 5])
      /\ errorMessage err = Some "repo delete: product not found")
  /\ Http.Status (fst present) = Http.StatusNoContent
  /\ exists ev,
      Service.published (Service.trace (snd present)) = [ev]
      /\ EventType ev = "product_deleted" /\ ProductID ev = 1.
Proof.
  intros w missing present. split.
  - refine (proj1 (delete_by_rows_affected InMemory.System InMemory.repository
                     (Messaging.asPublisher InMemory.publisher)
                     (fun w => (Messaging.wallClock (InMemory.broker w), w))
                     (Http.deleteRequest "5") w w 5 0
                     (Repository.mkExecResult (Ok 0)) _ _ _) eq_refl);
      reflexivity.
  - refine (proj2 (delete_by_rows_affected InMemory.System InMemory.repository
                     (Messaging.asPublisher InMemory.publisher)
                     (fun w => (Messaging.wallClock (InMemory.broker w), w))
                     (Http.deleteRequest "1") w
                     (InMemory.mkSystem [] 2
                        (Messaging.mkBroker [] false ServiceTest.newYear2026))
                     1 1 (Repository.mkExecResult (Ok 1)) _ _ _) _);
      [reflexivity | reflexivity | reflexivity | discriminate].
Defined.

(** * The name a product is stored under *)

Section TrimFacts.

Lemma take_drop (k : nat) (s : string) :
  Json.take k s ++ Strings.drop k s = s.
Proof.
  revert s. induction k as [|k IH]; intros s; [reflexivity|].
  destruct s as [|c s]; [reflexivity|]. cbn [Json.take Strings.drop append].
  rewrite IH. reflexivity.
Qed.

Lemma trimRightRev_drop (fuel : nat) :
  forall r, exists k, Strings.trimRightRev fuel r = Strings.drop k r.
Proof.
  induction fuel as [|fuel IH]; intros r.
  - exists 0%nat. reflexivity.
  - cbn [Strings.trimRightRev]. destruct r as [|c r]; [exists 0%nat; reflexivity|].
    destruct (Strings.DecodeLastRune (String c r)) as [rn size].
    destruct (Strings.IsSpace rn); [|exists 0%nat; reflexivity].
    destruct (IH (Strings.drop size (String c r))) as [k Hk].
    exists (size + k)%nat. rewrite Hk. clear.
    generalize (String c r). intros s. revert s.
    induction size as [|n IHn]; intros s; [reflexivity|].
    destruct s as [|x s]; cbn [Strings.drop Nat.add].
    + destruct k; reflexivity.
    + apply IHn.
Qed.

(** [TrimRightSpace] leaves a prefix. *)
Lemma TrimRightSpace_prefix (s : string) :
  exists suffix, s = Strings.TrimRightSpace s ++ suffix.
Proof.
  unfold Strings.TrimRightSpace.
  destruct (trimRightRev_drop (String.length s) (Strings.rev s)) as [k ->].
  exists (Strings.rev (Json.take k (Strings.rev s))).
  rewrite <- rev_app, take_drop, rev_involutive. reflexivity.
Qed.

(** The first rune of a prefix is the first rune of the string, unless
    the prefix cuts it short. *)
Lemma DecodeRune_prefix (c : ascii) (t suffix : string) :
  Utf8.DecodeRune (String c t) = Utf8.DecodeRune (String c (t ++ suffix))
  \/ fst (Utf8.DecodeRune (String c t)) = Utf8.RuneError.
Proof.
  unfold Utf8.DecodeRune. cbv zeta.
  destruct (code c <? Utf8.RuneSelf); [left; reflexivity|].
  destruct t as [|c1 t]; [right; reflexivity|]. cbn [append].
  destruct (between 194 (code c) 223); [left; reflexivity|].
  destruct (between 224 (code c) 239).
  { destruct (between _ (code c1) _); [|left; reflexivity].
    destruct t as [|c2 t]; [right; reflexivity|]. left. reflexivity. }
  destruct (between 240 (code c) 244); [|left; reflexivity].
  destruct (between _ (code c1) _); [|left; reflexivity].
  destruct t as [|c2 [|c3 t]]; [right; reflexivity | right; reflexivity |].
  left. reflexivity.
Qed.

Lemma IsSpace_RuneError : Strings.IsSpace Utf8.RuneError = false.
Proof. reflexivity. Qed.

(** What [TrimSpace] returns has no white space at either end. *)
Lemma TrimSpace_ends (s : string) :
  Strings.TrimSpace s = EmptyString
  \/ (Strings.IsSpace (fst (Utf8.DecodeRune (Strings.TrimSpace s))) = false
      /\ Strings.IsSpace
           (fst (Strings.DecodeLastRune (Strings.rev (Strings.TrimSpace s)))) = false).
Proof.
  unfold Strings.TrimSpace.
  set (L := Strings.TrimLeftSpace s).
  destruct (Strings.TrimRightSpace L) as [|c t] eqn:ET; [left; reflexivity|].
  right. split.
  - destruct (TrimRightSpace_prefix L) as [suffix HL]. rewrite ET in HL.
    cbn [append] in HL.
    assert (HLs : Strings.IsSpace (fst (Utf8.DecodeRune L)) = false).
    { destruct (trimLeft_done (String.length s) s (le_n _)) as [H|H].
      - exfalso. subst L. unfold Strings.TrimLeftSpace in HL.
        rewrite H in HL. discriminate HL.
      - exact H. }
    destruct (DecodeRune_prefix c t suffix) as [E|E].
    + rewrite E, <- HL. exact HLs.
    + rewrite E. reflexivity.
  - rewrite <- ET. unfold Strings.TrimRightSpace. rewrite rev_involutive.
    destruct (trimRightRev_done (String.length L) (Strings.rev L)) as [H|H].
    + rewrite length_rev. apply le_n.
    + exfalso. unfold Strings.TrimRightSpace in ET. rewrite H in ET.
      discriminate ET.
    + exact H.
Qed.

End TrimFacts.

(** X10. The name [CreateProduct] hands to the repository is never empty
    and has no white space at either end: its first rune and its last
    rune are not white space, whatever name the client sent. *)
Theorem stored_name_is_trimmed
        (World : Type) (s : Service.Service World) (name stored : string)
        (w : World) :
  In (Service.RepoCreate stored)
     (Service.trace (snd (Service.run (Service.CreateProduct s name) w))) ->
  stored <> EmptyString
  /\ Strings.IsSpace (fst (Utf8.DecodeRune stored)) = false
  /\ Strings.IsSpace (fst (Strings.DecodeLastRune (Strings.rev stored))) = false.
Proof.
  unfold Service.run. rewrite CreateProduct_exec. cbv zeta.
  destruct (String.eqb_spec (Strings.TrimSpace name) EmptyString) as [E|Hne].
  { intros []. }
  assert (Hstored : stored = Strings.TrimSpace name ->
                    stored <> EmptyString
                    /\ Strings.IsSpace (fst (Utf8.DecodeRune stored)) = false
                    /\ Strings.IsSpace
                         (fst (Strings.DecodeLastRune (Strings.rev stored))) = false).
  { intros ->. split; [exact Hne|].
    destruct (TrimSpace_ends name) as [E|H]; [contradiction | exact H]. }
  destruct (Service.Create (Service.repo s) (Strings.TrimSpace name) w)
    as [[product|err] w1].
  - destruct (Service.now s w1) as [t w2].
    destruct (Service.Publish (Service.publisher s)
                (Service.createdEvent product t) w2) as [perr w3].
    cbn [snd Service.trace app]. intros [H|[H|H]].
    + injection H as <-. apply Hstored. reflexivity.
    + discriminate H.
    + exfalso. apply in_app_or in H. destruct H as [H|[H|[]]].
      * destruct perr; cbn in H; [destruct H as [H|[]]; discriminate H | destruct H].
      * discriminate H.
  - cbn [snd Service.trace app]. intros [H|[]].
    injection H as <-. apply Hstored. reflexivity.
Qed.

Lemma stored_name_is_trimmed_witness :
  "Widget" <> EmptyString
  /\ Strings.IsSpace (fst (Utf8.DecodeRune "Widget")) = false
  /\ Strings.IsSpace (fst (Strings.DecodeLastRune (Strings.rev "Widget"))) = false.
Proof.
  apply (stored_name_is_trimmed InMemory.System InMemory.service
           "  Widget  " "Widget" InMemory.start).
  vm_compute. left. reflexivity.
Defined.

(** * Creation and listing, from the request to the statements *)

Section ThroughTheStore.

Import Service Http Repository.

Variable World : Type.
Variable r : PostgresRepository World.
Variable pub : Service.Publisher World.
Variable clock : World -> Time.Time * World.

(** X11. [POST /products] down to the database: the [INSERT] gets the
    trimmed name as its one argument; when it returns a row the answer is
    201 with that row as body and one [product_created] event carries the
    row's identity and name; when it fails the answer is 500 with a fixed
    text, and nothing is published. *)
Theorem create_by_insert (c : Context) (w : World) (req : createProductRequest) :
  let s := Service.New World (asRepository r) pub clock in
  let out := run (handleCreate (ofService s) c) w in
  let name := Strings.TrimSpace (ReqName req) in
  ShouldBindJSON c = Ok req ->
  name <> EmptyString ->
  (forall p w1,
      QueryRowProduct (db r) insertQuery [ArgText name] w = (Ok p, w1) ->
      fst out = mkResponse StatusCreated (productResponse p)
      /\ exists t,
          published (trace (snd out))
          = [mkEvent "product_created" (ID p) (PName p) (Time.UTC t)])
  /\ (forall e w1,
         QueryRowProduct (db r) insertQuery [ArgText name] w = (Err e, w1) ->
         errorIs e ErrInvalidName = false ->
         out = (mkResponse StatusInternalServerError
                  (errorResponse (Literal "failed to create product")),
                mkMachine w1 [RepoCreate name])).
Proof.
  intros s out name Hbind Hname. subst out name.
  rewrite handleCreate_exec, Hbind. unfold run. rewrite CreateProduct_exec.
  cbv zeta.
  destruct (String.eqb_spec (Strings.TrimSpace (ReqName req)) EmptyString)
    as [E|_]; [contradiction|].
  cbn [repo s asRepository Service.Create]. unfold Create. split.
  - intros p w1 ->. cbn [now s]. destruct (clock w1) as [t w2].
    cbn [publisher s].
    destruct (Publish pub (createdEvent p t) w2) as [perr w3].
    cbn [fst snd trace]. split; [reflexivity|].
    exists t. rewrite !published_app, published_logOf. reflexivity.
  - intros e w1 -> He. cbn [errorIs]. rewrite He. reflexivity.
Qed.

(** X12. [GET /products] down to the database: the [SELECT] gets a
    [LIMIT] from 1 to 100 and, for pages up to 92233720368547758, the
    [OFFSET] of the page; when it fails the answer is 500 and nothing is
    counted; when every row scans and the count succeeds the answer is
    200 with the rows in their order, the page and limit of the request
    and the count as total. *)
Theorem list_by_select (c : Context) (w : World) :
  let s := Service.New World (asRepository r) pub clock in
  let out := run (handleList (ofService s) c) w in
  let page := parseQueryInt (Query c "page") 1 in
  let limit := parseQueryInt (Query c "limit") 10 in
  let lim := Z.min limit 100 in
  let off := wrapInt ((page - 1) * lim) in
  1 <= lim <= 100
  /\ (page <= 92233720368547758 -> off = (page - 1) * lim /\ 0 <= off)
  /\ (forall e w1,
         QueryContext (db r) listQuery [ArgInt lim; ArgInt off] w = (Err e, w1) ->
         out = (mkResponse StatusInternalServerError
                  (errorResponse (Literal "failed to get products")),
                mkMachine w1 [RepoList lim off]))
  /\ (forall rows items total w1 w2,
         QueryContext (db r) listQuery [ArgInt lim; ArgInt off] w = (Ok rows, w1) ->
         scanned rows = map Ok items ->
         rowsErr rows = None ->
         QueryRowInt (db r) countQuery [] (RowsClose (db r) w1) = (Ok total, w2) ->
         out = (mkResponse StatusOK (listProductsResponse items page limit total),
                mkMachine w2 [RepoList lim off; RepoCount])).
Proof.
  intros s out page limit lim off. subst out.
  rewrite handleList_exec. cbv zeta. unfold defaultPage, defaultLimit.
  destruct (parseQueryInt_positive (Query c "page") 1
              ltac:(unfold maxInt64; lia)) as [[Hp _] _].
  destruct (parseQueryInt_positive (Query c "limit") 10
              ltac:(unfold maxInt64; lia)) as [[Hl _] _].
  fold page limit in Hp, Hl |- *.
  unfold run. rewrite ListProducts_exec. cbv zeta.
  assert (HL : effectiveLimit limit = lim).
  { unfold effectiveLimit, lim. destruct (Z.ltb_spec limit 1); [lia|].
    destruct (Z.ltb_spec 100 limit); lia. }
  rewrite HL. replace (Z.max page 1) with page by lia. fold off.
  assert (Hlim : 1 <= lim <= 100) by (unfold lim; lia).
  split; [exact Hlim|]. split; [|split].
  - intros Hpage.
    assert (Hw : off = (page - 1) * lim).
    { unfold off. apply wrapInt_id. unfold minInt64, maxInt64. nia. }
    split; [exact Hw | rewrite Hw; nia].
  - intros e w1 Hq. cbn [repo s asRepository Service.List]. unfold List.
    rewrite Hq. reflexivity.
  - intros rows items total w1 w2 Hq Hrows Herr Hcount.
    cbn [repo s asRepository Service.List Service.Count]. unfold List, Count.
    rewrite Hq, Hrows, Herr, Hcount.
    assert (Hscan : scanAll (map Ok items) [] = Ok items).
    { apply (proj2 (scanAll_spec (map Ok items) [] items)).
      exists items. split; reflexivity. }
    rewrite Hscan. reflexivity.
Qed.

End ThroughTheStore.

Lemma create_by_insert_witness :
  let out := Service.run
               (Http.handleCreate InMemory.handler (Http.postRequest " Widget "))
               InMemory.start in
  fst out = Http.mkResponse Http.StatusCreated
              (Http.productResponse (mkProduct 1 "Widget" ServiceTest.newYear2026))
  /\ exists t,
      Service.published (Service.trace (snd out))
      = [mkEvent "product_created" 1 "Widget" (Time.UTC t)].
Proof.
  refine (proj1 (create_by_insert InMemory.System InMemory.repository
                   (Messaging.asPublisher InMemory.publisher)
                   (fun w => (Messaging.wallClock (InMemory.broker w), w))
                   (Http.postRequest " Widget ") InMemory.start
                   (Http.mkCreateRequest " Widget ") _ _)
                (mkProduct 1 "Widget" ServiceTest.newYear2026)
                (InMemory.mkSystem [mkProduct 1 "Widget" ServiceTest.newYear2026] 2
                   (Messaging.mkBroker [] false ServiceTest.newYear2026)) _).
  - reflexivity.
  - vm_compute. discriminate.
  - vm_compute. reflexivity.
Defined.
